(** * A shallow embedding of the task bot ([src/bot.py])

    Users and tasks are the dictionaries the bot loads from its store;
    the handlers are modelled as functions from the store (and the
    per-chat [context.user_data]) to the new store, the messages sent and
    the next conversation state.  Recursive walks over the [chief_id]
    links are given a fuel argument: [None] stands for a run that never
    returns (in CPython: [RecursionError]), so a Python call terminates
    exactly when some fuel makes the model return [Some]. *)

From Stdlib Require Import String Ascii List ZArith Lia Bool.
Import ListNotations.
Open Scope string_scope.

(** ** Data model *)

(** A row of the [users] table. [chief_id] and [department] are nullable. *)
Record user := mk_user {
  tg_id : string;
  name : string;
  surname : string;
  role : string;
  chief_id : option string;
  department : option string
}.

(** Python's truthiness of an optional string ([None] and [""] are false). *)
Definition truthy (s : option string) : bool :=
  match s with
  | None => false
  | Some v => negb (String.eqb v "")
  end.

(** [next((u for u in users if u["tg_id"] == tg_id), None)] *)
Definition find_user (users : list user) (id : string) : option user :=
  find (fun u => String.eqb (tg_id u) id) users.

(** ** The hierarchy walks *)

(** [u.get('chief_id') == chief_id] for a string [chief_id]. *)
Definition chief_is (c : string) (u : user) : bool :=
  match chief_id u with
  | Some v => String.eqb v c
  | None => false
  end.

(** [get_user_subordinates(chief_id, users)]:
<<
    direct_subordinates = [u for u in users if u.get('chief_id') == chief_id]
    all_subordinates = direct_subordinates.copy()
    for subordinate in direct_subordinates:
        all_subordinates.extend(get_user_subordinates(subordinate['tg_id'], users))
    return all_subordinates
>> *)
(** The [for] loop: [extend] the list with the walk from each element. *)
Fixpoint extend_all (walk : string -> option (list user)) (l : list user)
  : option (list user) :=
  match l with
  | [] => Some []
  | s :: rest =>
      match walk (tg_id s) with
      | None => None
      | Some xs =>
          match extend_all walk rest with
          | None => None
          | Some ys => Some (xs ++ ys)%list
          end
      end
  end.

Fixpoint get_user_subordinates (fuel : nat) (chief : string) (users : list user)
  : option (list user) :=
  match fuel with
  | O => None
  | S f =>
      let direct := filter (chief_is chief) users in
      match extend_all (fun sid => get_user_subordinates f sid users) direct with
      | None => None
      | Some more => Some (direct ++ more)%list
      end
  end.

(** [v] is below [x] in [users]: a chain of chief links leads from [v] up
    to [x], through rows of [users]. *)
Inductive below (users : list user) : string -> user -> Prop :=
| below_direct : forall x v, In v users -> chief_id v = Some x -> below users x v
| below_via : forall x s v,
    In s users -> chief_id s = Some x -> below users (tg_id s) v -> below users x v.

(** [is_user_subordinate(user_id, chief_id, users)]: walk up the chief links. *)
Fixpoint is_user_subordinate (fuel : nat) (user_id chief : string) (users : list user)
  : option bool :=
  match fuel with
  | O => None
  | S f =>
      match find_user users user_id with
      | None => Some false
      | Some u =>
          if negb (truthy (chief_id u)) then Some false
          else match chief_id u with
               | Some c =>
                   if String.eqb c chief then Some true
                   else is_user_subordinate f c chief users
               | None => Some false
               end
      end
  end.

(** The walks terminate on [users] when some fuel suffices. *)
Definition subordinates_terminate (users : list user) (chief : string) : Prop :=
  exists fuel r, get_user_subordinates fuel chief users = Some r.

Definition subordinate_check_terminates (users : list user) (uid chief : string) : Prop :=
  exists fuel b, is_user_subordinate fuel uid chief users = Some b.

(** A rank certificate for the chief links: every link goes strictly up,
    and ranks are bounded.  Such a rank exists exactly when the links of a
    finite dataset are acyclic; links to unknown ids are allowed. *)
Definition ranked (rk : string -> nat) (bound : nat) (users : list user) : Prop :=
  (forall s, rk s <= bound) /\
  (forall u c, In u users -> chief_id u = Some c -> rk (tg_id u) < rk c).

(** Sample datasets. *)
Definition plain (id : string) (r : string) (c : option string) : user :=
  mk_user id id id r c None.

Definition chain_users : list user :=
  [plain "A" "director" None; plain "B" "chief" (Some "A"); plain "C" "manager" (Some "B")].

Definition cyclic_users : list user :=
  [plain "A" "chief" (Some "B"); plain "B" "chief" (Some "A"); plain "D" "director" None].

Definition dangling_users : list user :=
  [plain "A" "chief" (Some "ghost"); plain "B" "manager" (Some "A")].

(** The rank of [dangling_users]: B (1) under A (2) under the unknown id (3). *)
Definition dangling_rank (s : string) : nat :=
  if String.eqb s "B" then 1 else if String.eqb s "A" then 2
  else if String.eqb s "ghost" then 3 else 0.

(** ** Tasks and the store *)

(** A row of the [tasks] table.  The deadline is kept as seconds since the
    epoch; the store holds it as ["%Y-%m-%d %H:%M"], which is exact for the
    whole-minute deadlines the wizard builds. *)
Record task_row := mk_task {
  id : N;
  task_chief_id : string;
  assignee_id : string;
  text : string;
  deadline : Z;
  status : string
}.

(** The database: the two tables and the next value of the [SERIAL] id. *)
Record store := mk_store {
  users_tbl : list user;
  tasks_tbl : list task_row;
  next_id : N
}.

Definition load_users (st : store) : list user := users_tbl st.
Definition load_tasks (st : store) : list task_row := tasks_tbl st.

(** Strings are UTF-8 bytes; [len()] and the database count characters,
    that is the bytes that are not continuation bytes [10xxxxxx]. *)
Definition utf8_continuation (c : ascii) : bool :=
  let n := N_of_ascii c in (128 <=? n)%N && (n <? 192)%N.

Fixpoint py_len (s : string) : nat :=
  match s with
  | EmptyString => 0
  | String c r => (if utf8_continuation c then 0 else 1) + py_len r
  end.

Fixpoint has_nul (s : string) : bool :=
  match s with
  | EmptyString => false
  | String c r => Ascii.eqb c (ascii_of_nat 0) || has_nul r
  end.

(** A value the column [VARCHAR(n)] accepts: at most [n] characters, and no
    NUL character, which psycopg2 refuses to send. *)
Definition fits (n : nat) (s : string) : bool := negb (has_nul s) && Nat.leb (py_len s) n.

Definition fits_opt (n : nat) (o : option string) : bool :=
  match o with Some s => fits n s | None => true end.

(** The row fits the columns of [users]: [tg_id VARCHAR(20)],
    [name VARCHAR(100)], [surname VARCHAR(100)], [role VARCHAR(20)],
    [chief_id VARCHAR(20)], [department VARCHAR(100)]. *)
Definition db_fits (u : user) : bool :=
  fits 20 (tg_id u) && fits 100 (name u) && fits 100 (surname u) && fits 20 (role u)
  && fits_opt 20 (chief_id u) && fits_opt 100 (department u).

(** [save_user]: [INSERT ... ON CONFLICT (tg_id) DO UPDATE].  A row that
    does not fit the columns makes the statement raise; the handler then
    keeps the row in [temp_users] only, which [load_users] reads only when
    the database cannot be reached, so the table is left as it was. *)
Definition save_user (st : store) (u : user) : store :=
  let us := users_tbl st in
  if negb (db_fits u) then st else
  if existsb (fun v => String.eqb (tg_id v) (tg_id u)) us
  then mk_store (map (fun v => if String.eqb (tg_id v) (tg_id u) then u else v) us)
                (tasks_tbl st) (next_id st)
  else mk_store (us ++ [u])%list (tasks_tbl st) (next_id st).

(** Every row of the users table fits its columns, as the column types
    make them in the database. *)
Definition users_fit (st : store) : Prop :=
  forall v, In v (users_tbl st) -> db_fits v = true.

(** [save_task]: an [UPDATE ... WHERE id = %s] when the dictionary carries a
    truthy id, an [INSERT ... RETURNING id] otherwise.  Returns the new store
    and the id. *)
Definition save_task (st : store) (t : task_row) : store * N :=
  if negb (N.eqb (id t) 0) then
    (mk_store (users_tbl st)
              (map (fun r => if N.eqb (id r) (id t) then t else r) (tasks_tbl st))
              (next_id st), id t)
  else
    let k := next_id st in
    (mk_store (users_tbl st)
              (tasks_tbl st ++ [mk_task k (task_chief_id t) (assignee_id t)
                                        (text t) (deadline t) (status t)])%list
              (N.succ k), k).

(** ** Strings as Python handles them (ASCII) *)

Definition is_space (c : ascii) : bool :=
  let n := nat_of_ascii c in
  (((9 <=? n) && (n <=? 13)) || ((28 <=? n) && (n <=? 32)))%nat.

Fixpoint lstrip_l (l : list ascii) : list ascii :=
  match l with
  | c :: r => if is_space c then lstrip_l r else l
  | [] => []
  end.

(** [str.strip()] *)
Definition strip (s : string) : string :=
  string_of_list_ascii
    (rev (lstrip_l (rev (lstrip_l (list_ascii_of_string s))))).

Fixpoint split_aux (sep : ascii) (l : list ascii) (cur : list ascii) : list string :=
  match l with
  | [] => [string_of_list_ascii (rev cur)]
  | c :: r =>
      if Ascii.eqb c sep then string_of_list_ascii (rev cur) :: split_aux sep r []
      else split_aux sep r (c :: cur)
  end.

(** [s.split(sep)] for a one-character separator. *)
Definition split (sep : ascii) (s : string) : list string :=
  split_aux sep (list_ascii_of_string s) [].

(** [sep in s] *)
Definition contains (sep : ascii) (s : string) : bool :=
  existsb (Ascii.eqb sep) (list_ascii_of_string s).

Definition digit_val (c : ascii) : option Z :=
  let n := nat_of_ascii c in
  if ((48 <=? n) && (n <=? 57))%nat then Some (Z.of_nat n - 48)%Z else None.

(** Digits with single underscores between them, as [int()] accepts. *)
Fixpoint digits_val (l : list ascii) (acc : Z) (after_digit : bool) : option Z :=
  match l with
  | [] => if after_digit then Some acc else None
  | c :: r =>
      match digit_val c with
      | Some d => digits_val r (acc * 10 + d)%Z true
      | None =>
          if Ascii.eqb c "_" && after_digit then digits_val r acc false else None
      end
  end.

(** [int(s)] on ASCII input: [None] is the [ValueError]. *)
Definition py_int (s : string) : option Z :=
  match lstrip_l (rev (lstrip_l (rev (list_ascii_of_string s)))) with
  | c :: r =>
      if Ascii.eqb c "-" then option_map Z.opp (digits_val r 0 false)
      else if Ascii.eqb c "+" then digits_val r 0 false
      else digits_val (c :: r) 0 false
  | [] => None
  end.

(** [str(n)] for a non-negative integer. *)
Fixpoint digits_of (fuel : nat) (n : N) (acc : string) : string :=
  match fuel with
  | O => acc
  | S f =>
      let acc' := String (ascii_of_N (48 + N.modulo n 10)) acc in
      if N.ltb n 10 then acc' else digits_of f (N.div n 10) acc'
  end.

Definition str_N (n : N) : string := digits_of (S (N.size_nat n)) n "".

(** ** Time: naive [datetime] values as seconds since 1970-01-01 00:00 *)

Definition is_leap (y : Z) : bool :=
  (Z.eqb (Z.modulo y 4) 0 && negb (Z.eqb (Z.modulo y 100) 0)) || Z.eqb (Z.modulo y 400) 0.

Definition days_in_month (y m : Z) : Z :=
  if Z.eqb m 2 then (if is_leap y then 29 else 28)
  else if existsb (Z.eqb m) [4; 6; 9; 11]%Z then 30 else 31.

(** Days from the civil date to 1970-01-01 (proleptic Gregorian). *)
Definition days_from_civil (y m d : Z) : Z :=
  let y' := if (m <=? 2)%Z then (y - 1)%Z else y in
  let era := Z.div y' 400 in
  let yoe := (y' - era * 400)%Z in
  let mp := if (m >? 2)%Z then (m - 3)%Z else (m + 9)%Z in
  let doy := ((153 * mp + 2) / 5 + d - 1)%Z in
  let doe := (yoe * 365 + yoe / 4 - yoe / 100 + doy)%Z in
  (era * 146097 + doe - 719468)%Z.

(** [datetime.datetime(year, month, day, hour, minute)]: [None] is the
    [ValueError] raised on an out-of-range field. *)
Definition mk_datetime (y m d h mi : Z) : option Z :=
  if (1 <=? y)%Z && (y <=? 9999)%Z && (1 <=? m)%Z && (m <=? 12)%Z
     && (1 <=? d)%Z && (d <=? days_in_month y m)%Z
     && (0 <=? h)%Z && (h <=? 23)%Z && (0 <=? mi)%Z && (mi <=? 59)%Z
  then Some (days_from_civil y m d * 86400 + h * 3600 + mi * 60)%Z
  else None.

Definition one_day : Z := 86400.
Definition one_hour : Z := 3600.

(** ** Conversation states, per-chat data and effects *)

Inductive conv_state :=
| REGISTER_NAME | REGISTER_SURNAME | TASK_TEXT | CHOOSE_USER | DEADLINE_DATE
| DEADLINE_TIME | CHOOSE_USER_FOR_ROLE | CHOOSE_NEW_ROLE | CONFIRM_ROLE_CHANGE
| END.

(** The keys of [context.user_data] the task wizard uses. *)
Record user_data := mk_user_data {
  ud_task_text : option string;
  ud_assignee_id : option string;
  ud_deadline_date : option string;
  ud_task_creator_role : option string;
  ud_task_creator_id : option string
}.

Definition empty_user_data : user_data := mk_user_data None None None None None.

(** Messages sent with [context.bot.send_message] to another chat. *)
Inductive message :=
| NewTaskNotice (task_id : N) (task_text : string) (deadline : Z)
| DoneNotice (assignee_name : string) (task_text : string) (deadline : Z)
| ReminderNotice (task_id : string) (task_text : string) (deadline : Z)
| OverdueNotice (task_text : string) (deadline : Z).

(** Replies ([reply_text] / [edit_message_text]) to the chat being served. *)
Inductive reply :=
| R_time_format | R_hours_range | R_minutes_range | R_date_missing
| R_deadline_past | R_data_lost | R_save_failed | R_send_failed
| R_task_created (assignee_name : string) | R_time_value
| R_task_not_found | R_task_done (task_text : string)
| R_only_chiefs | R_enter_task_text
| R_need_start | R_no_tasks | R_task_list (tasks : list task_row)
| R_welcome_director | R_welcome_manager.

(** A job armed with [jobq.run_once(send_deadline_reminder, when=..., data=...)]. *)
Record job := mk_job {
  job_when : Z;
  job_task_id : string;
  job_chat_id : Z;
  job_task_text : string;
  job_deadline : Z;
  job_role : string
}.

(** ** Reminders *)

(** [schedule_deadline_reminders(application, task_id, chief_id, assignee_id,
    task_text, deadline_dt)] at time [now]: the jobs it arms, in order. *)
Definition schedule_deadline_reminders (now : Z) (task_id : string) (chief assignee : Z)
  (task_text : string) (deadline_dt : Z) : list job :=
  let reminders :=
    [(deadline_dt - one_day, "assignee", assignee);
     (deadline_dt - one_hour, "assignee", assignee);
     (deadline_dt + one_hour, "chief", chief)]%Z in
  map (fun '(t, r, c) => mk_job t task_id c task_text deadline_dt r)
      (filter (fun '(t, _, _) => (now <? t)%Z) reminders).

(** [next((t for t in tasks if str(t["id"]) == str(task_id)), None)] *)
Definition find_task (tasks : list task_row) (task_id : string) : option task_row :=
  find (fun t => String.eqb (str_N (id t)) task_id) tasks.

(** [send_deadline_reminder(context)] when the job [j] fires: the messages
    it sends, as [(chat_id, message)]. *)
Definition send_deadline_reminder (st : store) (j : job) : list (Z * message) :=
  match find_task (load_tasks st) (job_task_id j) with
  | None => []
  | Some t =>
      if String.eqb (status t) "done" then []
      else if String.eqb (job_role j) "assignee"
      then [(job_chat_id j, ReminderNotice (job_task_id j) (job_task_text j) (job_deadline j))]
      else [(job_chat_id j, OverdueNotice (job_task_text j) (job_deadline j))]
  end.

(** ** Task creation *)

(** [f"{name} {surname}"] of the user, or the id itself. *)
Definition display_name (users : list user) (uid : string) : string :=
  match find_user users uid with
  | Some u => name u ++ " " ++ surname u
  | None => uid
  end.

(** [task(update, context)]: the entry of the creation wizard. *)
Definition task (st : store) (ud : user_data) (tg_id : string) : conv_state * user_data * list reply :=
  match find_user (load_users st) tg_id with
  | Some u =>
      if String.eqb (role u) "director" || String.eqb (role u) "chief" then
        (TASK_TEXT,
         mk_user_data (ud_task_text ud) (ud_assignee_id ud) (ud_deadline_date ud)
                      (Some (role u)) (Some tg_id),
         [R_enter_task_text])
      else (END, ud, [R_only_chiefs])
  | None => (END, ud, [R_only_chiefs])
  end.

(** The outcome of a handler: next state, store, per-chat data, jobs armed,
    messages delivered to other chats, replies to this chat. *)
Record outcome := mk_outcome {
  o_state : conv_state;
  o_store : store;
  o_user_data : user_data;
  o_jobs : list job;
  o_sent : list (Z * message);
  o_replies : list reply
}.

Definition option_truthy (s : option string) : bool := truthy s.

Definition get_or_empty (s : option string) : string :=
  match s with Some v => v | None => "" end.

(** [deadline_time_handler(update, context)].  [sender] is
    [update.effective_user.id], [now] is [datetime.now()] (whole seconds: a
    whole-minute deadline compares with [now] as with its integral part),
    and [send_ok] tells whether the transport delivers the message to the
    assignee (it raises otherwise, e.g. when the bot is blocked). *)
(** The validation part of [deadline_time_handler]: either the state and
    reply it returns early with, or [deadline_dt].  A [ValueError] raised by
    [int()], by the unpacking of the date or by [datetime()] is caught by
    [except ValueError] and re-prompts the time. *)
Definition deadline_input (ud : user_data) (msg_text : string) : (conv_state * reply) + Z :=
  let time_str := strip msg_text in
  if negb (contains ":" time_str) then inl (DEADLINE_TIME, R_time_format) else
  match split ":" time_str with
  | [p0; p1] =>
    match py_int p0, py_int p1 with
    | Some hours, Some minutes =>
      if ((hours <? 0) || (hours >? 23))%Z then inl (DEADLINE_TIME, R_hours_range) else
      if ((minutes <? 0) || (minutes >? 59))%Z then inl (DEADLINE_TIME, R_minutes_range) else
      if negb (option_truthy (ud_deadline_date ud)) then inl (END, R_date_missing) else
      match map py_int (split "." (get_or_empty (ud_deadline_date ud))) with
      | [Some day; Some month; Some year] =>
        match mk_datetime year month day hours minutes with
        | None => inl (DEADLINE_TIME, R_time_value)
        | Some deadline_dt => inr deadline_dt
        end
      | _ => inl (DEADLINE_TIME, R_time_value)
      end
    | _, _ => inl (DEADLINE_TIME, R_time_value)
    end
  | _ => inl (DEADLINE_TIME, R_time_format)
  end.

(** [deadline_time_handler(update, context)].  [sender] is
    [update.effective_user.id], [now] is [datetime.now()] (whole seconds: a
    whole-minute deadline compares with [now] as with its integral part),
    and [send_ok] tells whether the transport delivers the message to the
    assignee (it raises otherwise, e.g. when the bot is blocked). *)
Definition deadline_time_handler (st : store) (ud : user_data) (sender : N)
  (msg_text : string) (now : Z) (send_ok : bool) : outcome :=
  match deadline_input ud msg_text with
  | inl (s, r) => mk_outcome s st ud [] [] [r]
  | inr deadline_dt =>
    if (deadline_dt <=? now)%Z
    then mk_outcome DEADLINE_DATE st ud [] [] [R_deadline_past] else
    let chief_id := str_N sender in
    let task_text := get_or_empty (ud_task_text ud) in
    if negb (option_truthy (ud_assignee_id ud)) || String.eqb task_text ""
    then mk_outcome END st ud [] [] [R_data_lost] else
    let assignee := get_or_empty (ud_assignee_id ud) in
    let '(st1, task_id) :=
      save_task st (mk_task 0 chief_id assignee task_text deadline_dt "new") in
    if N.eqb task_id 0 then mk_outcome END st1 ud [] [] [R_save_failed] else
    (* int(chief_id), int(assignee_id) are evaluated before the call;
       a ValueError is caught and logged *)
    let jobs :=
      match py_int chief_id, py_int assignee with
      | Some c, Some a =>
          schedule_deadline_reminders now (str_N task_id) c a task_text deadline_dt
      | _, _ => []
      end in
    let assignee_name := display_name (load_users st1) assignee in
    let '(sent, warn) :=
      match py_int assignee with
      | Some a =>
          if send_ok then ([(a, NewTaskNotice task_id task_text deadline_dt)], [])
          else ([], [R_send_failed])
      | None => ([], [R_send_failed])
      end in
    mk_outcome END st1 empty_user_data jobs sent (warn ++ [R_task_created assignee_name])%list
  end.

(** ** Completion *)

(** [mark_done(update, context)] for the callback data ["done:" ++ task_id].
    [send_ok] tells whether the notification reaches the creator. *)
Definition mark_done (st : store) (task_id : string) (send_ok : bool) : outcome :=
  match find_task (load_tasks st) task_id with
  | None => mk_outcome END st empty_user_data [] [] [R_task_not_found]
  | Some t =>
      let t' := mk_task (id t) (task_chief_id t) (assignee_id t) (text t) (deadline t) "done" in
      let st1 := fst (save_task st t') in
      (* the whole notification block sits in a try/except that logs *)
      let assignee_name := display_name (load_users st1) (assignee_id t') in
      let sent :=
        match py_int (task_chief_id t') with
        | Some c => if send_ok then [(c, DoneNotice assignee_name (text t') (deadline t'))] else []
        | None => []
        end in
      mk_outcome END st1 empty_user_data [] sent [R_task_done (text t')]
  end.

(** ** Listing *)

(** [(now - deadline_dt).days]: the floor of the difference in days. *)
Definition days_passed (now d : Z) : Z := Z.div (now - d) one_day.

(** [filter_old_tasks(tasks, max_days_old)] *)
Definition filter_old_tasks (now : Z) (tasks : list task_row) (max_days_old : Z) : list task_row :=
  filter (fun t => negb (String.eqb (status t) "done")
                   || (days_passed now (deadline t) <=? max_days_old)%Z) tasks.

(** [[t for t in tasks if p(t)]] for a test that may not return. *)
Fixpoint filter_opt {A} (p : A -> option bool) (l : list A) : option (list A) :=
  match l with
  | [] => Some []
  | x :: r =>
      match p x, filter_opt p r with
      | Some b, Some ys => Some (if b then x :: ys else ys)
      | _, _ => None
      end
  end.

(** The chief's test [t["chief_id"] == tg_id or is_user_subordinate(...)]. *)
Definition chief_sees (fuel : nat) (users : list user) (tg_id : string) (t : task_row) : option bool :=
  if String.eqb (task_chief_id t) tg_id then Some true
  else is_user_subordinate fuel (assignee_id t) tg_id users.

(** [show_tasks(update, context)]: [None] when the walk does not return. *)
Definition show_tasks (fuel : nat) (st : store) (tg_id : string) (now : Z) : option reply :=
  let users := load_users st in
  match find_user users tg_id with
  | None => Some R_need_start
  | Some u =>
      let tasks := filter_old_tasks now (load_tasks st) 2 in
      let user_tasks :=
        if String.eqb (role u) "director" then Some tasks
        else if String.eqb (role u) "chief" then filter_opt (chief_sees fuel users tg_id) tasks
        else Some (filter (fun t => String.eqb (assignee_id t) tg_id) tasks) in
      match user_tasks with
      | None => None
      | Some [] => Some R_no_tasks
      | Some l => Some (R_task_list l)
      end
  end.

(** The tasks a reply lists. *)
Definition listed (r : reply) : list task_row :=
  match r with R_task_list l => l | _ => [] end.

(** ** Registration *)

(** [register_surname(update, context)] once the name is known. *)
Definition register_surname (st : store) (uid name surname : string) : store * reply :=
  let users := load_users st in
  match users with
  | [] =>
      (save_user st (mk_user uid name surname "director" None (Some "management")),
       R_welcome_director)
  | _ :: _ =>
      let director := find (fun u => String.eqb (role u) "director") users in
      let chief_id := option_map (fun d => tg_id d) director in
      (save_user st (mk_user uid name surname "manager" chief_id (Some "general")),
       R_welcome_manager)
  end.

(** A whole registration dialogue ([/start], name, surname) of one user:
    [start] ends it at once for a user already in the table. *)
Definition register (st : store) (r : string * string * string) : store :=
  let '(uid, nm, sn) := r in
  match find_user (load_users st) uid with
  | Some _ => st
  | None => fst (register_surname st uid nm sn)
  end.

Definition register_all (st : store) (rs : list (string * string * string)) : store :=
  fold_left register rs st.

Definition empty_store : store := mk_store [] [] 1.

(** The shape registrations keep: the first row is the director [d], every
    other row a manager whose chief is [d]. *)
Definition headed_by (d : user) (users : list user) : Prop :=
  exists rest, users = d :: rest /\ role d = "director" /\ chief_id d = None /\
    department d = Some "management" /\
    Forall (fun u => role u = "manager" /\ chief_id u = Some (tg_id d)) rest.

(** Registrations so far: none stored, or headed by a director. *)
Definition empty_or_headed (st : store) : Prop :=
  users_tbl st = [] \/ exists d, headed_by d (users_tbl st).

(** A name of 101 characters, one more than the column users.name holds. *)
Definition long_name : string :=
  "xxxxxxxxxxxxxxxxxxxxxxxxxxxxxxxxxxxxxxxxxxxxxxxxxxxxxxxxxxxxxxxxxxxxxxxxxxxxxxxxxxxxxxxxxxxxxxxxxxxxx".

Definition count_role (r : string) (users : list user) : nat :=
  length (filter (fun u => String.eqb (role u) r) users).

(** Sample stores: director 100 and manager 200; task 1 (of 100 for 200),
    still open or already done. *)
Definition sample_users : list user :=
  [plain "100" "director" None; plain "200" "manager" (Some "100")].

Definition sample_task (st : string) : task_row :=
  mk_task 1 "100" "200" "report" 1758378600 st.

Definition open_store : store := mk_store sample_users [sample_task "new"] 2.
Definition done_store : store := mk_store sample_users [sample_task "done"] 2.

(** [task] with the status set to ["done"], as [mark_done] saves it. *)
Definition as_done (t : task_row) : task_row :=
  mk_task (id t) (task_chief_id t) (assignee_id t) (text t) (deadline t) "done".

(** What [show_tasks] keeps for the requester [u] (id [uid]), by role. *)
Definition visible_by_role (fuel : nat) (users : list user) (u : user) (uid : string)
  (t : task_row) : Prop :=
  if String.eqb (role u) "director" then True
  else if String.eqb (role u) "chief"
  then task_chief_id t = uid \/ is_user_subordinate fuel (assignee_id t) uid users = Some true
  else assignee_id t = uid.

(** A done task is kept by [filter_old_tasks] for two days after its deadline. *)
Definition recent (now : Z) (t : task_row) : Prop :=
  status t <> "done" \/ (days_passed now (deadline t) <= 2)%Z.

(** A chief (300, under director 100) to whom the director assigned task 1. *)
Definition chief_store : store :=
  mk_store [plain "100" "director" None; plain "300" "chief" (Some "100")]
           [mk_task 1 "100" "300" "audit" 1758378600 "new"] 2.

(** ** Further handlers *)

(** Replies of the handlers below (the texts are abbreviated). *)
Inductive answer :=
| A_date_format | A_date_invalid | A_enter_time
| A_only_chiefs | A_no_employees | A_choose_employee (offered : list user)
| A_enter_date
| A_welcome_back | A_enter_name | A_enter_surname
| A_only_director | A_no_others | A_choose_user (offered : list user)
| A_user_not_found | A_director_fixed | A_choose_role (roles : list string)
| A_confirm | A_role_cancelled | A_role_changed | A_update_failed
| A_only_managers | A_no_completed | A_completed (tasks : list task_row)
| A_need_start | A_only_director_chief | A_no_staff | A_staff (users : list user)
| A_stats_empty | A_stats (total completed pending : nat).

(** *** [get_db_connection] *)

(** [s.startswith(p)] *)
Definition startswith (p s : string) : bool := String.prefix p s.

Fixpoint drop_str (n : nat) (s : string) : string :=
  match n, s with
  | O, _ => s
  | S k, String _ r => drop_str k r
  | S _, EmptyString => EmptyString
  end.

(** [s.replace(old, new, 1)] for a nonempty [old]. *)
Fixpoint replace1 (old new s : string) : string :=
  match s with
  | EmptyString => EmptyString
  | String c r =>
      if String.prefix old s then new ++ drop_str (String.length old) s
      else String c (replace1 old new r)
  end.

(** The URL [get_db_connection] passes to [psycopg2.connect], from
    [os.getenv("DATABASE_URL")]; [None] when it returns [None] without
    connecting. *)
Definition get_db_url (database_url : option string) : option string :=
  match database_url with
  | None => None
  | Some u =>
      if String.eqb u "" then None
      else if startswith "postgres://" u
           then Some (replace1 "postgres://" "postgresql://" u)
           else Some u
  end.

(** *** [reload_all_reminders] *)

(** One iteration of the loop over the tasks: the jobs armed so far and
    [count].  The deadline column is [NOT NULL], so [task.get("deadline")] is
    a (truthy) [datetime]; [int()] is applied to both ids before the call, and
    its [ValueError] is logged and skips the task. *)
Definition reload_task (now : Z) (acc : list job * nat) (t : task_row) : list job * nat :=
  let '(jobs, count) := acc in
  if String.eqb (status t) "new" then
    if (now <? deadline t)%Z then
      match py_int (task_chief_id t), py_int (assignee_id t) with
      | Some c, Some a =>
          ((jobs ++ schedule_deadline_reminders now (str_N (id t)) c a (text t) (deadline t))%list,
           S count)
      | _, _ => acc
      end
    else acc
  else acc.

(** [reload_all_reminders(application)] at start-up time [now]: the jobs
    armed and the number logged as restored. *)
Definition reload_all_reminders (st : store) (now : Z) : list job * nat :=
  fold_left (reload_task now) (load_tasks st) ([], O).

(** What [reload_all_reminders] does with one task, and whether it counts it. *)
Definition task_jobs (now : Z) (t : task_row) : list job := fst (reload_task now ([], O) t).

Definition armed (now : Z) (t : task_row) : bool :=
  String.eqb (status t) "new" && (now <? deadline t)%Z
  && match py_int (task_chief_id t), py_int (assignee_id t) with
     | Some _, Some _ => true
     | _, _ => false
     end.

(** The shape of the store the [SERIAL] column and the primary key keep:
    task ids are non-zero, distinct and below the next value, user ids are
    distinct. *)
Definition store_wf (st : store) : Prop :=
  (0 < next_id st)%N /\
  Forall (fun t => (0 < id t < next_id st)%N) (tasks_tbl st) /\
  NoDup (map id (tasks_tbl st)) /\
  NoDup (map tg_id (users_tbl st)).

(** *** [deadline_date_handler] *)

Definition is_digit (c : ascii) : bool :=
  match digit_val c with Some _ => true | None => false end.

(** [re.match(r'^\d{2}\.\d{2}\.\d{4}$', date_str)] on a stripped string
    (so [$] cannot match before a final newline). *)
Definition date_format_ok (s : string) : bool :=
  match list_ascii_of_string s with
  | [d1; d2; p1; m1; m2; p2; y1; y2; y3; y4] =>
      forallb is_digit [d1; d2; m1; m2; y1; y2; y3; y4]
      && Ascii.eqb p1 "." && Ascii.eqb p2 "."
  | _ => false
  end.

(** [deadline_date_handler(update, context)]: the date is checked with
    [datetime.datetime(year, month, day)] and kept as typed. *)
Definition deadline_date_handler (ud : user_data) (msg_text : string)
  : conv_state * user_data * answer :=
  let date_str := strip msg_text in
  if negb (date_format_ok date_str) then (DEADLINE_DATE, ud, A_date_format) else
  match map py_int (split "." date_str) with
  | [Some day; Some month; Some year] =>
      match mk_datetime year month day 0 0 with
      | Some _ =>
          (DEADLINE_TIME,
           mk_user_data (ud_task_text ud) (ud_assignee_id ud) (Some date_str)
                        (ud_task_creator_role ud) (ud_task_creator_id ud),
           A_enter_time)
      | None => (DEADLINE_DATE, ud, A_date_invalid)
      end
  | _ => (DEADLINE_DATE, ud, A_date_invalid)
  end.

(** *** The rest of the creation wizard *)

(** [task_text_handler(update, context)]: the text is kept stripped (also
    when it is empty); the employees offered depend on the role [task] stored. *)
Definition task_text_handler (st : store) (ud : user_data) (msg_text : string)
  : conv_state * user_data * answer :=
  let ud1 := mk_user_data (Some (strip msg_text)) (ud_assignee_id ud) (ud_deadline_date ud)
                          (ud_task_creator_role ud) (ud_task_creator_id ud) in
  let users := load_users st in
  let creator_role := get_or_empty (ud_task_creator_role ud) in
  let creator_id := get_or_empty (ud_task_creator_id ud) in
  let subs :=
    if String.eqb creator_role "director"
    then Some (filter (fun u => negb (String.eqb (tg_id u) creator_id)) users)
    else if String.eqb creator_role "chief"
    then Some (filter (fun u => String.eqb (role u) "manager") users)
    else None in
  match subs with
  | None => (END, ud1, A_only_chiefs)
  | Some [] => (END, ud1, A_no_employees)
  | Some l => (CHOOSE_USER, ud1, A_choose_employee l)
  end.

(** The [callback_data] of the button offered for [u]. *)
Definition assign_button (u : user) : string := "assign:" ++ tg_id u.

(** [assign_task(update, context)] for the callback data [data]; [None] is
    the [IndexError] of [query.data.split(":")[1]]. *)
Definition assign_task (ud : user_data) (data : string) : option (conv_state * user_data * answer) :=
  match split ":" data with
  | _ :: assignee :: _ =>
      Some (DEADLINE_DATE,
            mk_user_data (ud_task_text ud) (Some assignee) (ud_deadline_date ud)
                         (ud_task_creator_role ud) (ud_task_creator_id ud),
            A_enter_date)
  | _ => None
  end.

(** *** The registration dialogue *)

(** The keys [tg_id] and [name] of [context.user_data] it uses. *)
Record reg_data := mk_reg_data { rd_tg_id : option string; rd_name : option string }.

(** [start(update, context)] *)
Definition start (st : store) (tg_id : string) (rd : reg_data) : conv_state * reg_data * answer :=
  match find_user (load_users st) tg_id with
  | Some _ => (END, rd, A_welcome_back)
  | None => (REGISTER_NAME, mk_reg_data (Some tg_id) (rd_name rd), A_enter_name)
  end.

(** [register_name(update, context)] *)
Definition register_name (rd : reg_data) (msg_text : string) : conv_state * reg_data * answer :=
  (REGISTER_SURNAME, mk_reg_data (rd_tg_id rd) (Some (strip msg_text)), A_enter_surname).

(** [register_surname(update, context)]; [None] is the [KeyError] of a
    missing [tg_id] or [name]. *)
Definition register_surname_handler (st : store) (rd : reg_data) (msg_text : string)
  : option (store * reply) :=
  match rd_tg_id rd, rd_name rd with
  | Some uid, Some nm => Some (register_surname st uid nm (strip msg_text))
  | _, _ => None
  end.

(** *** Changing roles *)

(** The keys [role_user_id], [new_role], [current_role] and
    [available_roles] of [context.user_data]. *)
Record role_data := mk_role_data {
  rl_user_id : option string;
  rl_new_role : option string;
  rl_current_role : option string;
  rl_available : option (list string)
}.

Definition empty_role_data : role_data := mk_role_data None None None None.

(** [change_role(update, context)] *)
Definition change_role (st : store) (uid : string) : conv_state * answer :=
  let users := load_users st in
  match find_user users uid with
  | Some u =>
      if String.eqb (role u) "director" then
        match filter (fun v => negb (String.eqb (tg_id v) uid)) users with
        | [] => (END, A_no_others)
        | subs => (CHOOSE_USER_FOR_ROLE, A_choose_user subs)
        end
      else (END, A_only_director)
  | None => (END, A_only_director)
  end.

(** [choose_user_for_role(update, context)] for the callback data [data]. *)
Definition choose_user_for_role (st : store) (rd : role_data) (data : string)
  : option (conv_state * role_data * answer) :=
  match split ":" data with
  | _ :: user_id :: _ =>
      let rd1 := mk_role_data (Some user_id) (rl_new_role rd) (rl_current_role rd) (rl_available rd) in
      match find_user (load_users st) user_id with
      | None => Some (END, rd1, A_user_not_found)
      | Some u =>
          let current_role := role u in
          if String.eqb current_role "director" then Some (END, rd1, A_director_fixed)
          else
            let available_roles :=
              if String.eqb current_role "chief" then ["manager"; "director"]
              else ["chief"; "director"] in
            Some (CHOOSE_NEW_ROLE,
                  mk_role_data (Some user_id) (rl_new_role rd) (Some current_role)
                               (Some available_roles),
                  A_choose_role available_roles)
      end
  | _ => None
  end.

(** [choose_new_role(update, context)]; [None] is an [IndexError] or a
    [KeyError]. *)
Definition choose_new_role (st : store) (rd : role_data) (data : string)
  : option (conv_state * role_data * answer) :=
  match split ":" data with
  | _ :: new_role :: _ =>
      let rd1 := mk_role_data (rl_user_id rd) (Some new_role) (rl_current_role rd) (rl_available rd) in
      match rl_user_id rd with
      | None => None
      | Some user_id =>
          match find_user (load_users st) user_id with
          | None => Some (END, rd1, A_user_not_found)
          | Some _ =>
              match rl_current_role rd with
              | None => None
              | Some _ => Some (CONFIRM_ROLE_CHANGE, rd1, A_confirm)
              end
          end
      end
  | _ => None
  end.

(** [l] with its first element satisfying [p] replaced by [x]: the dictionary
    found with [next(...)] is mutated in place inside [users]. *)
Fixpoint update_first {A} (p : A -> bool) (x : A) (l : list A) : list A :=
  match l with
  | [] => []
  | y :: r => if p y then x :: r else y :: update_first p x r
  end.

Definition with_role (u : user) (r : string) : user :=
  mk_user (tg_id u) (name u) (surname u) r (chief_id u) (department u).
Definition with_chief (u : user) (c : option string) : user :=
  mk_user (tg_id u) (name u) (surname u) (role u) c (department u).
Definition with_department (u : user) (d : option string) : user :=
  mk_user (tg_id u) (name u) (surname u) (role u) (chief_id u) d.

(** [director["tg_id"]] if a director was found, else the value kept. *)
Definition chief_of (director : option user) (keep : option string) : option string :=
  match director with Some d => Some (tg_id d) | None => keep end.

(** The result of [confirm_role_change]: next state, store, per-chat data,
    the chats told their new role (with the role), the reply. *)
Record role_outcome := mk_role_outcome {
  ro_state : conv_state;
  ro_store : store;
  ro_data : role_data;
  ro_sent : list (Z * string);
  ro_answer : answer
}.

(** [confirm_role_change(update, context)] for the callback data [data];
    [send_ok] tells whether the notice reaches the employee.  [None] is an
    exception that escapes the handler before anything is saved: an
    [IndexError], a [KeyError] or the walk over the subordinates not
    returning. *)
Definition confirm_role_change (fuel : nat) (st : store) (rd : role_data) (data : string)
  (send_ok : bool) : option role_outcome :=
  match split ":" data with
  | _ :: confirmation :: _ =>
    if String.eqb confirmation "no" then Some (mk_role_outcome END st rd [] A_role_cancelled) else
    match rl_user_id rd, rl_new_role rd, rl_current_role rd with
    | Some user_id, Some new_role, Some old_role =>
      let users := load_users st in
      let is_target := fun v => String.eqb (tg_id v) user_id in
      match find_user users user_id with
      | None => Some (mk_role_outcome END st rd [] A_user_not_found)
      | Some u =>
        let u1 := with_role u new_role in
        let users1 := update_first is_target u1 users in
        let director := find (fun v => String.eqb (role v) "director") users1 in
        let saved :=
          if String.eqb new_role "chief" && String.eqb old_role "manager" then
            let u2 := with_chief (with_department u1 (Some ("Отдел " ++ surname u)))
                                 (chief_of director (chief_id u1)) in
            Some (st, u2)
          else if String.eqb new_role "manager" && String.eqb old_role "chief" then
            let u2 := with_chief (with_department u1 None) (chief_of director (chief_id u1)) in
            let users2 := update_first is_target u2 users1 in
            match get_user_subordinates fuel user_id users2 with
            | None => None
            | Some subs =>
                let moved := map (fun s => with_chief s (chief_of director None))
                                 (filter (fun s => negb (is_target s)) subs) in
                Some (fold_left save_user moved st, u2)
            end
          else if String.eqb new_role "director" then
            Some (st, with_chief (with_department u1 (Some "management")) None)
          else Some (st, u1) in
        match saved with
        | None => None
        | Some (st1, u2) =>
            let st2 := save_user st1 u2 in
            match find_user (load_users st2) user_id with
            | None => Some (mk_role_outcome END st2 rd [] A_update_failed)
            | Some _ =>
                let sent :=
                  match py_int user_id with
                  | Some c => if send_ok then [(c, new_role)] else []
                  | None => []
                  end in
                Some (mk_role_outcome END st2 empty_role_data sent A_role_changed)
            end
        end
      end
    | _, _, _ => None
    end
  | _ => None
  end.

(** *** Listings *)

(** [show_completed_tasks(update, context)] *)
Definition show_completed_tasks (st : store) (tg_id : string) : answer :=
  match find_user (load_users st) tg_id with
  | Some u =>
      if String.eqb (role u) "manager" then
        match filter (fun t => String.eqb (assignee_id t) tg_id && String.eqb (status t) "done")
                     (load_tasks st) with
        | [] => A_no_completed
        | l => A_completed l
        end
      else A_only_managers
  | None => A_only_managers
  end.

(** [show_employees(update, context)]: [None] when the walk does not return. *)
Definition show_employees (fuel : nat) (st : store) (uid : string) : option answer :=
  let users := load_users st in
  match find_user users uid with
  | None => Some A_need_start
  | Some u =>
      let subs :=
        if String.eqb (role u) "director"
        then Some (Some (filter (fun v => negb (String.eqb (tg_id v) uid)) users))
        else if String.eqb (role u) "chief"
        then option_map Some (get_user_subordinates fuel uid users)
        else Some None in
      match subs with
      | None => None
      | Some None => Some A_only_director_chief
      | Some (Some []) => Some A_no_staff
      | Some (Some l) => Some (A_staff l)
      end
  end.

(** [show_statistics(update, context)]: the three counts (the rounded rate
    is computed from them). *)
Definition show_statistics (fuel : nat) (st : store) (tg_id : string) : option answer :=
  let users := load_users st in
  let tasks := load_tasks st in
  match find_user users tg_id with
  | None => Some A_need_start
  | Some u =>
      let user_tasks :=
        if String.eqb (role u) "director" then Some (Some tasks)
        else if String.eqb (role u) "chief"
        then option_map Some (filter_opt (chief_sees fuel users tg_id) tasks)
        else Some None in
      match user_tasks with
      | None => None
      | Some None => Some A_only_director_chief
      | Some (Some []) => Some A_stats_empty
      | Some (Some l) =>
          let total := length l in
          let completed := length (filter (fun t => String.eqb (status t) "done") l) in
          Some (A_stats total completed (total - completed))
      end
  end.

(** Sample data for the further handlers: director 100, chief 300 under
    the director, manager 400 under the chief and manager 500 under 400;
    the role changes of the chief to manager, of 400 to chief and of the
    chief to director. *)
Definition team_users : list user :=
  [plain "100" "director" None; plain "300" "chief" (Some "100");
   plain "400" "manager" (Some "300"); plain "500" "manager" (Some "400")].
Definition team_store : store := mk_store team_users [] 1.
Definition demote_rd : role_data :=
  mk_role_data (Some "300") (Some "manager") (Some "chief") (Some ["manager"; "director"]).
Definition promote_rd : role_data :=
  mk_role_data (Some "400") (Some "chief") (Some "manager") (Some ["chief"; "director"]).
Definition crown_rd : role_data :=
  mk_role_data (Some "300") (Some "director") (Some "chief") (Some ["manager"; "director"]).

(** The first reminder that [reload_all_reminders] re-arms for the open
    sample task, two days ahead. *)
Definition sample_job : job :=
  mk_job 1758292200 "1" 200 "report" 1758378600 "assignee".

(** Every character is a decimal digit. *)
Definition all_digits (l : list ascii) : Prop := Forall (fun c => digit_val c <> None) l.

(** * Properties *)

(** ** Reminders *)

(** C2: the scheduler derives the three fire times deadline - 1 day,
    deadline - 1 hour (to the assignee) and deadline + 1 hour (to the creator),
    arms one job for each that is strictly after [now], and none for a past
    one; three days ahead all three are armed, thirty minutes ahead only the
    hour-after one. *)
Theorem schedule_deadline_reminders_fire_times :
  (forall now tid c a txt d,
      map (fun j => (job_when j, job_role j, job_chat_id j))
          (schedule_deadline_reminders now tid c a txt d)
      = filter (fun '(t, _, _) => (now <? t)%Z)
               [(d - 86400, "assignee", a); (d - 3600, "assignee", a); (d + 3600, "chief", c)]%Z
      /\ (forall j, In j (schedule_deadline_reminders now tid c a txt d) ->
            (now < job_when j)%Z /\ job_task_id j = tid /\ job_task_text j = txt
            /\ job_deadline j = d)) /\
  (forall now tid c a txt,
      let d := (now + 3 * 86400)%Z in
      map (fun j => (job_when j, job_role j))
          (schedule_deadline_reminders now tid c a txt d)
      = [(d - 86400, "assignee"); (d - 3600, "assignee"); (d + 3600, "chief")]%Z) /\
  (forall now tid c a txt,
      let d := (now + 30 * 60)%Z in
      map (fun j => (job_when j, job_role j))
          (schedule_deadline_reminders now tid c a txt d)
      = [(d + 3600, "chief")]%Z).
Proof.
  split; [|split].
  - intros now tid c a txt d. split.
    + unfold schedule_deadline_reminders, one_day, one_hour.
      rewrite map_map.
      cbn [filter].
      destruct (now <? d - 86400)%Z, (now <? d - 3600)%Z, (now <? d + 3600)%Z;
        reflexivity.
    + intros j Hj. unfold schedule_deadline_reminders in Hj.
      apply in_map_iff in Hj as [[[t r] ch] [<- Hin]].
      apply filter_In in Hin as [_ Hlt]. apply Z.ltb_lt in Hlt.
      cbn. repeat split; assumption.
  - intros now tid c a txt. cbn zeta.
    unfold schedule_deadline_reminders, one_day, one_hour. cbn [filter].
    replace (now <? now + 3 * 86400 - 86400)%Z with true by (symmetry; apply Z.ltb_lt; lia).
    replace (now <? now + 3 * 86400 - 3600)%Z with true by (symmetry; apply Z.ltb_lt; lia).
    replace (now <? now + 3 * 86400 + 3600)%Z with true by (symmetry; apply Z.ltb_lt; lia).
    reflexivity.
  - intros now tid c a txt. cbn zeta.
    unfold schedule_deadline_reminders, one_day, one_hour. cbn [filter].
    replace (now <? now + 30 * 60 - 86400)%Z with false by (symmetry; apply Z.ltb_ge; lia).
    replace (now <? now + 30 * 60 - 3600)%Z with false by (symmetry; apply Z.ltb_ge; lia).
    replace (now <? now + 30 * 60 + 3600)%Z with true by (symmetry; apply Z.ltb_lt; lia).
    reflexivity.
Qed.

(** C6: a firing reminder sends a message (to the job's chat) only when the
    task, looked up again in the store by id, exists and is not done. *)
Theorem send_deadline_reminder_revalidates :
  forall st j,
    (send_deadline_reminder st j <> [] <->
     exists t, find_task (tasks_tbl st) (job_task_id j) = Some t /\ status t <> "done") /\
    Forall (fun m => fst m = job_chat_id j) (send_deadline_reminder st j) /\
    length (send_deadline_reminder st j) <= 1.
Proof.
  intros st j. unfold send_deadline_reminder, load_tasks.
  destruct (find_task (tasks_tbl st) (job_task_id j)) as [t|] eqn:Ef.
  - destruct (String.eqb (status t) "done") eqn:Ed.
    + apply String.eqb_eq in Ed. split; [|split; [constructor | cbn; lia]].
      split; [intros H; congruence|].
      intros [t' [Ht' Hn]]. injection Ht' as <-. contradiction.
    + apply String.eqb_neq in Ed.
      destruct (String.eqb (job_role j) "assignee");
        (split; [|split; [repeat constructor | cbn; lia]]);
        (split; [intros _; exists t; split; [reflexivity | assumption] | discriminate]).
  - split; [|split; [constructor | cbn; lia]].
    split; [intros H; congruence|]. intros [t' [H _]]. discriminate.
Qed.

(** ** The hierarchy walks *)

Lemma chief_is_other : forall u c x,
  chief_id u = Some c -> c <> x -> chief_is x u = false.
Proof.
  intros u c x Hc Hne. unfold chief_is. rewrite Hc. apply String.eqb_neq. exact Hne.
Qed.

Lemma chief_is_same : forall u c, chief_id u = Some c -> chief_is c u = true.
Proof. intros u c Hc. unfold chief_is. rewrite Hc. apply String.eqb_refl. Qed.

Lemma chief_is_off : forall u x,
  (forall v, chief_id u = Some v -> v <> x) -> chief_is x u = false.
Proof.
  intros u x H. unfold chief_is. destruct (chief_id u) as [v|] eqn:E; [|reflexivity].
  apply String.eqb_neq. apply H. reflexivity.
Qed.

Lemma get_user_subordinates_no_direct :
  forall users x n,
    (forall u, In u users -> chief_id u <> Some x) ->
    get_user_subordinates (S n) x users = Some [].
Proof.
  intros users x n H. cbn [get_user_subordinates].
  assert (E : filter (chief_is x) users = []).
  { clear n. induction users as [|v rest IH]; [reflexivity|]. cbn.
    rewrite chief_is_off.
    - apply IH. intros u Hu. apply H. right. exact Hu.
    - intros w Hw Heq. subst w. apply (H v); [left; reflexivity | exact Hw]. }
  rewrite E. reflexivity.
Qed.

(** A cycle A -> B -> A: the downward walk from A never returns. *)
Lemma get_user_subordinates_cyclic_diverges :
  forall n, get_user_subordinates n "A" cyclic_users = None /\
            get_user_subordinates n "B" cyclic_users = None.
Proof.
  induction n as [|n [IHa IHb]]; [split; reflexivity|].
  split; cbn [get_user_subordinates]; cbn -[get_user_subordinates].
  - rewrite IHb. reflexivity.
  - rewrite IHa. reflexivity.
Qed.

(** ... and neither does the upward walk from A to an id off the cycle. *)
Lemma is_user_subordinate_cyclic_diverges :
  forall n, is_user_subordinate n "A" "D" cyclic_users = None /\
            is_user_subordinate n "B" "D" cyclic_users = None.
Proof.
  induction n as [|n [IHa IHb]]; [split; reflexivity|].
  split; cbn [is_user_subordinate]; cbn -[is_user_subordinate].
  - exact IHb.
  - exact IHa.
Qed.

(** C5, refuted: with the cycle A -> B -> A in the chief links, neither
    [get_user_subordinates] from A nor [is_user_subordinate] from A to the
    director D returns (CPython raises [RecursionError]). *)
Lemma hierarchy_walks_cycle_counterexample :
  ~ subordinates_terminate cyclic_users "A" /\
  ~ subordinate_check_terminates cyclic_users "A" "D".
Proof.
  split.
  - intros [n [r H]]. rewrite (proj1 (get_user_subordinates_cyclic_diverges n)) in H.
    discriminate.
  - intros [n [b H]]. rewrite (proj1 (is_user_subordinate_cyclic_diverges n)) in H.
    discriminate.
Qed.

Lemma extend_all_some : forall walk l,
  (forall s, In s l -> exists r, walk (tg_id s) = Some r) ->
  exists r, extend_all walk l = Some r.
Proof.
  intros walk l. induction l as [|s rest IH]; intros H; [exists []; reflexivity|].
  cbn. destruct (H s (or_introl eq_refl)) as [xs Hx]. rewrite Hx.
  destruct IH as [ys Hy]; [intros s' Hs'; apply H; right; exact Hs'|].
  rewrite Hy. eexists. reflexivity.
Qed.

Section Ranked.
Variable users : list user.
Variable rk : string -> nat.
Variable bound : nat.
Hypothesis Hrk : ranked rk bound users.

Lemma get_user_subordinates_ranked :
  forall n c, rk c < n -> exists r, get_user_subordinates n c users = Some r.
Proof.
  destruct Hrk as [Hb Hlink].
  induction n as [|n IH]; intros c Hc; [lia|].
  cbn [get_user_subordinates].
  destruct (extend_all_some (fun sid => get_user_subordinates n sid users)
                            (filter (chief_is c) users)) as [r E].
  - intros s Hs. apply filter_In in Hs as [Hin Hch].
    unfold chief_is in Hch. destruct (chief_id s) as [v|] eqn:Ev; [|discriminate].
    apply String.eqb_eq in Hch. subst v.
    apply IH. specialize (Hlink s c Hin Ev). lia.
  - rewrite E. eexists. reflexivity.
Qed.

Lemma is_user_subordinate_ranked :
  forall n x c, bound < n + rk x -> exists b, is_user_subordinate n x c users = Some b.
Proof.
  destruct Hrk as [Hb Hlink].
  induction n as [|n IH]; intros x c Hx; [specialize (Hb x); lia|].
  cbn [is_user_subordinate].
  destruct (find_user users x) as [u|] eqn:Ef; [|eexists; reflexivity].
  apply find_some in Ef as [Hin Heq]. apply String.eqb_eq in Heq.
  destruct (negb (truthy (chief_id u))); [eexists; reflexivity|].
  destruct (chief_id u) as [v|] eqn:Ev; [|eexists; reflexivity].
  destruct (String.eqb v c); [eexists; reflexivity|].
  apply IH. specialize (Hlink u v Hin Ev). subst x. lia.
Qed.
End Ranked.

Lemma is_user_subordinate_unknown :
  forall users x c n, find_user users x = None -> is_user_subordinate (S n) x c users = Some false.
Proof. intros users x c n H. cbn [is_user_subordinate]. rewrite H. reflexivity. Qed.

(** C5, as the code behaves: when the chief links are acyclic (a bounded
    rank goes strictly up along every link; links to unknown ids allowed),
    both walks return, and [is_user_subordinate] of an unknown user is
    false.  Nothing guards against a cycle (see the counterexample). *)
Theorem hierarchy_walks_terminate_when_acyclic :
  forall users rk bound, ranked rk bound users ->
    (forall c, exists r, get_user_subordinates (S bound) c users = Some r) /\
    (forall x c, exists b, is_user_subordinate (S bound) x c users = Some b) /\
    (forall x c n, find_user users x = None -> is_user_subordinate (S n) x c users = Some false).
Proof.
  intros users rk bound H. split; [|split].
  - intros c. apply (get_user_subordinates_ranked users rk bound H).
    destruct H as [Hb _]. specialize (Hb c). lia.
  - intros x c. apply (is_user_subordinate_ranked users rk bound H). lia.
  - apply is_user_subordinate_unknown.
Qed.

Lemma hierarchy_walks_terminate_when_acyclic_witness :
  ranked dangling_rank 3 dangling_users /\
  (exists r, get_user_subordinates 4 "ghost" dangling_users = Some r) /\
  is_user_subordinate 4 "Z" "A" dangling_users = Some false.
Proof.
  assert (Hr : ranked dangling_rank 3 dangling_users).
  { split.
    - intros s. unfold dangling_rank.
      destruct (String.eqb s "B"), (String.eqb s "A"), (String.eqb s "ghost"); lia.
    - intros u c Hin Hc. cbn in Hin.
      destruct Hin as [<-|[<-|[]]]; cbn in Hc; injection Hc as <-; cbn; lia. }
  destruct (hierarchy_walks_terminate_when_acyclic dangling_users dangling_rank 3 Hr)
    as [H1 [_ H3]].
  split; [exact Hr | split; [apply H1 | apply H3; reflexivity]].
Defined.

Lemma extend_all_member : forall walk l r s,
  extend_all walk l = Some r -> In s l ->
  exists rs, walk (tg_id s) = Some rs /\ forall v, In v rs -> In v r.
Proof.
  intros walk l. induction l as [|w rest IH]; intros r s H Hs; [destruct Hs|].
  cbn in H. destruct (walk (tg_id w)) as [xs|] eqn:Ew; [|discriminate].
  destruct (extend_all walk rest) as [ys|] eqn:Er; [|discriminate]. injection H as <-.
  destruct Hs as [<-|Hs].
  - exists xs. split; [exact Ew|]. intros v Hv. apply in_or_app. left. exact Hv.
  - destruct (IH ys s eq_refl Hs) as [rs [E Hr]]. exists rs. split; [exact E|].
    intros v Hv. apply in_or_app. right. apply Hr, Hv.
Qed.

Lemma extend_all_from : forall walk l r v,
  extend_all walk l = Some r -> In v r ->
  exists s rs, In s l /\ walk (tg_id s) = Some rs /\ In v rs.
Proof.
  intros walk l. induction l as [|w rest IH]; intros r v H Hv.
  - injection H as <-. destruct Hv.
  - cbn in H. destruct (walk (tg_id w)) as [xs|] eqn:Ew; [|discriminate].
    destruct (extend_all walk rest) as [ys|] eqn:Er; [|discriminate]. injection H as <-.
    apply in_app_or in Hv as [Hv|Hv].
    + exists w, xs. split; [left; reflexivity | split; assumption].
    + destruct (IH ys v eq_refl Hv) as [s [rs [Hs [E Hin]]]].
      exists s, rs. split; [right; exact Hs | split; assumption].
Qed.

(** Everything the walk returns is below the chief it starts from... *)
Lemma get_user_subordinates_sound : forall f x users subs v,
  get_user_subordinates f x users = Some subs -> In v subs -> below users x v.
Proof.
  induction f as [|f IH]; intros x users subs v H Hv; [discriminate|].
  cbn [get_user_subordinates] in H.
  destruct (extend_all _ _) as [more|] eqn:E; [|discriminate]. injection H as <-.
  apply in_app_or in Hv as [Hv|Hv].
  - apply filter_In in Hv as [Hin Hc]. unfold chief_is in Hc.
    destruct (chief_id v) as [c|] eqn:Ec; [|discriminate]. apply String.eqb_eq in Hc. subst c.
    apply below_direct; assumption.
  - destruct (extend_all_from _ _ _ _ E Hv) as [s [rs [Hs [Hw Hin]]]].
    apply filter_In in Hs as [Hs Hc]. unfold chief_is in Hc.
    destruct (chief_id s) as [c|] eqn:Ec; [|discriminate]. apply String.eqb_eq in Hc. subst c.
    apply (below_via users x s v Hs Ec). exact (IH _ _ _ _ Hw Hin).
Qed.

(** ... and whatever is below it, at any depth, is returned. *)
Lemma get_user_subordinates_complete : forall users x v,
  below users x v -> forall f subs, get_user_subordinates f x users = Some subs -> In v subs.
Proof.
  intros users x v Hb. induction Hb as [x v Hin Hc|x s v Hin Hc _ IH];
    intros [|f] subs H; try discriminate; cbn [get_user_subordinates] in H;
    destruct (extend_all _ _) as [more|] eqn:E; try discriminate; injection H as <-.
  - apply in_or_app. left. apply filter_In. split; [exact Hin | apply chief_is_same, Hc].
  - assert (Hs : In s (filter (chief_is x) users))
      by (apply filter_In; split; [exact Hin | apply chief_is_same, Hc]).
    destruct (extend_all_member _ _ _ _ E Hs) as [rs [Hw Hr]].
    apply in_or_app. right. apply Hr. exact (IH f rs Hw).
Qed.

(** C8: the walk returns nothing for a user without subordinates; on a
    chain A <- B <- C (B's chief is A, C's chief is B; A's own chief, if any,
    is outside the chain) it returns exactly B then C for A; in any table,
    what it returns is exactly the set of users below the start, at any
    depth; and in any table whose chief links are acyclic (a bounded rank
    goes strictly up along each link) it does return. *)
Theorem get_user_subordinates_chain :
  (forall users x n,
      (forall u, In u users -> chief_id u <> Some x) ->
      get_user_subordinates (S n) x users = Some []) /\
  (forall uA uB uC n,
      tg_id uA <> tg_id uB -> tg_id uB <> tg_id uC -> tg_id uA <> tg_id uC ->
      chief_id uB = Some (tg_id uA) -> chief_id uC = Some (tg_id uB) ->
      (forall v, chief_id uA = Some v -> v <> tg_id uA /\ v <> tg_id uB /\ v <> tg_id uC) ->
      get_user_subordinates (3 + n) (tg_id uA) [uA; uB; uC] = Some [uB; uC]) /\
  (forall f x users subs,
      get_user_subordinates f x users = Some subs ->
      forall v, In v subs <-> below users x v) /\
  (forall users rk bound x,
      ranked rk bound users ->
      exists subs, get_user_subordinates (S bound) x users = Some subs /\
        forall v, In v subs <-> below users x v).
Proof.
  assert (Hiff : forall f x users subs,
      get_user_subordinates f x users = Some subs ->
      forall v, In v subs <-> below users x v).
  { intros f x users subs H v. split.
    - apply (get_user_subordinates_sound f x users subs v H).
    - intros Hb. exact (get_user_subordinates_complete users x v Hb f subs H). }
  split; [exact get_user_subordinates_no_direct|]. split; [|split; [exact Hiff|]].
  - intros uA uB uC n Hab Hbc Hac HB HC HA.
    assert (A1 : chief_is (tg_id uA) uA = false)
      by (apply chief_is_off; intros v Hv; apply (HA v Hv)).
    assert (A2 : chief_is (tg_id uB) uA = false)
      by (apply chief_is_off; intros v Hv; apply (HA v Hv)).
    assert (A3 : chief_is (tg_id uC) uA = false)
      by (apply chief_is_off; intros v Hv; apply (HA v Hv)).
    assert (B1 : chief_is (tg_id uA) uB = true) by (apply chief_is_same; exact HB).
    assert (B2 : chief_is (tg_id uB) uB = false) by (apply (chief_is_other _ _ _ HB); congruence).
    assert (B3 : chief_is (tg_id uC) uB = false) by (apply (chief_is_other _ _ _ HB); congruence).
    assert (C1 : chief_is (tg_id uA) uC = false) by (apply (chief_is_other _ _ _ HC); congruence).
    assert (C2 : chief_is (tg_id uB) uC = true) by (apply chief_is_same; exact HC).
    assert (C3 : chief_is (tg_id uC) uC = false) by (apply (chief_is_other _ _ _ HC); congruence).
    change (3 + n) with (S (S (S n))).
    cbn [get_user_subordinates filter].
    rewrite A1, B1, C1. cbn [extend_all filter].
    rewrite A2, B2, C2. cbn [extend_all filter].
    rewrite A3, B3, C3. reflexivity.
  - intros users rk bound x Hr.
    destruct (get_user_subordinates_ranked users rk bound Hr (S bound) x) as [subs Hs].
    { destruct Hr as [Hb _]. specialize (Hb x). lia. }
    exists subs. split; [exact Hs | exact (Hiff _ _ _ _ Hs)].
Qed.

(** C8, an instance: the chain A <- B <- C of [chain_users]; B and C are
    exactly the users below A. *)
Lemma get_user_subordinates_chain_witness :
  get_user_subordinates 3 "A" chain_users = Some [plain "B" "chief" (Some "A"); plain "C" "manager" (Some "B")]
  /\ get_user_subordinates 1 "C" chain_users = Some []
  /\ (forall v, In v [plain "B" "chief" (Some "A"); plain "C" "manager" (Some "B")] <->
                below chain_users "A" v).
Proof.
  destruct get_user_subordinates_chain as [Hno [Hchain [Hiff _]]].
  assert (H3 : get_user_subordinates 3 "A" chain_users =
                 Some [plain "B" "chief" (Some "A"); plain "C" "manager" (Some "B")]).
  { apply (Hchain (plain "A" "director" None) (plain "B" "chief" (Some "A"))
                  (plain "C" "manager" (Some "B")) 0);
      cbn; try discriminate; try reflexivity. }
  split; [exact H3|]. split.
  - apply (Hno chain_users "C" 0).
    intros u Hu. cbn in Hu.
    destruct Hu as [<-|[<-|[<-|[]]]]; cbn; discriminate.
  - exact (Hiff 3 "A" chain_users _ H3).
Defined.

(** C2, instance: a deadline three days after [now = 0]. *)
Lemma schedule_deadline_reminders_fire_times_witness :
  map (fun j => (job_when j, job_role j))
      (schedule_deadline_reminders 0 "1" 100 200 "report" (3 * 86400))
  = [(172800, "assignee"); (255600, "assignee"); (262800, "chief")]%Z
  /\ (forall j, In j (schedule_deadline_reminders 0 "1" 100 200 "report" (30 * 60)) ->
        (0 < job_when j)%Z).
Proof.
  destruct schedule_deadline_reminders_fire_times as [Hgen [H3 _]]. split.
  - apply (H3 0%Z "1" 100%Z 200%Z "report").
  - intros j Hj. apply (proj2 (Hgen 0%Z "1" 100%Z 200%Z "report" (30 * 60)%Z) j Hj).
Defined.

(** ** Registration *)

Lemma find_none_existsb : forall (A : Type) (f : A -> bool) l,
  find f l = None -> existsb f l = false.
Proof.
  intros A f l. induction l as [|x r IH]; [reflexivity|].
  cbn. destruct (f x); [discriminate|]. exact IH.
Qed.

Lemma register_keeps_head : forall d st r,
  headed_by d (users_tbl st) -> headed_by d (users_tbl (register st r)).
Proof.
  intros d st [[uid nm] sn] [rest [Eu [Hd [Hc [Hdep Hf]]]]].
  unfold register, load_users.
  destruct (find_user (users_tbl st) uid) eqn:Ef.
  { exists rest. repeat split; assumption. }
  unfold register_surname, load_users. rewrite Eu.
  replace (find (fun u => String.eqb (role u) "director") (d :: rest)) with (Some d)
    by (cbn; rewrite Hd; reflexivity).
  unfold save_user. cbn [fst option_map].
  destruct (db_fits (mk_user uid nm sn "manager" (Some (tg_id d)) (Some "general"))); cbn [negb].
  2:{ exists rest. repeat split; assumption. }
  unfold find_user in Ef. apply find_none_existsb in Ef.
  cbn [tg_id]. rewrite Ef, Eu.
  exists (rest ++ [mk_user uid nm sn "manager" (Some (tg_id d)) (Some "general")])%list.
  cbn. repeat split; try assumption.
  apply Forall_app. split; [exact Hf|]. repeat constructor.
Qed.

Lemma register_empty_or_headed : forall st r,
  empty_or_headed st -> empty_or_headed (register st r).
Proof.
  intros st [[uid nm] sn] [E|[d H]].
  - unfold register, load_users. rewrite E. cbn [find_user find].
    unfold register_surname, load_users. rewrite E. unfold save_user. cbn [fst].
    destruct (db_fits (mk_user uid nm sn "director" None (Some "management"))); cbn [negb].
    + rewrite E. right. exists (mk_user uid nm sn "director" None (Some "management")).
      exists []. cbn. repeat split; constructor.
    + left. exact E.
  - right. exists d. apply register_keeps_head. exact H.
Qed.

Lemma register_all_empty_or_headed : forall rs st,
  empty_or_headed st -> empty_or_headed (register_all st rs).
Proof.
  induction rs as [|r rs IH]; intros st H; [exact H|].
  cbn. apply IH. apply register_empty_or_headed. exact H.
Qed.

Lemma headed_by_directors : forall d users,
  headed_by d users ->
  count_role "director" users = 1 /\
  forall u, In u users -> role u = "manager" ->
    exists d', In d' users /\ role d' = "director" /\ chief_id u = Some (tg_id d').
Proof.
  intros d users [rest [-> [Hd [_ [_ Hf]]]]]. split.
  - unfold count_role. cbn. rewrite Hd. cbn.
    f_equal. induction Hf as [|u r [Hr _] _ IH]; [reflexivity|].
    cbn. rewrite Hr. exact IH.
  - intros u [<-|Hin] Hm; [congruence|].
    rewrite Forall_forall in Hf. destruct (Hf u Hin) as [_ Hc].
    exists d. split; [left; reflexivity | split; assumption].
Qed.

Lemma db_fits_mk_user : forall uid nm sn r c dep,
  db_fits (mk_user uid nm sn r c dep) =
    fits 20 uid && fits 100 nm && fits 100 sn && fits 20 r && fits_opt 20 c && fits_opt 100 dep.
Proof. reflexivity. Qed.

(** C10, refuted: the first registrant's name is too long for users.name, so
    the INSERT fails and the row is kept only in the in-memory fallback; the
    table stays empty and the second registrant becomes director too. *)
Lemma registration_roles_by_arrival_counterexample :
  users_tbl (register (register empty_store ("1", long_name, "Lee")) ("2", "Bo", "Kim")) =
    [mk_user "2" "Bo" "Kim" "director" None (Some "management")].
Proof. vm_compute. reflexivity. Qed.

(** C10 (as amended): a registration stores its row only when the row fits
    the columns of users.  A fitting registration into an empty table stores
    a director of "management" without chief; a fitting registration of a
    user not yet registered into a nonempty table stores a manager of
    "general" whose chief is the first director found, or null without one.
    A registrant whose id, name or surname does not fit is welcomed all the
    same but the table is unchanged.  From an empty table, any sequence of
    registrations leaves one director at most, and every manager points at a
    director. *)
Theorem registration_roles_by_arrival :
  (forall st uid nm sn,
      users_tbl st = [] ->
      db_fits (mk_user uid nm sn "director" None (Some "management")) = true ->
      users_tbl (register st (uid, nm, sn)) =
        [mk_user uid nm sn "director" None (Some "management")]) /\
  (forall st uid nm sn,
      let u := mk_user uid nm sn "manager"
                  (option_map tg_id (find (fun u => String.eqb (role u) "director") (users_tbl st)))
                  (Some "general") in
      users_tbl st <> [] -> find_user (users_tbl st) uid = None ->
      db_fits u = true ->
      In u (users_tbl (register st (uid, nm, sn)))) /\
  (forall st uid nm sn,
      fits 20 uid && fits 100 nm && fits 100 sn = false ->
      register_surname st uid nm sn =
        (st, match users_tbl st with [] => R_welcome_director | _ => R_welcome_manager end)) /\
  (forall rs,
      let us := users_tbl (register_all empty_store rs) in
      count_role "director" us <= 1 /\
      forall u, In u us -> role u = "manager" ->
        exists d, In d us /\ role d = "director" /\ chief_id u = Some (tg_id d)).
Proof.
  split; [|split; [|split]].
  - intros st uid nm sn H Hfit. unfold register, load_users. rewrite H. cbn [find_user find].
    unfold register_surname, load_users. rewrite H. unfold save_user.
    rewrite Hfit. cbn [negb]. rewrite H. reflexivity.
  - intros st uid nm sn u Hne Hf Hfit. unfold register, load_users. rewrite Hf.
    unfold register_surname, load_users. unfold u in Hfit.
    destruct (users_tbl st) as [|v vs] eqn:Eu; [contradiction|].
    unfold find_user in Hf. apply find_none_existsb in Hf.
    assert (Hfit' : db_fits (mk_user uid nm sn "manager"
                      (option_map (fun d => tg_id d)
                         (find (fun u => String.eqb (role u) "director") (v :: vs)))
                      (Some "general")) = true) by exact Hfit.
    unfold save_user. cbn [fst]. cbn zeta. rewrite Hfit'. cbn [negb tg_id]. rewrite Eu, Hf.
    cbn [users_tbl]. apply in_or_app. right. left. reflexivity.
  - intros st uid nm sn Hno. unfold register_surname, load_users.
    assert (Hd : forall r c dep, db_fits (mk_user uid nm sn r c dep) = false).
    { intros r c dep. rewrite db_fits_mk_user.
      destruct (fits 20 uid), (fits 100 nm), (fits 100 sn); try discriminate; reflexivity. }
    destruct (users_tbl st); unfold save_user; rewrite Hd; reflexivity.
  - intros rs. cbn zeta.
    assert (H0 : empty_or_headed empty_store) by (left; reflexivity).
    destruct (register_all_empty_or_headed rs _ H0) as [E|[d Hh]].
    + rewrite E. split; [cbn; lia|]. intros u [].
    + destruct (headed_by_directors _ _ Hh) as [H1 H2]. split; [lia | exact H2].
Qed.

Lemma registration_roles_by_arrival_witness :
  users_tbl (register empty_store ("1", "Ann", "Lee")) =
    [mk_user "1" "Ann" "Lee" "director" None (Some "management")] /\
  In (mk_user "2" "Bo" "Kim" "manager" (Some "1") (Some "general"))
     (users_tbl (register (register empty_store ("1", "Ann", "Lee")) ("2", "Bo", "Kim"))) /\
  register_surname empty_store "1" long_name "Lee" = (empty_store, R_welcome_director).
Proof.
  destruct registration_roles_by_arrival as [H1 [H2 [H3 _]]]. split; [|split].
  - apply H1; reflexivity.
  - apply (H2 (register empty_store ("1", "Ann", "Lee")) "2" "Bo" "Kim");
      cbn; [discriminate | reflexivity | reflexivity].
  - apply H3. vm_compute. reflexivity.
Defined.

(** ** Starting task creation *)

(** C7, refuted: a registered manager (the lowest role) who starts task
    creation is refused and the wizard ends; no text prompt follows. *)
Lemma task_lowest_role_counterexample :
  task open_store empty_user_data "200" = (END, empty_user_data, [R_only_chiefs]).
Proof. reflexivity. Qed.

(** C7, as the code behaves: the creation wizard moves on to the text
    prompt exactly for a registered director or chief; everybody else
    (a manager, an unregistered user) is refused and the wizard ends. *)
Theorem task_only_director_or_chief :
  forall st ud uid,
    (fst (fst (task st ud uid)) = TASK_TEXT <->
     exists u, find_user (users_tbl st) uid = Some u /\
               (role u = "director" \/ role u = "chief")) /\
    (fst (fst (task st ud uid)) = TASK_TEXT /\ snd (task st ud uid) = [R_enter_task_text] \/
     task st ud uid = (END, ud, [R_only_chiefs])).
Proof.
  intros st ud uid. unfold task, load_users.
  destruct (find_user (users_tbl st) uid) as [u|] eqn:Ef.
  - destruct (String.eqb (role u) "director") eqn:Ed; cbn [orb].
    + apply String.eqb_eq in Ed. split; [|left; split; reflexivity].
      split; [intros _; exists u; split; [reflexivity | left; exact Ed] | intros _; reflexivity].
    + destruct (String.eqb (role u) "chief") eqn:Ec.
      * apply String.eqb_eq in Ec. split; [|left; split; reflexivity].
        split; [intros _; exists u; split; [reflexivity | right; exact Ec] | intros _; reflexivity].
      * apply String.eqb_neq in Ed, Ec. split; [|right; reflexivity].
        split; [discriminate|]. intros [u' [Hu [H|H]]]; injection Hu as <-; contradiction.
  - split; [|right; reflexivity].
    split; [discriminate|]. intros [u' [Hu _]]. discriminate.
Qed.

(** ** Completion *)

Lemma find_map_same : forall (A : Type) (f : A -> bool) (g : A -> A) l x,
  (forall y, f (g y) = f y) -> find f l = Some x -> find f (map g l) = Some (g x).
Proof.
  intros A f g l x Hfg. induction l as [|y r IH]; [discriminate|].
  cbn. rewrite Hfg. destruct (f y); [intros H; injection H as ->; reflexivity | exact IH].
Qed.

Definition done_update (t r : task_row) : task_row :=
  if N.eqb (id r) (id t) then as_done t else r.

Lemma mark_done_store_found : forall st q t b,
  find_task (tasks_tbl st) q = Some t -> id t <> 0%N ->
  o_store (mark_done st q b) =
    mk_store (users_tbl st) (map (done_update t) (tasks_tbl st)) (next_id st).
Proof.
  intros st q t b Hf Hid. unfold mark_done, load_tasks. rewrite Hf.
  cbn [o_store]. unfold save_task. cbn [id].
  replace (negb (N.eqb (id t) 0)) with true by (symmetry; apply negb_true_iff, N.eqb_neq; exact Hid).
  reflexivity.
Qed.

Lemma mark_done_store_unknown : forall st q b,
  find_task (tasks_tbl st) q = None -> o_store (mark_done st q b) = st /\ o_sent (mark_done st q b) = [].
Proof. intros st q b Hf. unfold mark_done, load_tasks. rewrite Hf. split; reflexivity. Qed.

Lemma find_task_after_done : forall l q t,
  find_task l q = Some t -> find_task (map (done_update t) l) q = Some (as_done t).
Proof.
  intros l q t Hf.
  replace (as_done t) with (done_update t t)
    by (unfold done_update; rewrite N.eqb_refl; reflexivity).
  apply find_map_same; [|exact Hf].
  intros y. unfold done_update. destruct (N.eqb (id y) (id t)) eqn:E; [|reflexivity].
  apply N.eqb_eq in E. cbn. rewrite E. reflexivity.
Qed.

Lemma done_update_idem : forall t l,
  map (done_update (as_done t)) (map (done_update t) l) = map (done_update t) l.
Proof.
  intros t l. rewrite map_map. apply map_ext. intros y. unfold done_update.
  cbn [id as_done]. destruct (N.eqb (id y) (id t)) eqn:E.
  - cbn. rewrite N.eqb_refl. reflexivity.
  - rewrite E. reflexivity.
Qed.

Lemma mark_done_sent_found : forall st q t,
  find_task (tasks_tbl st) q = Some t ->
  o_sent (mark_done st q true) =
    match py_int (task_chief_id t) with
    | Some c => [(c, DoneNotice (display_name (users_tbl st) (assignee_id t)) (text t) (deadline t))]
    | None => []
    end.
Proof.
  intros st q t Hf. unfold mark_done, load_tasks. rewrite Hf. cbn [o_sent].
  unfold save_task. cbn [id].
  destruct (negb (N.eqb (id t) 0)); reflexivity.
Qed.

(** C4, refuted: pressing "done" on a task that is already done sends the
    creator the completion notice again. *)
Lemma mark_done_repeat_counterexample :
  status (sample_task "done") = "done" /\
  o_store (mark_done done_store "1" true) = done_store /\
  o_sent (mark_done done_store "1" true) = [(100%Z, DoneNotice "200 200" "report" 1758378600)].
Proof. repeat split; reflexivity. Qed.

(** C4, as the code behaves: an unknown id leaves the store as it is and
    sends nothing; for a known task (the store's ids are non-zero, as the
    SERIAL column makes them) the store after two calls is the store after
    one, but every call, also on a task already done, sends the creator
    the completion notice again when the creator's id parses. A call on a
    known task saves it with the status ["done"] ([as_done]) and leaves the
    other rows as they are ([done_update]). *)
Theorem mark_done_store_idempotent :
  (forall st q b, find_task (tasks_tbl st) q = None ->
     o_store (mark_done st q b) = st /\ o_sent (mark_done st q b) = []) /\
  (forall st q t b, find_task (tasks_tbl st) q = Some t -> id t <> 0%N ->
     find_task (tasks_tbl (o_store (mark_done st q b))) q = Some (as_done t) /\
     status (as_done t) = "done" /\
     o_store (mark_done st q b) =
       mk_store (users_tbl st) (map (done_update t) (tasks_tbl st)) (next_id st)) /\
  (forall st q b b', (forall t, In t (tasks_tbl st) -> id t <> 0%N) ->
     o_store (mark_done (o_store (mark_done st q b)) q b') = o_store (mark_done st q b)) /\
  (forall st q t c, find_task (tasks_tbl st) q = Some t -> py_int (task_chief_id t) = Some c ->
     o_sent (mark_done st q true) =
       [(c, DoneNotice (display_name (users_tbl st) (assignee_id t)) (text t) (deadline t))]).
Proof.
  split; [|split; [|split]].
  - exact mark_done_store_unknown.
  - intros st q t b Hf Hid. rewrite (mark_done_store_found st q t b Hf Hid).
    split; [|split; reflexivity].
    cbn [tasks_tbl]. apply find_task_after_done. exact Hf.
  - intros st q b b' Hids.
    destruct (find_task (tasks_tbl st) q) as [t|] eqn:Hf.
    + assert (Hid : id t <> 0%N).
      { apply Hids. unfold find_task in Hf. apply find_some in Hf. apply Hf. }
      rewrite (mark_done_store_found st q t b Hf Hid).
      rewrite (mark_done_store_found _ q (as_done t) b') by
        (cbn [tasks_tbl id as_done];
            first [apply find_task_after_done; exact Hf | exact Hid]).
      cbn [users_tbl tasks_tbl next_id]. rewrite done_update_idem. reflexivity.
    + destruct (mark_done_store_unknown st q b Hf) as [-> _].
      destruct (mark_done_store_unknown st q b' Hf) as [-> _]. reflexivity.
  - intros st q t c Hf Hc. rewrite (mark_done_sent_found st q t Hf), Hc.
    unfold save_task. reflexivity.
Qed.

(** C4, instance: an open task of [open_store], completed once and again. *)
Lemma mark_done_store_idempotent_witness :
  o_store (mark_done (o_store (mark_done open_store "1" true)) "1" true)
    = o_store (mark_done open_store "1" true) /\
  o_sent (mark_done done_store "1" true) =
    [(100%Z, DoneNotice (display_name sample_users "200") "report" 1758378600)] /\
  o_store (mark_done open_store "7" true) = open_store /\
  find_task (tasks_tbl (o_store (mark_done open_store "1" true))) "1" =
    Some (as_done (sample_task "new")).
Proof.
  destruct mark_done_store_idempotent as [Hunk [Hset [Hidem Hsent]]].
  split; [|split; [|split]].
  - apply Hidem. intros t [<-|[]]. discriminate.
  - apply (Hsent done_store "1" (sample_task "done")); reflexivity.
  - apply (proj1 (Hunk open_store "7" true eq_refl)).
  - apply (Hset open_store "1" (sample_task "new") true); [reflexivity | discriminate].
Defined.

(** ** Creation *)

Lemma deadline_time_handler_store : forall st ud sender txt now b,
  o_store (deadline_time_handler st ud sender txt now b) =
  match deadline_input ud txt with
  | inl _ => st
  | inr dl =>
      if (dl <=? now)%Z then st
      else if negb (option_truthy (ud_assignee_id ud)) || String.eqb (get_or_empty (ud_task_text ud)) ""
      then st
      else fst (save_task st (mk_task 0 (str_N sender) (get_or_empty (ud_assignee_id ud))
                                      (get_or_empty (ud_task_text ud)) dl "new"))
  end.
Proof.
  intros st ud sender txt now b. unfold deadline_time_handler.
  destruct (deadline_input ud txt) as [[s r]|dl]; [reflexivity|].
  destruct (dl <=? now)%Z; [reflexivity|].
  destruct (negb (option_truthy (ud_assignee_id ud)) || String.eqb (get_or_empty (ud_task_text ud)) "");
    [reflexivity|].
  destruct (save_task st _) as [st1 k].
  cbn [fst]. destruct (N.eqb k 0); [reflexivity|].
  destruct (py_int (get_or_empty (ud_assignee_id ud))); [destruct b|]; reflexivity.
Qed.

Lemma save_task_insert : forall st t,
  id t = 0%N ->
  fst (save_task st t) =
    mk_store (users_tbl st)
             (tasks_tbl st ++ [mk_task (next_id st) (task_chief_id t) (assignee_id t)
                                       (text t) (deadline t) (status t)])%list
             (N.succ (next_id st)).
Proof. intros st t H. unfold save_task. rewrite H. reflexivity. Qed.

(** C1: when the entered date and time make a deadline at or before [now],
    the wizard goes back to the date prompt and the store is unchanged; a
    run of the handler either leaves the store unchanged or appends one new
    task whose deadline is strictly after [now], the time it was created. *)
Theorem deadline_time_handler_future_only :
  (forall st ud sender txt now b dl,
      deadline_input ud txt = inr dl -> (dl <= now)%Z ->
      o_state (deadline_time_handler st ud sender txt now b) = DEADLINE_DATE /\
      o_store (deadline_time_handler st ud sender txt now b) = st /\
      o_replies (deadline_time_handler st ud sender txt now b) = [R_deadline_past]) /\
  (forall st ud sender txt now b,
      o_store (deadline_time_handler st ud sender txt now b) = st \/
      exists t, o_store (deadline_time_handler st ud sender txt now b) =
                  mk_store (users_tbl st) (tasks_tbl st ++ [t])%list (N.succ (next_id st)) /\
                (now < deadline t)%Z /\ status t = "new").
Proof.
  split.
  - intros st ud sender txt now b dl Hin Hle.
    unfold deadline_time_handler. rewrite Hin.
    replace (dl <=? now)%Z with true by (symmetry; apply Z.leb_le; exact Hle).
    repeat split.
  - intros st ud sender txt now b. rewrite deadline_time_handler_store.
    destruct (deadline_input ud txt) as [x|dl]; [left; reflexivity|].
    destruct (dl <=? now)%Z eqn:Hle; [left; reflexivity|].
    destruct (_ || _); [left; reflexivity|].
    right. rewrite save_task_insert by reflexivity.
    eexists. split; [reflexivity|]. cbn. split; [|reflexivity].
    apply Z.leb_gt. exact Hle.
Qed.

Definition sample_wizard : user_data :=
  mk_user_data (Some "report") (Some "200") (Some "20.09.2025") None None.

(** C1, instance: 20.09.2025 14:30 entered exactly at that moment. *)
Lemma deadline_time_handler_future_only_witness :
  deadline_input sample_wizard " 14:30 " = inr 1758378600%Z /\
  o_state (deadline_time_handler open_store sample_wizard 100 " 14:30 " 1758378600 true)
    = DEADLINE_DATE /\
  o_store (deadline_time_handler open_store sample_wizard 100 " 14:30 " 1758378600 true)
    = open_store.
Proof.
  assert (Hin : deadline_input sample_wizard " 14:30 " = inr 1758378600%Z) by reflexivity.
  destruct deadline_time_handler_future_only as [H _].
  destruct (H open_store sample_wizard 100%N " 14:30 " 1758378600%Z true 1758378600%Z Hin
              (Z.le_refl _)) as [H1 [H2 _]].
  split; [exact Hin | split; assumption].
Defined.

(** C9: whether the notification to the assignee (on creation) or to the
    creator (on completion) is delivered has no effect on the store: the
    created task stays created, the completed task stays done. *)
Theorem notification_failure_keeps_state :
  (forall st ud sender txt now,
      o_store (deadline_time_handler st ud sender txt now true) =
      o_store (deadline_time_handler st ud sender txt now false)) /\
  (forall st q, o_store (mark_done st q true) = o_store (mark_done st q false)) /\
  (forall st ud sender txt now dl,
      deadline_input ud txt = inr dl -> (now < dl)%Z ->
      option_truthy (ud_assignee_id ud) = true -> get_or_empty (ud_task_text ud) <> "" ->
      o_sent (deadline_time_handler st ud sender txt now false) = [] /\
      exists t, tasks_tbl (o_store (deadline_time_handler st ud sender txt now false))
                = (tasks_tbl st ++ [t])%list /\ deadline t = dl) /\
  (forall st q t, find_task (tasks_tbl st) q = Some t -> id t <> 0%N ->
      o_sent (mark_done st q false) = [] /\
      find_task (tasks_tbl (o_store (mark_done st q false))) q = Some (as_done t)).
Proof.
  split; [|split; [|split]].
  - intros. rewrite !deadline_time_handler_store. reflexivity.
  - intros st q. unfold mark_done. destruct (find_task (load_tasks st) q); reflexivity.
  - intros st ud sender txt now dl Hin Hlt Ha Ht. split.
    + unfold deadline_time_handler. rewrite Hin.
      replace (dl <=? now)%Z with false by (symmetry; apply Z.leb_gt; exact Hlt).
      rewrite Ha. apply String.eqb_neq in Ht. rewrite Ht. cbn [negb orb].
      destruct (save_task st _) as [st1 k].
      destruct (N.eqb k 0); [reflexivity|].
      destruct (py_int (get_or_empty (ud_assignee_id ud))); reflexivity.
    + rewrite deadline_time_handler_store, Hin.
      replace (dl <=? now)%Z with false by (symmetry; apply Z.leb_gt; exact Hlt).
      rewrite Ha. apply String.eqb_neq in Ht. rewrite Ht. cbn [negb orb].
      rewrite save_task_insert by reflexivity.
      eexists. split; reflexivity.
  - intros st q t Hf Hid. split.
    + unfold mark_done, load_tasks. rewrite Hf. cbn [o_sent].
      destruct (py_int _); reflexivity.
    + rewrite (mark_done_store_found st q t false Hf Hid). cbn [tasks_tbl].
      apply find_task_after_done. exact Hf.
Qed.

(** C9, instance: the creation of [sample_wizard]'s task and the completion
    of task 1, both with the message undelivered. *)
Lemma notification_failure_keeps_state_witness :
  o_sent (deadline_time_handler open_store sample_wizard 100 " 14:30 " 1758000000 false) = [] /\
  (exists t, tasks_tbl (o_store (deadline_time_handler open_store sample_wizard 100 " 14:30 "
                                                       1758000000 false))
             = (tasks_tbl open_store ++ [t])%list /\ deadline t = 1758378600%Z) /\
  find_task (tasks_tbl (o_store (mark_done open_store "1" false))) "1"
    = Some (as_done (sample_task "new")).
Proof.
  destruct notification_failure_keeps_state as [_ [_ [Hc Hd]]].
  split; [|split].
  - apply (Hc open_store sample_wizard 100%N " 14:30 " 1758000000%Z 1758378600%Z);
      [reflexivity | lia | reflexivity | discriminate].
  - apply (Hc open_store sample_wizard 100%N " 14:30 " 1758000000%Z 1758378600%Z);
      [reflexivity | lia | reflexivity | discriminate].
  - apply (Hd open_store "1" (sample_task "new")); [reflexivity | discriminate].
Defined.

(** ** Listing *)

Lemma filter_opt_In : forall (A : Type) (p : A -> option bool) l l' x,
  filter_opt p l = Some l' -> (In x l' <-> In x l /\ p x = Some true).
Proof.
  intros A p l. induction l as [|y r IH]; intros l' x H.
  - injection H as <-. split; [intros []|intros [[] _]].
  - cbn in H. destruct (p y) as [b|] eqn:Ep; [|discriminate].
    destruct (filter_opt p r) as [ys|] eqn:Er; [|discriminate].
    injection H as <-. specialize (IH ys x eq_refl).
    destruct b.
    + split.
      * intros [<-|Hx]; [split; [left; reflexivity | exact Ep]|].
        apply IH in Hx as [Hin Hp]. split; [right; exact Hin | exact Hp].
      * intros [[<-|Hin] Hp]; [left; reflexivity|]. right. apply IH. split; assumption.
    + rewrite IH. split.
      * intros [Hin Hp]. split; [right; exact Hin | exact Hp].
      * intros [[<-|Hin] Hp]; [congruence|]. split; assumption.
Qed.

Lemma filter_old_tasks_In : forall now tasks t,
  In t (filter_old_tasks now tasks 2) <-> In t tasks /\ recent now t.
Proof.
  intros now tasks t. unfold filter_old_tasks, recent. rewrite filter_In.
  rewrite orb_true_iff, negb_true_iff, String.eqb_neq, Z.leb_le. reflexivity.
Qed.

Lemma chief_sees_true : forall fuel users uid t,
  chief_sees fuel users uid t = Some true <->
  task_chief_id t = uid \/ is_user_subordinate fuel (assignee_id t) uid users = Some true.
Proof.
  intros fuel users uid t. unfold chief_sees.
  destruct (String.eqb (task_chief_id t) uid) eqn:E.
  - apply String.eqb_eq in E. split; [intros _; left; exact E | reflexivity].
  - apply String.eqb_neq in E. split; [intros H; right; exact H|].
    intros [H|H]; [contradiction | exact H].
Qed.

(** C3, refuted: a chief to whom the director assigned a task does not see
    it in their own listing; the chief branch only keeps tasks they created
    and tasks whose assignee is below them. *)
Lemma show_tasks_assignee_counterexample :
  In (mk_task 1 "100" "300" "audit" 1758378600 "new") (tasks_tbl chief_store) /\
  show_tasks 5 chief_store "300" 1758000000 = Some R_no_tasks.
Proof. split; [left; reflexivity | reflexivity]. Qed.

(** C3, as the code behaves: after [filter_old_tasks] drops done tasks more
    than two days past their deadline, a director sees every task; a chief
    sees a task iff they created it or its assignee is below them along the
    chief links ([is_user_subordinate]); anyone else sees a task iff they are
    its assignee.  Departments play no part. *)
Theorem show_tasks_visibility :
  forall fuel st uid now u r,
    find_user (users_tbl st) uid = Some u ->
    show_tasks fuel st uid now = Some r ->
    forall t, In t (listed r) <->
              In t (tasks_tbl st) /\ recent now t /\ visible_by_role fuel (users_tbl st) u uid t.
Proof.
  intros fuel st uid now u r Hu Hs t.
  unfold show_tasks, load_users, load_tasks in Hs. rewrite Hu in Hs.
  unfold visible_by_role.
  destruct (String.eqb (role u) "director") eqn:Ed.
  - assert (E : listed r = filter_old_tasks now (tasks_tbl st) 2).
    { destruct (filter_old_tasks now (tasks_tbl st) 2) as [|x l];
        injection Hs as <-; reflexivity. }
    rewrite E, filter_old_tasks_In. tauto.
  - destruct (String.eqb (role u) "chief") eqn:Ec.
    + destruct (filter_opt (chief_sees fuel (users_tbl st) uid)
                           (filter_old_tasks now (tasks_tbl st) 2)) as [l|] eqn:Ef;
        [|discriminate].
      assert (E : listed r = l) by (destruct l; injection Hs as <-; reflexivity).
      rewrite E, (filter_opt_In _ _ _ _ t Ef), filter_old_tasks_In, chief_sees_true. tauto.
    + assert (E : listed r = filter (fun t => String.eqb (assignee_id t) uid)
                                    (filter_old_tasks now (tasks_tbl st) 2)).
      { destruct (filter _ _); injection Hs as <-; reflexivity. }
      rewrite E, filter_In, filter_old_tasks_In, String.eqb_eq. tauto.
Qed.

(** C3, instance: in [chief_store] the director lists task 1, the chief it
    is assigned to gets an empty listing. *)
Lemma show_tasks_visibility_witness :
  (In (mk_task 1 "100" "300" "audit" 1758378600 "new") (listed R_no_tasks) <->
   In (mk_task 1 "100" "300" "audit" 1758378600 "new") (tasks_tbl chief_store) /\
   recent 1758000000 (mk_task 1 "100" "300" "audit" 1758378600 "new") /\
   visible_by_role 5 (users_tbl chief_store) (plain "300" "chief" (Some "100")) "300"
     (mk_task 1 "100" "300" "audit" 1758378600 "new")) /\
  (In (mk_task 1 "100" "300" "audit" 1758378600 "new")
      (listed (R_task_list [mk_task 1 "100" "300" "audit" 1758378600 "new"])) <->
   In (mk_task 1 "100" "300" "audit" 1758378600 "new") (tasks_tbl chief_store) /\
   recent 1758000000 (mk_task 1 "100" "300" "audit" 1758378600 "new") /\
   visible_by_role 5 (users_tbl chief_store) (plain "100" "director" None) "100"
     (mk_task 1 "100" "300" "audit" 1758378600 "new")).
Proof.
  split.
  - apply (show_tasks_visibility 5 chief_store "300" 1758000000 (plain "300" "chief" (Some "100")));
      reflexivity.
  - apply (show_tasks_visibility 5 chief_store "100" 1758000000 (plain "100" "director" None));
      reflexivity.
Defined.

(** * Further properties of the code *)

(** ** [str] and [int] *)

Lemma digit_val_of_N : forall d, (d < 10)%N ->
  digit_val (ascii_of_N (48 + d)) = Some (Z.of_N d).
Proof.
  intros d Hd.
  assert (d = 0 \/ d = 1 \/ d = 2 \/ d = 3 \/ d = 4 \/ d = 5 \/ d = 6 \/ d = 7
          \/ d = 8 \/ d = 9)%N as Hc by lia.
  repeat destruct Hc as [->|Hc]; try reflexivity; subst; reflexivity.
Qed.

Lemma digits_of_val : forall f n acc v b, (n < 2 ^ N.of_nat f)%N ->
  exists k, digits_val (list_ascii_of_string (digits_of (S f) n acc)) v b =
            digits_val (list_ascii_of_string acc) (v * 10 ^ k + Z.of_N n)%Z true /\ (0 <= k)%Z.
Proof.
  induction f as [|f IH]; intros n acc v b Hn.
  - cbn in Hn. assert (n = 0%N) as -> by lia.
    exists 1%Z. split; [|lia]. cbn.
    change (digit_val "0") with (Some 0%Z). reflexivity.
  - remember (S f) as f' eqn:Ef'. cbn [digits_of]. subst f'.
    assert (Hd : (N.modulo n 10 < 10)%N) by (apply N.mod_lt; discriminate).
    destruct (N.ltb n 10) eqn:Hlt.
    + exists 1%Z. cbn [list_ascii_of_string digits_val].
      rewrite digit_val_of_N by exact Hd.
      apply N.ltb_lt in Hlt. rewrite N.mod_small by exact Hlt.
      split; [f_equal; lia | lia].
    + apply N.ltb_ge in Hlt.
      assert (Hq : (n / 10 < 2 ^ N.of_nat f)%N).
      { apply N.Div0.div_lt_upper_bound.
        replace (N.of_nat (S f)) with (N.succ (N.of_nat f)) in Hn by lia.
        rewrite N.pow_succ_r' in Hn. lia. }
      destruct (IH (n / 10)%N (String (ascii_of_N (48 + n mod 10)) acc) v b Hq) as [k [Hk Hk0]].
      exists (k + 1)%Z. rewrite Hk. cbn [list_ascii_of_string digits_val].
      rewrite digit_val_of_N by exact Hd. split; [|lia]. f_equal.
      rewrite Z.pow_add_r by lia.
      rewrite (N.div_mod n 10) at 3 by discriminate.
      rewrite N2Z.inj_add, N2Z.inj_mul. lia.
Qed.

Lemma pos_lt_size : forall p, (N.pos p < 2 ^ N.of_nat (Pos.size_nat p))%N.
Proof.
  induction p as [p IH|p IH|]; cbn [Pos.size_nat].
  - replace (N.of_nat (S (Pos.size_nat p))) with (N.succ (N.of_nat (Pos.size_nat p))) by lia.
    rewrite N.pow_succ_r' by lia. change (N.pos p~1) with (2 * N.pos p + 1)%N. lia.
  - replace (N.of_nat (S (Pos.size_nat p))) with (N.succ (N.of_nat (Pos.size_nat p))) by lia.
    rewrite N.pow_succ_r' by lia. change (N.pos p~0) with (2 * N.pos p)%N. lia.
  - cbn. lia.
Qed.

Lemma N_lt_size : forall n, (n < 2 ^ N.of_nat (N.size_nat n))%N.
Proof. intros [|p]; [cbn; lia | apply pos_lt_size]. Qed.

Lemma digit_not_space : forall c d, digit_val c = Some d -> is_space c = false.
Proof.
  intros c d H. unfold digit_val in H. unfold is_space.
  destruct ((48 <=? nat_of_ascii c) && (nat_of_ascii c <=? 57))%nat eqn:E; [|discriminate].
  apply andb_true_iff in E as [E1 E2]. apply Nat.leb_le in E1, E2.
  destruct (9 <=? nat_of_ascii c)%nat eqn:A; destruct (nat_of_ascii c <=? 13)%nat eqn:B;
  destruct (28 <=? nat_of_ascii c)%nat eqn:C; destruct (nat_of_ascii c <=? 32)%nat eqn:D;
  cbn; try reflexivity;
  repeat match goal with
  | H : (_ <=? _)%nat = true |- _ => apply Nat.leb_le in H
  | H : (_ <=? _)%nat = false |- _ => apply Nat.leb_gt in H
  end; lia.
Qed.

Lemma digit_not_sign : forall c d, digit_val c = Some d ->
  Ascii.eqb c "-" = false /\ Ascii.eqb c "+" = false.
Proof.
  intros c d H. split; destruct (Ascii.eqb_spec c "-"), (Ascii.eqb_spec c "+");
    subst; try reflexivity; discriminate.
Qed.

Lemma digit_ascii_of_N : forall n, digit_val (ascii_of_N (48 + N.modulo n 10)) <> None.
Proof.
  intros n. rewrite digit_val_of_N by (apply N.mod_lt; discriminate). discriminate.
Qed.

Lemma digits_of_all_digits : forall f n acc,
  all_digits (list_ascii_of_string acc) ->
  all_digits (list_ascii_of_string (digits_of f n acc)).
Proof.
  induction f as [|f IH]; intros n acc H; cbn [digits_of]; [exact H|].
  destruct (N.ltb n 10).
  - constructor; [apply digit_ascii_of_N | exact H].
  - apply IH. constructor; [apply digit_ascii_of_N | exact H].
Qed.

Lemma digits_of_nonempty : forall f n acc,
  list_ascii_of_string (digits_of (S f) n acc) <> [].
Proof.
  induction f as [|f IH]; intros n acc; cbn [digits_of].
  - destruct (N.ltb n 10); cbn; congruence.
  - destruct (N.ltb n 10); [cbn; congruence | apply IH].
Qed.

Lemma lstrip_l_digits : forall l, all_digits l -> l <> [] -> lstrip_l l = l.
Proof.
  intros [|c r] H Hne; [congruence|]. inversion H as [|? ? Hc]; subst.
  cbn. destruct (digit_val c) eqn:E; [|congruence].
  rewrite (digit_not_space c z E). reflexivity.
Qed.

Lemma py_int_digits : forall s n, all_digits (list_ascii_of_string s) ->
  list_ascii_of_string s <> [] ->
  digits_val (list_ascii_of_string s) 0 false = Some n -> py_int s = Some n.
Proof.
  intros s n Hd Hne Hv. unfold py_int.
  assert (Hr : all_digits (rev (list_ascii_of_string s))) by
    (apply Forall_rev; exact Hd).
  assert (Hrne : rev (list_ascii_of_string s) <> []).
  { intro E. apply Hne. apply (f_equal (@rev ascii)) in E.
    rewrite rev_involutive in E. exact E. }
  rewrite (lstrip_l_digits (rev _) Hr Hrne).
  rewrite rev_involutive, (lstrip_l_digits _ Hd Hne).
  destruct (list_ascii_of_string s) as [|c r] eqn:E; [congruence|].
  inversion Hd as [|? ? Hc]; subst.
  destruct (digit_val c) eqn:Ec; [|congruence].
  destruct (digit_not_sign c z Ec) as [-> ->]. exact Hv.
Qed.

(** [int(str(n)) == n]: a Telegram id stored as [str(update.effective_user.id)]
    gives back the same chat id when the handlers call [int()] on it. *)
Theorem py_int_str_N : forall n, py_int (str_N n) = Some (Z.of_N n).
Proof.
  intros n. unfold str_N. apply py_int_digits.
  - apply digits_of_all_digits. constructor.
  - apply digits_of_nonempty.
  - destruct (digits_of_val (N.size_nat n) n "" 0 false (N_lt_size n)) as [k [Hk _]].
    rewrite Hk. reflexivity.
Qed.

(** Distinct ids print differently, so [str(t["id"]) == task_id] singles
    out one task. *)
Theorem str_N_inj : forall m n, str_N m = str_N n -> m = n.
Proof.
  intros m n H. pose proof (py_int_str_N m) as Hm. rewrite H, py_int_str_N in Hm.
  injection Hm as Hm. lia.
Qed.

(** ** [get_db_connection] *)

Lemma replace1_prefix : forall old new s, old <> EmptyString ->
  String.prefix old s = true ->
  replace1 old new s = (new ++ drop_str (String.length old) s)%string.
Proof.
  intros old new [|c r] Hne H.
  - destruct old; [congruence | discriminate].
  - cbn [replace1]. rewrite H. reflexivity.
Qed.

(** The [postgres://] scheme is rewritten to [postgresql://] and the rest of
    the URL is kept; the rewrite is idempotent, so a URL that already names
    [postgresql://] (or any other scheme) is passed on unchanged, and an
    unset or empty [DATABASE_URL] gives no connection. *)
Theorem get_db_url_rewrite :
  (forall rest, get_db_url (Some ("postgres://" ++ rest)) = Some ("postgresql://" ++ rest)) /\
  (forall u, get_db_url (get_db_url u) = get_db_url u) /\
  (forall rest, get_db_url (Some ("postgresql://" ++ rest)) = Some ("postgresql://" ++ rest)) /\
  get_db_url None = None /\ get_db_url (Some "") = None.
Proof.
  assert (Hq : forall rest, get_db_url (Some ("postgresql://" ++ rest)) = Some ("postgresql://" ++ rest))
    by reflexivity.
  split; [|split; [|split; [exact Hq | split; reflexivity]]].
  - intros rest. unfold get_db_url.
    replace (String.eqb ("postgres://" ++ rest) "") with false by reflexivity.
    replace (startswith "postgres://" ("postgres://" ++ rest)) with true
      by (unfold startswith; cbn; destruct rest; reflexivity).
    rewrite replace1_prefix by (discriminate || (cbn; destruct rest; reflexivity)).
    reflexivity.
  - intros [u|]; [|reflexivity].
    remember (get_db_url (Some u)) as r eqn:Er. unfold get_db_url in Er.
    destruct (String.eqb u "") eqn:E0; [subst; reflexivity|].
    destruct (startswith "postgres://" u) eqn:Es; subst r.
    + rewrite (replace1_prefix _ _ u) by (discriminate || exact Es).
      apply Hq.
    + unfold get_db_url. rewrite E0, Es. reflexivity.
Qed.

(** ** [reload_all_reminders] *)

Lemma reload_task_acc : forall now js n t,
  reload_task now (js, n) t =
  ((js ++ task_jobs now t)%list, (n + if armed now t then 1 else 0)%nat).
Proof.
  intros now js n t. unfold task_jobs, armed, reload_task.
  destruct (String.eqb (status t) "new"); cbn [andb]; [|rewrite app_nil_r, Nat.add_0_r; reflexivity].
  destruct (now <? deadline t)%Z; cbn [andb]; [|rewrite app_nil_r, Nat.add_0_r; reflexivity].
  destruct (py_int (task_chief_id t)), (py_int (assignee_id t));
    cbn; rewrite ?app_nil_r, ?Nat.add_0_r, ?Nat.add_1_r; reflexivity.
Qed.

Lemma reload_fold : forall now tasks js n,
  fold_left (reload_task now) tasks (js, n) =
  ((js ++ flat_map (task_jobs now) tasks)%list, (n + length (filter (armed now) tasks))%nat).
Proof.
  intros now tasks. induction tasks as [|t r IH]; intros js n.
  - cbn. rewrite app_nil_r, Nat.add_0_r. reflexivity.
  - cbn [fold_left]. rewrite reload_task_acc, IH. cbn [flat_map filter].
    rewrite app_assoc. f_equal.
    destruct (armed now t); cbn [length]; lia.
Qed.

Lemma schedule_deadline_reminders_In : forall now tid c a txt d j,
  In j (schedule_deadline_reminders now tid c a txt d) ->
  (now < job_when j)%Z /\ job_task_id j = tid /\ job_task_text j = txt /\ job_deadline j = d /\
  (job_when j = d - one_day \/ job_when j = d - one_hour \/ job_when j = d + one_hour)%Z.
Proof.
  intros now tid c a txt d j H. unfold schedule_deadline_reminders in H.
  apply in_map_iff in H as [[[t r] ch] [<- Hin]].
  apply filter_In in Hin as [Hin Ht]. apply Z.ltb_lt in Ht.
  cbn. repeat split; try assumption.
  destruct Hin as [E|[E|[E|[]]]]; injection E as <- <- <-; auto.
Qed.

Lemma task_jobs_In : forall now t j, In j (task_jobs now t) ->
  status t = "new" /\ (now < deadline t)%Z /\ job_task_id j = str_N (id t) /\
  (now < job_when j)%Z /\ job_deadline j = deadline t /\ job_task_text j = text t.
Proof.
  intros now t j H. unfold task_jobs, reload_task in H.
  destruct (String.eqb_spec (status t) "new"); [|contradiction].
  destruct (Z.ltb_spec now (deadline t)); [|contradiction].
  destruct (py_int (task_chief_id t)), (py_int (assignee_id t)); try contradiction.
  cbn [fst app] in H. apply schedule_deadline_reminders_In in H as (? & ? & ? & ? & _).
  repeat split; assumption.
Qed.

(** Every job armed at start-up belongs to a task of the store that is still
    ["new"] and due after [now], carries that task's [str(id)], text and
    deadline, and fires after [now]: a done task or a past deadline is never
    re-armed. *)
Theorem reload_all_reminders_sound : forall st now j,
  In j (fst (reload_all_reminders st now)) ->
  exists t, In t (load_tasks st) /\ status t = "new" /\ (now < deadline t)%Z /\
    job_task_id j = str_N (id t) /\ job_task_text j = text t /\
    job_deadline j = deadline t /\ (now < job_when j)%Z.
Proof.
  intros st now j H. unfold reload_all_reminders in H.
  rewrite reload_fold in H. cbn [fst app] in H.
  apply in_flat_map in H as [t [Ht Hj]].
  apply task_jobs_In in Hj as (? & ? & ? & ? & ? & ?).
  exists t. repeat split; assumption.
Qed.

(** The count logged is the number of open tasks due after [now] whose two
    ids parse with [int()], and each of them has at least one job armed (the
    creator's, an hour after the deadline), so the count never exceeds the
    number of jobs. *)
Theorem reload_all_reminders_count : forall st now,
  snd (reload_all_reminders st now) = length (filter (armed now) (load_tasks st)) /\
  (snd (reload_all_reminders st now) <= length (fst (reload_all_reminders st now)))%nat.
Proof.
  intros st now. unfold reload_all_reminders. rewrite reload_fold. cbn [fst snd app].
  split; [reflexivity|].
  induction (load_tasks st) as [|t r IH]; [cbn; lia|].
  cbn [filter flat_map]. rewrite length_app.
  destruct (armed now t) eqn:E; cbn [length]; [|lia].
  assert (1 <= length (task_jobs now t))%nat; [|lia].
  unfold armed in E. unfold task_jobs, reload_task.
  destruct (String.eqb (status t) "new"); [|discriminate].
  destruct (Z.ltb_spec now (deadline t)) as [Hd|]; [|discriminate].
  destruct (py_int (task_chief_id t)), (py_int (assignee_id t)); try discriminate.
  cbn [fst app]. unfold schedule_deadline_reminders, one_day, one_hour. cbn [filter].
  replace (now <? deadline t + 3600)%Z with true by lia.
  destruct (now <? deadline t - 86400)%Z, (now <? deadline t - 3600)%Z; cbn; lia.
Qed.

Lemma schedule_deadline_reminders_later : forall now now' tid c a txt d,
  (now <= now')%Z ->
  schedule_deadline_reminders now' tid c a txt d =
  filter (fun j => (now' <? job_when j)%Z) (schedule_deadline_reminders now tid c a txt d).
Proof.
  intros now now' tid c a txt d Hle.
  unfold schedule_deadline_reminders, one_day, one_hour. cbn [filter map].
  destruct (Z.ltb_spec now (d - 86400)), (Z.ltb_spec now' (d - 86400));
  destruct (Z.ltb_spec now (d - 3600)), (Z.ltb_spec now' (d - 3600));
  destruct (Z.ltb_spec now (d + 3600)), (Z.ltb_spec now' (d + 3600));
  cbn [filter map job_when];
  repeat match goal with
  | |- context [(?x <? ?y)%Z] => destruct (Z.ltb_spec x y)
  end; try reflexivity; lia.
Qed.

(** A restart at [now'] re-arms, for an open task due after [now'], exactly
    the jobs that the creation of the task armed at [now <= now'] and that
    have not fired yet. *)
Theorem reload_restores_pending : forall now now' t c a,
  status t = "new" -> py_int (task_chief_id t) = Some c -> py_int (assignee_id t) = Some a ->
  (now <= now')%Z -> (now' < deadline t)%Z ->
  task_jobs now' t =
  filter (fun j => (now' <? job_when j)%Z)
         (schedule_deadline_reminders now (str_N (id t)) c a (text t) (deadline t)).
Proof.
  intros now now' t c a Hs Hc Ha Hle Hd.
  unfold task_jobs, reload_task. rewrite Hs, Hc, Ha. cbn [String.eqb].
  replace (String.eqb "new" "new") with true by reflexivity.
  replace (now' <? deadline t)%Z with true by lia. cbn [fst app].
  apply schedule_deadline_reminders_later. exact Hle.
Qed.

(** A restart within the hour after a deadline drops the creator's overdue
    reminder: the creation armed it for [deadline + 1 hour], still ahead,
    but the reload skips every task whose deadline has passed. *)
Theorem reload_drops_pending_overdue : forall now now' t c a,
  status t = "new" -> py_int (task_chief_id t) = Some c -> py_int (assignee_id t) = Some a ->
  (now < deadline t)%Z -> (deadline t <= now' < deadline t + one_hour)%Z ->
  task_jobs now' t = [] /\
  In (mk_job (deadline t + one_hour) (str_N (id t)) c (text t) (deadline t) "chief")
     (filter (fun j => (now' <? job_when j)%Z)
             (schedule_deadline_reminders now (str_N (id t)) c a (text t) (deadline t))).
Proof.
  intros now now' t c a Hs Hc Ha Hd Hn. split.
  - unfold task_jobs, reload_task. rewrite Hs.
    replace (String.eqb "new" "new") with true by reflexivity.
    replace (now' <? deadline t)%Z with false by lia. reflexivity.
  - apply filter_In. split; [|cbn [job_when]; apply Z.ltb_lt; lia].
    unfold schedule_deadline_reminders. apply in_map_iff.
    exists (deadline t + one_hour, "chief", c)%Z. split; [reflexivity|].
    apply filter_In. split; [cbn; auto|]. apply Z.ltb_lt. unfold one_hour. lia.
Qed.

(** ** The deadline steps of the wizard *)

Lemma list_ascii_of_string_app : forall a b,
  list_ascii_of_string (a ++ b) = (list_ascii_of_string a ++ list_ascii_of_string b)%list.
Proof. induction a as [|c a IH]; intros b; cbn; [reflexivity | rewrite IH; reflexivity]. Qed.

Lemma lstrip_l_nonspace : forall l, Forall (fun c => is_space c = false) l -> lstrip_l l = l.
Proof. intros [|c r] H; [reflexivity|]. inversion H; subst. cbn. rewrite H2. reflexivity. Qed.

Lemma strip_nonspace : forall s, Forall (fun c => is_space c = false) (list_ascii_of_string s) ->
  strip s = s.
Proof.
  intros s H. unfold strip. rewrite (lstrip_l_nonspace (list_ascii_of_string s) H).
  rewrite lstrip_l_nonspace by (apply Forall_rev; exact H).
  rewrite rev_involutive. apply string_of_list_ascii_of_string.
Qed.

Lemma split_aux_nosep : forall sep l cur, ~ In sep l ->
  split_aux sep l cur = [string_of_list_ascii (rev cur ++ l)].
Proof.
  intros sep l. induction l as [|c r IH]; intros cur H.
  - cbn. rewrite app_nil_r. reflexivity.
  - cbn [split_aux]. destruct (Ascii.eqb_spec c sep) as [->|Hc]; [exfalso; apply H; left; reflexivity|].
    rewrite IH by (intro; apply H; right; assumption). cbn [rev]. rewrite <- app_assoc. reflexivity.
Qed.

Lemma split_aux_one : forall sep l1 l2 cur, ~ In sep l1 ->
  split_aux sep (l1 ++ sep :: l2) cur =
  string_of_list_ascii (rev cur ++ l1) :: split_aux sep l2 [].
Proof.
  intros sep l1. induction l1 as [|c r IH]; intros l2 cur H.
  - cbn. rewrite Ascii.eqb_refl, app_nil_r. reflexivity.
  - cbn [app split_aux]. destruct (Ascii.eqb_spec c sep) as [->|Hc]; [exfalso; apply H; left; reflexivity|].
    rewrite IH by (intro; apply H; right; assumption). cbn [rev]. rewrite <- app_assoc. reflexivity.
Qed.

Lemma all_digits_no : forall c l, digit_val c = None -> all_digits l -> ~ In c l.
Proof.
  intros c l Hc H Hin. unfold all_digits in H. rewrite Forall_forall in H. apply (H c Hin), Hc.
Qed.

Lemma all_digits_nonspace : forall l, all_digits l -> Forall (fun c => is_space c = false) l.
Proof.
  intros l H. eapply Forall_impl; [|exact H]. intros c Hc.
  destruct (digit_val c) eqn:E; [exact (digit_not_space c z E) | congruence].
Qed.

(** ["hh:mm"], digits on both sides, is split back into its two parts. *)
Lemma split_time : forall hs ms,
  all_digits (list_ascii_of_string hs) -> all_digits (list_ascii_of_string ms) ->
  split ":" (hs ++ ":" ++ ms) = [hs; ms].
Proof.
  intros hs ms Hh Hm. unfold split. rewrite !list_ascii_of_string_app. cbn [list_ascii_of_string app].
  rewrite split_aux_one by (apply all_digits_no; [reflexivity | exact Hh]).
  rewrite split_aux_nosep by (apply all_digits_no; [reflexivity | exact Hm]).
  cbn [rev app]. rewrite !string_of_list_ascii_of_string. reflexivity.
Qed.

Lemma strip_time : forall hs ms,
  all_digits (list_ascii_of_string hs) -> all_digits (list_ascii_of_string ms) ->
  strip (hs ++ ":" ++ ms) = (hs ++ ":" ++ ms).
Proof.
  intros hs ms Hh Hm. apply strip_nonspace. rewrite !list_ascii_of_string_app.
  cbn [list_ascii_of_string app].
  apply Forall_app. split; [apply all_digits_nonspace, Hh|].
  constructor; [reflexivity | apply all_digits_nonspace, Hm].
Qed.

Lemma contains_time : forall hs ms, contains ":" (hs ++ ":" ++ ms) = true.
Proof.
  intros hs ms. unfold contains. rewrite !list_ascii_of_string_app. cbn [list_ascii_of_string app].
  rewrite existsb_app. apply orb_true_iff. right. reflexivity.
Qed.

Lemma digits_val_nonneg : forall l acc b n,
  (0 <= acc)%Z -> digits_val l acc b = Some n -> (0 <= n)%Z.
Proof.
  induction l as [|c l IH]; intros acc b n Ha H; cbn in H.
  - destruct b; [injection H as <-; exact Ha | discriminate].
  - destruct (digit_val c) as [d|] eqn:E.
    + refine (IH _ _ _ _ H).
      unfold digit_val in E.
      destruct ((48 <=? nat_of_ascii c) && (nat_of_ascii c <=? 57))%nat eqn:R; [|discriminate].
      injection E as <-. apply andb_true_iff in R as [R _]. apply Nat.leb_le in R. lia.
    + destruct (Ascii.eqb c "_" && b); [exact (IH _ _ _ Ha H) | discriminate].
Qed.

(** [int()] of a string of digits, leading zeros included, is never negative. *)
Lemma py_int_digits_nonneg : forall s n, all_digits (list_ascii_of_string s) ->
  py_int s = Some n -> (0 <= n)%Z.
Proof.
  intros s n Hd H. unfold py_int in H.
  destruct (list_ascii_of_string s) as [|c r] eqn:E; [discriminate|].
  assert (Hne : c :: r <> []) by discriminate.
  assert (Hr : all_digits (rev (c :: r))) by (apply Forall_rev; exact Hd).
  assert (Hrne : rev (c :: r) <> []).
  { intro F. apply Hne. apply (f_equal (@rev ascii)) in F.
    rewrite rev_involutive in F. exact F. }
  rewrite (lstrip_l_digits (rev _) Hr Hrne), rev_involutive, (lstrip_l_digits _ Hd Hne) in H.
  inversion Hd as [|? ? Hc]; subst.
  destruct (digit_val c) eqn:Ec; [|congruence].
  destruct (digit_not_sign c z Ec) as [Em Ep]. rewrite Em, Ep in H.
  exact (digits_val_nonneg _ 0 false n ltac:(lia) H).
Qed.

Lemma mk_datetime_time : forall y mo d h mi x,
  mk_datetime y mo d 0 0 = Some x -> (0 <= h <= 23)%Z -> (0 <= mi <= 59)%Z ->
  mk_datetime y mo d h mi = Some (x + h * 3600 + mi * 60)%Z.
Proof.
  intros y mo d h mi x H Hh Hm. unfold mk_datetime in *.
  destruct ((1 <=? y)%Z && (y <=? 9999)%Z && (1 <=? mo)%Z && (mo <=? 12)%Z
            && (1 <=? d)%Z && (d <=? days_in_month y mo)%Z); [|discriminate].
  injection H as <-. cbn [andb].
  destruct (Z.leb_spec 0 h), (Z.leb_spec h 23), (Z.leb_spec 0 mi), (Z.leb_spec mi 59);
    try lia.
  cbn [andb]. f_equal. lia.
Qed.

(** An accepted date is never refused by the time step: after
    [deadline_date_handler] moves on to [DEADLINE_TIME], any time ["hh:mm"]
    written with digits (of any length, leading zeros allowed, as in
    ["09:05"]) whose hours read at most 23 and minutes at most 59 yields the
    deadline at that time of the stored day (it may still be in the past,
    which the handler checks next). *)
Theorem deadline_date_then_time : forall ud msg ud' a hs ms h m,
  deadline_date_handler ud msg = (DEADLINE_TIME, ud', a) ->
  all_digits (list_ascii_of_string hs) -> all_digits (list_ascii_of_string ms) ->
  py_int hs = Some h -> py_int ms = Some m -> (h <= 23)%Z -> (m <= 59)%Z ->
  exists day month year midnight,
    map py_int (split "." (strip msg)) = [Some day; Some month; Some year] /\
    mk_datetime year month day 0 0 = Some midnight /\
    ud_deadline_date ud' = Some (strip msg) /\
    deadline_input ud' (hs ++ ":" ++ ms) = inr (midnight + h * 3600 + m * 60)%Z.
Proof.
  intros ud msg ud' a hs ms h m H Dh Dm Ph Pm Hh Hm. unfold deadline_date_handler in H.
  pose proof (py_int_digits_nonneg hs h Dh Ph) as Nh.
  pose proof (py_int_digits_nonneg ms m Dm Pm) as Nm.
  destruct (date_format_ok (strip msg)) eqn:Ef; cbn [negb] in H; [|discriminate].
  destruct (map py_int (split "." (strip msg))) as [|[day|] [|[month|] [|[year|] [|]]]] eqn:Ed;
    try discriminate.
  destruct (mk_datetime year month day 0 0) as [x|] eqn:Ex; [|discriminate].
  injection H as <- <-.
  exists day, month, year, x. split; [reflexivity|]. split; [exact Ex|]. split; [reflexivity|].
  unfold deadline_input.
  rewrite (strip_time hs ms Dh Dm), contains_time, (split_time hs ms Dh Dm), Ph, Pm.
  cbn [negb ud_deadline_date].
  replace ((h <? 0) || (h >? 23))%Z with false by
    (symmetry; apply orb_false_iff; split; [apply Z.ltb_ge | rewrite Z.gtb_ltb; apply Z.ltb_ge]; lia).
  replace ((m <? 0) || (m >? 59))%Z with false by
    (symmetry; apply orb_false_iff; split; [apply Z.ltb_ge | rewrite Z.gtb_ltb; apply Z.ltb_ge]; lia).
  replace (option_truthy (Some (strip msg))) with true.
  2:{ unfold option_truthy, truthy. unfold date_format_ok in Ef.
      destruct (strip msg); [discriminate | reflexivity]. }
  cbn [negb get_or_empty]. rewrite Ed.
  rewrite (mk_datetime_time _ _ _ _ _ _ Ex) by lia. reflexivity.
Qed.

(** ** The store *)

Lemma find_app_opt : forall (A : Type) (f : A -> bool) l1 l2,
  find f (l1 ++ l2) = match find f l1 with Some x => Some x | None => find f l2 end.
Proof.
  intros A f l1 l2. induction l1 as [|x r IH]; [reflexivity|].
  cbn. destruct (f x); [reflexivity | exact IH].
Qed.

Lemma existsb_false_find : forall (A : Type) (f : A -> bool) l,
  existsb f l = false -> find f l = None.
Proof.
  intros A f l. induction l as [|x r IH]; [reflexivity|].
  cbn. destruct (f x); [discriminate | exact IH].
Qed.

Lemma save_user_find : forall st u x,
  find_user (users_tbl (save_user st u)) x =
  if db_fits u && String.eqb x (tg_id u) then Some u else find_user (users_tbl st) x.
Proof.
  intros st u x. unfold save_user, find_user.
  destruct (db_fits u); cbn [negb andb]; [|reflexivity].
  destruct (existsb (fun v => String.eqb (tg_id v) (tg_id u)) (users_tbl st)) eqn:Ex; cbn [users_tbl].
  - destruct (String.eqb_spec x (tg_id u)) as [->|Hx].
    + induction (users_tbl st) as [|v r IH]; [discriminate|].
      cbn in Ex |- *. destruct (String.eqb (tg_id v) (tg_id u)) eqn:E.
      * cbn. rewrite String.eqb_refl. reflexivity.
      * rewrite E. apply IH, Ex.
    + clear Ex. induction (users_tbl st) as [|v r IH]; [reflexivity|].
      cbn. destruct (String.eqb_spec (tg_id v) (tg_id u)) as [E|E].
      * cbn. rewrite E. replace (String.eqb (tg_id u) x) with false
          by (symmetry; apply String.eqb_neq; congruence).
        destruct (String.eqb_spec (tg_id v) x); [congruence | exact IH].
      * destruct (String.eqb (tg_id v) x); [reflexivity | exact IH].
  - rewrite find_app_opt.
    destruct (String.eqb_spec x (tg_id u)) as [->|Hx].
    + rewrite (existsb_false_find _ _ _ Ex). cbn. rewrite String.eqb_refl. reflexivity.
    + destruct (find (fun v => String.eqb (tg_id v) x) (users_tbl st)); [reflexivity|].
      cbn. replace (String.eqb (tg_id u) x) with false
        by (symmetry; apply String.eqb_neq; congruence). reflexivity.
Qed.

Lemma save_user_unfit : forall st u, db_fits u = false -> save_user st u = st.
Proof. intros st u H. unfold save_user. rewrite H. reflexivity. Qed.

(** [save_user] is an upsert keyed by [tg_id] when the row fits the
    columns of [users]: afterwards the id of the saved row finds exactly that
    row, and every other id finds what it found before.  A row that does not
    fit leaves the table as it was, so every id finds what it found before. *)
Theorem save_user_lookup : forall st u x,
  find_user (users_tbl (save_user st u)) x =
    (if db_fits u && String.eqb x (tg_id u) then Some u else find_user (users_tbl st) x) /\
  (db_fits u = false -> save_user st u = st).
Proof.
  intros st u x. split.
  - destruct (db_fits u) eqn:F.
    + rewrite save_user_find, F. reflexivity.
    + rewrite save_user_unfit by exact F. reflexivity.
  - apply save_user_unfit.
Qed.

Lemma str_N_nonempty : forall n, str_N n <> "".
Proof.
  intros n E. apply (digits_of_nonempty (N.size_nat n) n "").
  unfold str_N in E. rewrite E. reflexivity.
Qed.

Lemma find_task_fresh : forall tasks t,
  Forall (fun r => (id r < id t)%N) tasks ->
  find_task (tasks ++ [t]) (str_N (id t)) = Some t.
Proof.
  intros tasks t H. unfold find_task. rewrite find_app_opt.
  replace (find (fun r => String.eqb (str_N (id r)) (str_N (id t))) tasks) with (@None task_row).
  - cbn. rewrite String.eqb_refl. reflexivity.
  - symmetry. apply existsb_false_find.
    induction H as [|r rs Hr _ IH]; [reflexivity|].
    cbn [existsb]. rewrite IH, orb_false_r. apply String.eqb_neq. intros E.
    apply str_N_inj in E. lia.
Qed.

(** A task created by the wizard can be closed from its notice: the new
    task gets the next [SERIAL] id [k], its notice goes to the chat
    [int(assignee_id)], which is the assignee's Telegram id, its reminders
    go to the creator and to the assignee, and the button [done:{k}] makes
    [mark_done] find exactly this task, mark it done and tell the creator. *)
Theorem create_then_done : forall st ud sender msg now dl a,
  store_wf st -> deadline_input ud msg = inr dl -> (now < dl)%Z ->
  ud_assignee_id ud = Some (str_N a) -> get_or_empty (ud_task_text ud) <> "" ->
  let o := deadline_time_handler st ud sender msg now true in
  let k := next_id st in
  let txt := get_or_empty (ud_task_text ud) in
  let t := mk_task k (str_N sender) (str_N a) txt dl "new" in
  o_store o = mk_store (users_tbl st) (tasks_tbl st ++ [t]) (N.succ k) /\
  o_jobs o = schedule_deadline_reminders now (str_N k) (Z.of_N sender) (Z.of_N a) txt dl /\
  o_sent o = [(Z.of_N a, NewTaskNotice k txt dl)] /\
  o_store (mark_done (o_store o) (str_N k) true) =
    mk_store (users_tbl st) (tasks_tbl st ++ [as_done t]) (N.succ k) /\
  o_sent (mark_done (o_store o) (str_N k) true) =
    [(Z.of_N sender, DoneNotice (display_name (users_tbl st) (str_N a)) txt dl)].
Proof.
  intros st ud sender msg now dl a Hw Hin Hdl Ha Ht o k txt t.
  assert (Ho : o = mk_outcome END (mk_store (users_tbl st) (tasks_tbl st ++ [t]) (N.succ k))
                 empty_user_data
                 (schedule_deadline_reminders now (str_N k) (Z.of_N sender) (Z.of_N a) txt dl)
                 [(Z.of_N a, NewTaskNotice k txt dl)]
                 [R_task_created (display_name (users_tbl st) (str_N a))]).
  { unfold o. unfold deadline_time_handler. rewrite Hin.
    replace (dl <=? now)%Z with false by lia. rewrite Ha.
    unfold option_truthy, truthy. replace (String.eqb (str_N a) "") with false
      by (symmetry; apply String.eqb_neq, str_N_nonempty).
    fold txt. replace (String.eqb txt "") with false by (symmetry; apply String.eqb_neq, Ht).
    cbn [negb orb get_or_empty]. unfold save_task. cbn [id negb N.eqb].
    fold k. destruct Hw as (H0 & _).
    replace (N.eqb k 0) with false by (symmetry; apply N.eqb_neq; unfold k; lia).
    rewrite !py_int_str_N. reflexivity. }
  (* display_name looks at the users table, which the insert does not touch *)
  assert (Hfind : find_task (load_tasks (o_store o)) (str_N k) = Some t).
  { rewrite Ho. cbn [o_store load_tasks tasks_tbl]. apply find_task_fresh.
    destruct Hw as (_ & Hr & _). cbn [id t]. eapply Forall_impl; [|exact Hr].
    intros r Hr'. cbn beta in Hr'. unfold k. lia. }
  assert (Hmap : map (done_update t) (tasks_tbl st ++ [t]) = (tasks_tbl st ++ [as_done t])%list).
  { rewrite map_app. cbn [map]. unfold done_update at 2. rewrite N.eqb_refl. f_equal.
    destruct Hw as (_ & Hr & _). rewrite <- (map_id (tasks_tbl st)) at 2. apply map_ext_in.
    intros r Hr'. rewrite Forall_forall in Hr. apply Hr in Hr'. unfold done_update.
    cbn [id t]. replace (N.eqb (id r) k) with false by (symmetry; apply N.eqb_neq; unfold k; lia).
    reflexivity. }
  split; [rewrite Ho; reflexivity|]. split; [rewrite Ho; reflexivity|].
  split; [rewrite Ho; reflexivity|]. split.
  - rewrite mark_done_store_found with (t := t) by
      (exact Hfind || (cbn [id t]; destruct Hw as (H0 & _); unfold k; lia)).
    rewrite Ho. cbn [o_store users_tbl tasks_tbl next_id]. rewrite Hmap. reflexivity.
  - rewrite mark_done_sent_found with (t := t) by exact Hfind.
    cbn [task_chief_id t assignee_id text deadline]. rewrite py_int_str_N.
    rewrite Ho. cbn [o_store users_tbl]. reflexivity.
Qed.

(** ** The creation wizard, step by step *)

Lemma find_user_nodup : forall users v,
  NoDup (map tg_id users) -> In v users -> find_user users (tg_id v) = Some v.
Proof.
  intros users v. induction users as [|w r IH]; intros Hd Hin; [destruct Hin|].
  inversion Hd as [|? ? Hw Hr]; subst. cbn.
  destruct Hin as [->|Hin]; [rewrite String.eqb_refl; reflexivity|].
  destruct (String.eqb_spec (tg_id w) (tg_id v)) as [E|E]; [|apply IH; assumption].
  exfalso. apply Hw. rewrite E. apply in_map, Hin.
Qed.

Lemma find_user_some : forall users x u, find_user users x = Some u -> In u users /\ tg_id u = x.
Proof.
  intros users x u H. apply find_some in H as [Hin E]. apply String.eqb_eq in E. auto.
Qed.

Lemma assign_split : forall x, ~ In ":"%char (list_ascii_of_string x) ->
  split ":" ("assign:" ++ x) = ["assign"; x].
Proof.
  intros x Hx. unfold split. rewrite list_ascii_of_string_app.
  change (list_ascii_of_string "assign:" ++ list_ascii_of_string x)%list with
    (["a"; "s"; "s"; "i"; "g"; "n"]%char ++ ":"%char :: list_ascii_of_string x)%list.
  rewrite split_aux_one by (cbn; intros H; repeat destruct H as [H|H]; discriminate || exact H).
  rewrite split_aux_nosep by exact Hx. cbn [rev app].
  rewrite string_of_list_ascii_of_string. reflexivity.
Qed.

(** The wizard never offers the creator as assignee: a director is offered
    everyone else, a chief every manager of the table (also those outside
    the chief's own hierarchy); the task text is kept stripped, and the
    button of an offered employee whose id has no [':'] stores exactly that
    id as the assignee, keeping the rest of the wizard's data. *)
Theorem create_wizard_offers : forall st ud c ud1 rs msg ud2 l,
  NoDup (map tg_id (users_tbl st)) ->
  task st ud c = (TASK_TEXT, ud1, rs) ->
  task_text_handler st ud1 msg = (CHOOSE_USER, ud2, A_choose_employee l) ->
  exists u, find_user (users_tbl st) c = Some u /\
  (forall v, In v l -> tg_id v <> c /\ In v (users_tbl st)) /\
  (role u = "director" -> l = filter (fun v => negb (String.eqb (tg_id v) c)) (users_tbl st)) /\
  (role u = "chief" -> l = filter (fun v => String.eqb (role v) "manager") (users_tbl st)) /\
  ud_task_text ud2 = Some (strip msg) /\
  (forall v, In v l -> ~ In ":"%char (list_ascii_of_string (tg_id v)) ->
     assign_task ud2 (assign_button v) =
       Some (DEADLINE_DATE,
             mk_user_data (Some (strip msg)) (Some (tg_id v)) (ud_deadline_date ud)
                          (Some (role u)) (Some c),
             A_enter_date)).
Proof.
  intros st ud c ud1 rs msg ud2 l Hnd Ht Htt.
  unfold task, load_users in Ht.
  destruct (find_user (users_tbl st) c) as [u|] eqn:Hu; [|discriminate].
  destruct (String.eqb (role u) "director" || String.eqb (role u) "chief") eqn:Hr; [|discriminate].
  injection Ht as <- _.
  unfold task_text_handler, load_users in Htt. cbn [ud_task_creator_role ud_task_creator_id get_or_empty] in Htt.
  assert (Hsplit : forall v, In v l -> ~ In ":"%char (list_ascii_of_string (tg_id v)) ->
     assign_task ud2 (assign_button v) =
       Some (DEADLINE_DATE,
             mk_user_data (Some (strip msg)) (Some (tg_id v)) (ud_deadline_date ud)
                          (Some (role u)) (Some c), A_enter_date)).
  { intros v _ Hv. unfold assign_task, assign_button. rewrite assign_split by exact Hv.
    destruct (String.eqb (role u) "director"), (String.eqb (role u) "chief");
      cbn in Hr; try discriminate;
      destruct (filter _ _); try discriminate; injection Htt as <- _; reflexivity. }
  exists u. split; [reflexivity|].
  destruct (String.eqb_spec (role u) "director") as [Ed|Ed].
  - destruct (filter _ _) as [|w ws] eqn:Ef; [discriminate|]. injection Htt as <- <-.
    split; [|split; [reflexivity | split; [intros Ec; rewrite Ed in Ec; discriminate|]]].
    + intros v Hv. rewrite <- Ef in Hv. apply filter_In in Hv as [Hin Hv].
      split; [|exact Hin]. apply negb_true_iff, String.eqb_neq in Hv. exact Hv.
    + split; [reflexivity|]. exact Hsplit.
  - destruct (String.eqb_spec (role u) "chief") as [Ec|Ec]; [|discriminate].
    destruct (filter _ _) as [|w ws] eqn:Ef; [discriminate|]. injection Htt as <- <-.
    split; [|split; [intros; contradiction | split; [reflexivity | split; [reflexivity|]]]].
    + intros v Hv. rewrite <- Ef in Hv. apply filter_In in Hv as [Hin Hv].
      split; [|exact Hin]. intros E. apply String.eqb_eq in Hv.
      pose proof (find_user_nodup _ _ Hnd Hin) as Hv'. rewrite E, Hu in Hv'.
      injection Hv' as ->. congruence.
    + exact Hsplit.
Qed.


(** ** Changing roles *)

Lemma save_user_In : forall st u v, In v (users_tbl (save_user st u)) ->
  (v = u /\ db_fits u = true) \/
  (In v (users_tbl st) /\ (tg_id v <> tg_id u \/ db_fits u = false)).
Proof.
  intros st u v H. destruct (db_fits u) eqn:F.
  2:{ rewrite save_user_unfit in H by exact F. right. auto. }
  unfold save_user in H. rewrite F in H. cbn [negb] in H.
  destruct (existsb (fun w => String.eqb (tg_id w) (tg_id u)) (users_tbl st)) eqn:Ex;
    cbn [users_tbl] in H.
  - apply in_map_iff in H as [w [Hw Hin]].
    destruct (String.eqb_spec (tg_id w) (tg_id u)) as [E|E]; [left; split; [congruence | reflexivity]|].
    subst w. right. auto.
  - apply in_app_or in H as [H|[H|[]]]; [|left; split; [congruence | reflexivity]].
    right. split; [exact H|]. left. intros E.
    assert (Ht : existsb (fun w => String.eqb (tg_id w) (tg_id u)) (users_tbl st) = true)
      by (apply existsb_exists; exists v; split; [exact H | apply String.eqb_eq, E]).
    congruence.
Qed.

Lemma fold_save_user_In : forall L st v, In v (users_tbl (fold_left save_user L st)) ->
  In v L \/
  (In v (users_tbl st) /\ Forall (fun w => tg_id v <> tg_id w \/ db_fits w = false) L).
Proof.
  induction L as [|w r IH]; intros st v H; [right; auto|].
  cbn [fold_left] in H. apply IH in H as [H|[H Hf]]; [left; right; exact H|].
  apply save_user_In in H as [[-> _]|[H Hne]].
  - left. left. reflexivity.
  - right. split; [exact H | constructor; assumption].
Qed.

Lemma fold_save_user_find_other : forall L st y,
  Forall (fun w => tg_id w <> y) L ->
  find_user (users_tbl (fold_left save_user L st)) y = find_user (users_tbl st) y.
Proof.
  induction L as [|w r IH]; intros st y H; [reflexivity|].
  inversion H as [|? ? Hw Hr]; subst. cbn [fold_left]. rewrite IH by exact Hr.
  rewrite save_user_find.
  replace (String.eqb y (tg_id w)) with false by (symmetry; apply String.eqb_neq; congruence).
  rewrite andb_false_r. reflexivity.
Qed.

(** After saving a list of rows, an id finds the one row of the list with
    that id, when the row fits. *)
Lemma fold_save_user_find_last : forall L st w,
  In w L -> db_fits w = true -> (forall w', In w' L -> tg_id w' = tg_id w -> w' = w) ->
  find_user (users_tbl (fold_left save_user L st)) (tg_id w) = Some w.
Proof.
  induction L as [|a r IH]; intros st w Hin Hf Hu; [destruct Hin|].
  cbn [fold_left].
  destruct (existsb (fun a' => String.eqb (tg_id a') (tg_id w)) r) eqn:E.
  - apply existsb_exists in E as [a' [Ha' Ea']]. apply String.eqb_eq in Ea'.
    assert (Hw : In w r) by (rewrite <- (Hu a' (or_intror Ha') Ea'); exact Ha').
    apply IH; [exact Hw | exact Hf|]. intros w' Hw' E'. apply Hu; [right|]; assumption.
  - assert (Ha : a = w).
    { destruct Hin as [Ha|Hin]; [exact Ha|].
      apply existsb_false_find in E. eapply find_none in E; [|exact Hin].
      rewrite String.eqb_refl in E. discriminate. }
    subst a. rewrite fold_save_user_find_other.
    + rewrite save_user_find, Hf, String.eqb_refl. reflexivity.
    + apply Forall_forall. intros w' Hw' E'.
      apply existsb_false_find in E. eapply find_none in E; [|exact Hw'].
      rewrite E', String.eqb_refl in E. discriminate.
Qed.

Lemma update_first_In_any : forall (A : Type) (p : A -> bool) y l v,
  In v (update_first p y l) -> v = y \/ In v l.
Proof.
  intros A p y l v. induction l as [|w r IH]; intros H; [destruct H|].
  cbn in H. destruct (p w).
  - destruct H as [<-|H]; [left; reflexivity | right; right; exact H].
  - destruct H as [<-|H]; [right; left; reflexivity|].
    destruct (IH H) as [E|E]; [left; exact E | right; right; exact E].
Qed.

Lemma db_fits_parts : forall u, db_fits u = true ->
  fits 20 (tg_id u) = true /\ fits_opt 20 (chief_id u) = true.
Proof.
  intros [t n s r c d] H. unfold db_fits in H. cbn in H |- *.
  repeat rewrite andb_true_iff in H. destruct H as [[[[[H1 _] _] _] H5] _]. auto.
Qed.

(** The rewrites of a stored row keep its id, name and surname; whether
    the result fits depends on the new fields only. *)
Lemma db_fits_rewritten : forall u r c d, db_fits u = true ->
  db_fits (with_chief (with_department (with_role u r) d) c) =
    fits 20 r && fits_opt 20 c && fits_opt 100 d.
Proof.
  intros [t n s r0 c0 d0] r c d H. unfold db_fits in H |- *. cbn in H |- *.
  repeat rewrite andb_true_iff in H. destruct H as [[[[[H1 H2] H3] _] _] _].
  rewrite H1, H2, H3. reflexivity.
Qed.

Lemma db_fits_with_role : forall u r, db_fits u = true -> db_fits (with_role u r) = fits 20 r.
Proof.
  intros [t n s r0 c0 d0] r H. unfold db_fits in H |- *. cbn in H |- *.
  repeat rewrite andb_true_iff in H. destruct H as [[[[[H1 H2] H3] _] H5] H6].
  rewrite H1, H2, H3, H5, H6, !andb_true_r. reflexivity.
Qed.

Lemma db_fits_with_chief : forall u c, db_fits u = true -> db_fits (with_chief u c) = fits_opt 20 c.
Proof.
  intros [t n s r0 c0 d0] c H. unfold db_fits in H |- *. cbn in H |- *.
  repeat rewrite andb_true_iff in H. destruct H as [[[[[H1 H2] H3] H4] _] H6].
  rewrite H1, H2, H3, H4, H6, andb_true_r. reflexivity.
Qed.

Lemma chief_of_fits : forall (q : user -> bool) l c,
  (forall d, In d l -> fits 20 (tg_id d) = true) -> fits_opt 20 c = true ->
  fits_opt 20 (chief_of (find q l) c) = true.
Proof.
  intros q l c Hl Hc. destruct (find q l) as [d|] eqn:E; [|exact Hc].
  apply find_some in E as [E _]. exact (Hl d E).
Qed.

(** A row rewritten in place among stored rows: every id of the result fits. *)
Lemma update_first_ids_fit : forall st u y (p : user -> bool),
  users_fit st -> tg_id y = tg_id u -> db_fits u = true ->
  forall d, In d (update_first p y (users_tbl st)) -> fits 20 (tg_id d) = true.
Proof.
  intros st u y p Hfit Hy Hu d Hd.
  apply update_first_In_any in Hd as [->|Hd].
  - rewrite Hy. apply db_fits_parts, Hu.
  - apply db_fits_parts, Hfit, Hd.
Qed.

Lemma below_In : forall l x v, below l x v -> In v l.
Proof. intros l x v H. induction H; assumption. Qed.

(** What is below [x] in [l] by a path that does not come back to [x] is
    below [x] in any [l'] holding the rows of [l] other than [x]'s; every
    path can be cut at its last visit to [x]. *)
Lemma below_transfer : forall l l' x,
  (forall s, In s l -> tg_id s <> x -> In s l') ->
  forall v, below l x v -> tg_id v <> x -> below l' x v.
Proof.
  intros l l' x Hl.
  assert (G : forall y v, below l y v -> tg_id v <> x -> below l' y v \/ below l' x v).
  { intros y v H. induction H as [y v Hin Hc|y s v Hin Hc _ IH]; intros Hv.
    - left. apply below_direct; [apply Hl|]; assumption.
    - destruct (IH Hv) as [H|H]; [|right; exact H].
      destruct (String.eqb_spec (tg_id s) x) as [E|E].
      + right. rewrite <- E. exact H.
      + left. apply (below_via l' y s v); [apply Hl| |]; assumption. }
  intros v H Hv. destruct (G x v H Hv); assumption.
Qed.

Lemma update_first_In : forall x y l v,
  NoDup (map tg_id l) -> In v (update_first (fun w => String.eqb (tg_id w) x) y l) ->
  v = y \/ (In v l /\ tg_id v <> x).
Proof.
  intros x y l v. induction l as [|w r IH]; intros Hd H; [destruct H|].
  inversion Hd as [|? ? Hw Hr]; subst. cbn in H.
  destruct (String.eqb_spec (tg_id w) x) as [E|E].
  - destruct H as [H|H]; [left; congruence|]. right. split; [right; exact H|].
    intros E'. apply Hw. rewrite E, <- E'. apply in_map, H.
  - destruct H as [<-|H]; [right; split; [left; reflexivity | exact E]|].
    destruct (IH Hr H) as [H'|[H' Hne]]; [left; exact H' | right; split; [right; exact H' | exact Hne]].
Qed.

Lemma update_first_keep : forall x y l v,
  In v l -> tg_id v <> x -> In v (update_first (fun w => String.eqb (tg_id w) x) y l).
Proof.
  intros x y l v. induction l as [|w r IH]; intros H Hne; [destruct H|].
  cbn. destruct (String.eqb_spec (tg_id w) x) as [E|E].
  - destruct H as [->|H]; [contradiction | right; exact H].
  - destruct H as [->|H]; [left; reflexivity | right; apply IH; assumption].
Qed.

Lemma update_first_new : forall x y l w,
  In w l -> tg_id w = x -> In y (update_first (fun v => String.eqb (tg_id v) x) y l).
Proof.
  intros x y l w. induction l as [|v r IH]; intros H E; [destruct H|].
  cbn. destruct (String.eqb_spec (tg_id v) x); [left; reflexivity|].
  destruct H as [->|H]; [contradiction | right; apply IH; assumption].
Qed.

Lemma update_first_ids : forall x y l, tg_id y = x ->
  map tg_id (update_first (fun v => String.eqb (tg_id v) x) y l) = map tg_id l.
Proof.
  intros x y l Hy. induction l as [|v r IH]; [reflexivity|].
  cbn. destruct (String.eqb_spec (tg_id v) x) as [E|E]; cbn; congruence.
Qed.

Lemma extend_all_none : forall walk l s, In s l -> walk (tg_id s) = None ->
  extend_all walk l = None.
Proof.
  intros walk l s. induction l as [|w r IH]; intros H Hs; [destruct H|].
  cbn. destruct H as [->|H]; [rewrite Hs; reflexivity|].
  destruct (walk (tg_id w)); [|reflexivity]. rewrite IH by assumption. reflexivity.
Qed.

(** A user who is their own chief makes the walk from their id recurse forever. *)
Lemma get_user_subordinates_self_loop : forall f x users w,
  In w users -> tg_id w = x -> chief_id w = Some x -> get_user_subordinates f x users = None.
Proof.
  induction f as [|f IH]; intros x users w Hin Hid Hc; [reflexivity|].
  cbn [get_user_subordinates].
  rewrite (extend_all_none _ _ w); [reflexivity| |].
  - apply filter_In. split; [exact Hin | apply chief_is_same, Hc].
  - rewrite Hid. apply (IH x users w); assumption.
Qed.

Lemma get_user_subordinates_direct : forall f x users subs v,
  get_user_subordinates f x users = Some subs -> In v users -> chief_id v = Some x -> In v subs.
Proof.
  intros [|f] x users subs v H Hin Hc; [discriminate|].
  cbn [get_user_subordinates] in H.
  destruct (extend_all _ _); [|discriminate]. injection H as <-.
  apply in_or_app. left. apply filter_In. split; [exact Hin | apply chief_is_same, Hc].
Qed.

Lemma role_user_split : forall x, ~ In ":"%char (list_ascii_of_string x) ->
  split ":" ("role_user:" ++ x) = ["role_user"; x].
Proof.
  intros x Hx. unfold split. rewrite list_ascii_of_string_app.
  change (list_ascii_of_string "role_user:" ++ list_ascii_of_string x)%list with
    (["r"; "o"; "l"; "e"; "_"; "u"; "s"; "e"; "r"]%char ++ ":"%char :: list_ascii_of_string x)%list.
  rewrite split_aux_one by (cbn; intros H; repeat destruct H as [H|H]; discriminate || exact H).
  rewrite split_aux_nosep by exact Hx. cbn [rev app].
  rewrite string_of_list_ascii_of_string. reflexivity.
Qed.

(** The menus of the role change: only a director gets the list of
    employees, which is everyone else; the roles offered for an employee
    never include the employee's current role and always include
    ["director"]; the row of a director is refused. *)
Theorem role_change_menus :
  (forall st c l, change_role st c = (CHOOSE_USER_FOR_ROLE, A_choose_user l) ->
     exists u, find_user (users_tbl st) c = Some u /\ role u = "director" /\
       l = filter (fun v => negb (String.eqb (tg_id v) c)) (users_tbl st)) /\
  (forall st rd data s rd' roles,
     choose_user_for_role st rd data = Some (s, rd', A_choose_role roles) ->
     exists uid u, rl_user_id rd' = Some uid /\ find_user (users_tbl st) uid = Some u /\
       role u <> "director" /\ ~ In (role u) roles /\ In "director" roles /\
       rl_current_role rd' = Some (role u) /\ s = CHOOSE_NEW_ROLE) /\
  (forall st rd uid u, ~ In ":"%char (list_ascii_of_string uid) ->
     find_user (users_tbl st) uid = Some u -> role u = "director" ->
     exists rd', choose_user_for_role st rd ("role_user:" ++ uid) = Some (END, rd', A_director_fixed)).
Proof.
  split; [|split].
  - intros st c l H. unfold change_role, load_users in H.
    destruct (find_user (users_tbl st) c) as [u|]; [|discriminate].
    destruct (String.eqb_spec (role u) "director"); [|discriminate].
    destruct (filter _ _) eqn:Ef; [discriminate|]. injection H as <-.
    exists u. auto.
  - intros st rd data s rd' roles H. unfold choose_user_for_role, load_users in H.
    destruct (split ":" data) as [|? [|uid ?]]; try discriminate.
    destruct (find_user (users_tbl st) uid) as [u|] eqn:Hu; [|discriminate].
    destruct (String.eqb_spec (role u) "director"); [discriminate|].
    injection H as <- <- <-. exists uid, u. repeat split; try assumption.
    + destruct (String.eqb_spec (role u) "chief") as [E|E]; rewrite E ||
        (intros [H|[H|[]]]; congruence).
      intros [H|[H|[]]]; discriminate.
    + destruct (String.eqb (role u) "chief"); cbn; auto.
  - intros st rd uid u Hc Hu Hr. unfold choose_user_for_role, load_users.
    rewrite role_user_split by exact Hc. rewrite Hu, Hr. cbn. eexists. reflexivity.
Qed.

Lemma find_no_id : forall (q : user -> bool) x l,
  (forall v, In v l -> tg_id v <> x) ->
  find q l = find (fun v => q v && negb (String.eqb (tg_id v) x)) l.
Proof.
  intros q x l. induction l as [|w r IH]; intros H; [reflexivity|].
  cbn. destruct (String.eqb_spec (tg_id w) x) as [E|E];
    [exfalso; apply (H w); [left; reflexivity | exact E]|].
  rewrite andb_true_r. destruct (q w); [reflexivity|].
  apply IH. intros v Hv. apply H. right. exact Hv.
Qed.

(** The director looked up after the in-place role change is the first
    director of the table other than the user being changed. *)
Lemma find_director_update : forall x y l,
  NoDup (map tg_id l) -> role y <> "director" ->
  find (fun v => String.eqb (role v) "director")
       (update_first (fun v => String.eqb (tg_id v) x) y l) =
  find (fun v => String.eqb (role v) "director" && negb (String.eqb (tg_id v) x)) l.
Proof.
  intros x y l. induction l as [|w r IH]; intros Hd Hy; [reflexivity|].
  inversion Hd as [|? ? Hw Hr]; subst. cbn.
  destruct (String.eqb_spec (tg_id w) x) as [E|E].
  - cbn. destruct (String.eqb_spec (role y) "director"); [contradiction|].
    rewrite andb_false_r. apply find_no_id.
    intros v Hv E'. apply Hw. rewrite E, <- E'. apply in_map, Hv.
  - cbn. rewrite andb_true_r. destruct (String.eqb (role w) "director"); [reflexivity|].
    apply IH; assumption.
Qed.

Lemma confirm_yes_split : split ":" "confirm_role:yes" = ["confirm_role"; "yes"].
Proof. reflexivity. Qed.

(** Demoting a chief to manager, in a table whose rows fit their columns
    and whose ids are distinct (as the primary key makes them): the change
    is reported; the user's row becomes a manager's, without department,
    whose chief is the first other director (the old chief when there is
    none); every user below them, at any depth, now has that director as
    chief, or no chief without a director; and nobody is left with the
    demoted user as chief. *)
Theorem demotion_detaches_team : forall fuel st rd b o x u,
  NoDup (map tg_id (users_tbl st)) -> users_fit st ->
  rl_user_id rd = Some x -> rl_new_role rd = Some "manager" -> rl_current_role rd = Some "chief" ->
  find_user (users_tbl st) x = Some u ->
  confirm_role_change fuel st rd "confirm_role:yes" b = Some o ->
  let director :=
    find (fun v => String.eqb (role v) "director" && negb (String.eqb (tg_id v) x)) (users_tbl st) in
  ro_answer o = A_role_changed /\
  find_user (users_tbl (ro_store o)) x =
    Some (mk_user x (name u) (surname u) "manager" (chief_of director (chief_id u)) None) /\
  (forall v, below (users_tbl st) x v -> tg_id v <> x ->
     find_user (users_tbl (ro_store o)) (tg_id v) = Some (with_chief v (chief_of director None))) /\
  (forall v, In v (users_tbl (ro_store o)) -> chief_id v <> Some x).
Proof.
  intros fuel st rd b o x u Hnd Hfit Hx Hn Hc Hu Ho director.
  pose proof (find_user_some _ _ _ Hu) as [Hu_in Hid].
  assert (Hfu : db_fits u = true) by exact (Hfit u Hu_in).
  unfold confirm_role_change in Ho. rewrite confirm_yes_split in Ho.
  replace (String.eqb "yes" "no") with false in Ho by reflexivity.
  rewrite Hx, Hn, Hc in Ho. unfold load_users in Ho. rewrite Hu in Ho.
  replace (String.eqb "manager" "chief" && String.eqb "chief" "manager") with false in Ho
    by reflexivity.
  replace (String.eqb "manager" "manager" && String.eqb "chief" "chief") with true in Ho
    by reflexivity.
  cbv beta iota zeta in Ho.
  set (p := fun v => String.eqb (tg_id v) x) in Ho.
  set (u1 := with_role u "manager") in Ho.
  set (users1 := update_first p u1 (users_tbl st)) in Ho.
  set (director0 := find (fun v => String.eqb (role v) "director") users1) in Ho.
  set (u2 := with_chief (with_department u1 None) (chief_of director0 (chief_id u1))) in Ho.
  set (users2 := update_first p u2 users1) in Ho.
  assert (Hd : director0 = director).
  { unfold director0, users1, p. apply find_director_update; [exact Hnd | cbn; discriminate]. }
  assert (Hch : forall c, chief_of director0 c = Some x -> c = Some x).
  { intros c E. rewrite Hd in E. unfold director in E.
    destruct (find _ (users_tbl st)) as [d|] eqn:Ed; cbn in E; [|exact E].
    injection E as E. apply find_some in Ed as [_ Ed].
    apply andb_true_iff in Ed as [_ Ed]. apply negb_true_iff, String.eqb_neq in Ed.
    contradiction. }
  assert (Hu1_id : tg_id u1 = x) by exact Hid.
  assert (Hu2_id : tg_id u2 = x) by exact Hid.
  assert (Hids1 : forall d, In d users1 -> fits 20 (tg_id d) = true)
    by (apply (update_first_ids_fit st u u1 p Hfit eq_refl Hfu)).
  assert (Hu1_fit : db_fits u1 = true) by (unfold u1; rewrite db_fits_with_role; [reflexivity | exact Hfu]).
  assert (Hu2_fit : db_fits u2 = true).
  { unfold u2, u1, director0. rewrite db_fits_rewritten by exact Hfu.
    replace (fits 20 "manager") with true by reflexivity.
    rewrite chief_of_fits; [reflexivity | exact Hids1 | exact (proj2 (db_fits_parts u Hfu))]. }
  (* every row of [users2] is stored with fitting fields *)
  assert (Hrows2 : forall s, In s users2 -> db_fits s = true).
  { intros s Hs. apply update_first_In_any in Hs as [->|Hs]; [exact Hu2_fit|].
    apply update_first_In_any in Hs as [->|Hs]; [exact Hu1_fit | exact (Hfit s Hs)]. }
  assert (Hkeep : forall s, In s (users_tbl st) -> tg_id s <> x -> In s users2).
  { intros s Hs Hne. unfold users2, users1, p.
    apply update_first_keep; [apply update_first_keep|]; assumption. }
  assert (Hnd2 : NoDup (map tg_id users2)).
  { unfold users2, users1, p. rewrite !update_first_ids by assumption. exact Hnd. }
  destruct (get_user_subordinates fuel x users2) as [subs|] eqn:Hw; [|discriminate].
  cbv beta iota in Ho.
  set (moved := map (fun s => with_chief s (chief_of director0 None))
                    (filter (fun s => negb (String.eqb (tg_id s) x)) subs)) in Ho.
  assert (Hmoved_fit : forall w, In w moved -> db_fits w = true).
  { intros w Hw'. unfold moved in Hw'. apply in_map_iff in Hw' as [s [<- Hs]].
    apply filter_In in Hs as [Hs _].
    apply (get_user_subordinates_sound fuel x users2 subs s Hw), below_In in Hs.
    rewrite db_fits_with_chief by exact (Hrows2 s Hs).
    unfold director0. apply chief_of_fits; [exact Hids1 | reflexivity]. }
  assert (Hlook : find_user (users_tbl (save_user (fold_left save_user moved st) u2)) x = Some u2).
  { rewrite save_user_find, Hu2_fit, Hu2_id, String.eqb_refl. reflexivity. }
  rewrite Hlook in Ho. injection Ho as <-. cbn [ro_answer ro_store].
  split; [reflexivity|]. split; [|split].
  - rewrite Hlook. unfold u2, u1, with_chief, with_department, with_role. cbn.
    rewrite Hid, Hd. reflexivity.
  - intros v Hb Hv.
    assert (Hb2 : below users2 x v) by exact (below_transfer _ _ x Hkeep v Hb Hv).
    assert (Hsub : In v subs) by exact (get_user_subordinates_complete _ _ _ Hb2 fuel subs Hw).
    assert (Hv2 : In v users2) by exact (below_In _ _ _ Hb2).
    rewrite save_user_find, Hu2_id.
    replace (String.eqb (tg_id v) x) with false by (symmetry; apply String.eqb_neq, Hv).
    rewrite andb_false_r. rewrite <- Hd.
    change (tg_id v) with (tg_id (with_chief v (chief_of director0 None))).
    apply fold_save_user_find_last.
    + unfold moved. apply in_map_iff. exists v. split; [reflexivity|].
      apply filter_In. split; [exact Hsub|].
      apply negb_true_iff, String.eqb_neq, Hv.
    + rewrite db_fits_with_chief by exact (Hrows2 v Hv2).
      unfold director0. apply chief_of_fits; [exact Hids1 | reflexivity].
    + intros w' Hw' E. unfold moved in Hw'. apply in_map_iff in Hw' as [s [<- Hs]].
      apply filter_In in Hs as [Hs _].
      apply (get_user_subordinates_sound fuel x users2 subs s Hw), below_In in Hs.
      cbn in E. pose proof (find_user_nodup _ _ Hnd2 Hs) as E1.
      pose proof (find_user_nodup _ _ Hnd2 Hv2) as E2. rewrite E in E1. congruence.
  - intros v Hv E.
    apply save_user_In in Hv as [[-> _]|[Hv [Hne|Hnf]]]; [| |congruence].
    + assert (Hu2 : In u2 users2).
      { unfold users2, p. apply (update_first_new x u2 users1 u1); [|exact Hu1_id]. unfold users1.
        apply (update_first_new x u1 (users_tbl st) u); assumption. }
      rewrite (get_user_subordinates_self_loop fuel x users2 u2 Hu2 Hu2_id E) in Hw.
      discriminate.
    + rewrite Hu2_id in Hne.
      apply fold_save_user_In in Hv as [Hv|[Hv Hf]].
      * unfold moved in Hv. apply in_map_iff in Hv as [s [<- _]].
        cbn [chief_id with_chief] in E. apply Hch in E. discriminate.
      * pose proof (get_user_subordinates_direct _ _ _ _ _ Hw (Hkeep v Hv Hne) E) as Hs.
        rewrite Forall_forall in Hf.
        assert (Hm : In (with_chief v (chief_of director0 None)) moved).
        { unfold moved. apply in_map_iff. exists v. split; [reflexivity|].
          apply filter_In. split; [exact Hs|].
          apply negb_true_iff, String.eqb_neq, Hne. }
        destruct (Hf _ Hm) as [Hf'|Hf']; [apply Hf'; reflexivity|].
        rewrite (Hmoved_fit _ Hm) in Hf'. discriminate.
Qed.

(** Promoting a manager to chief, in a table whose rows fit their columns:
    the change is always reported and only the employee is told (when
    their id is a number), every other row is untouched, and the row
    becomes role ["chief"], department ["Отдел <surname>"], and as chief
    the first other director of the table (the old chief when there is
    none), provided ["Отдел <surname>"] fits the department column.  If it
    does not, the UPDATE fails and the row stays as it was, with role
    ["manager"], although success is reported. *)
Theorem promotion_to_chief_row : forall fuel st rd b x u,
  NoDup (map tg_id (users_tbl st)) -> users_fit st ->
  rl_user_id rd = Some x -> rl_new_role rd = Some "chief" -> rl_current_role rd = Some "manager" ->
  find_user (users_tbl st) x = Some u ->
  exists o, confirm_role_change fuel st rd "confirm_role:yes" b = Some o /\
    ro_answer o = A_role_changed /\ ro_state o = END /\
    find_user (users_tbl (ro_store o)) x =
      (if fits 100 ("Отдел " ++ surname u)
       then Some (mk_user x (name u) (surname u) "chief"
              (chief_of (find (fun v => String.eqb (role v) "director"
                                        && negb (String.eqb (tg_id v) x)) (users_tbl st))
                        (chief_id u))
              (Some ("Отдел " ++ surname u)))
       else Some u) /\
    (forall y, y <> x -> find_user (users_tbl (ro_store o)) y = find_user (users_tbl st) y) /\
    ro_sent o = match py_int x with Some c => if b then [(c, "chief")] else [] | None => [] end.
Proof.
  intros fuel st rd b x u Hnd Hfit Hx Hn Hc Hu.
  pose proof (find_user_some _ _ _ Hu) as [Hu_in Hid].
  assert (Hfu : db_fits u = true) by exact (Hfit u Hu_in).
  unfold confirm_role_change. rewrite confirm_yes_split.
  replace (String.eqb "yes" "no") with false by reflexivity.
  rewrite Hx, Hn, Hc. unfold load_users. rewrite Hu.
  replace (String.eqb "chief" "chief" && String.eqb "manager" "manager") with true
    by reflexivity.
  cbv beta iota zeta.
  rewrite find_director_update by (exact Hnd || (cbn; discriminate)).
  match goal with |- context [save_user st ?w] => set (u2 := w) end.
  assert (Ht : String.eqb x (tg_id u2) = true) by (apply String.eqb_eq; symmetry; exact Hid).
  assert (Hfit2 : db_fits u2 = fits 100 ("Отдел " ++ surname u)).
  { unfold u2. rewrite db_fits_rewritten by exact Hfu.
    rewrite chief_of_fits; [reflexivity | | exact (proj2 (db_fits_parts u Hfu))].
    intros d Hd. apply db_fits_parts, Hfit, Hd. }
  assert (Hother : forall y, y <> x ->
            find_user (users_tbl (save_user st u2)) y = find_user (users_tbl st) y).
  { intros y Hy. rewrite save_user_find.
    replace (String.eqb y (tg_id u2)) with false
      by (symmetry; apply String.eqb_neq; cbn; rewrite Hid; exact Hy).
    rewrite andb_false_r. reflexivity. }
  rewrite save_user_find, Hfit2, Ht.
  destruct (fits 100 ("Отдел " ++ surname u)) eqn:F; cbn [andb]; rewrite ?Hu.
  - eexists. split; [reflexivity|]. cbn [ro_answer ro_state ro_store ro_sent].
    split; [reflexivity|]. split; [reflexivity|]. split; [|split; [exact Hother | reflexivity]].
    rewrite save_user_find, Hfit2, Ht. cbn [andb].
    unfold u2, with_chief, with_department, with_role. cbn. rewrite Hid. reflexivity.
  - eexists. split; [reflexivity|]. cbn [ro_answer ro_state ro_store ro_sent].
    split; [reflexivity|]. split; [reflexivity|]. split; [|split; [exact Hother | reflexivity]].
    rewrite save_user_find, Hfit2. cbn [andb]. exact Hu.
Qed.

(** Promoting anyone to director writes one row (role ["director"], no
    chief, department ["management"]) and leaves every other row as it was,
    other directors included: nothing keeps the company to one director.
    When the new row does not fit its columns the UPDATE fails and the row
    stays as it was. *)
Theorem promotion_to_director_row : forall fuel st rd b x old u,
  rl_user_id rd = Some x -> rl_new_role rd = Some "director" -> rl_current_role rd = Some old ->
  find_user (users_tbl st) x = Some u ->
  exists o, confirm_role_change fuel st rd "confirm_role:yes" b = Some o /\
    ro_answer o = A_role_changed /\
    find_user (users_tbl (ro_store o)) x =
      (if db_fits (mk_user x (name u) (surname u) "director" None (Some "management"))
       then Some (mk_user x (name u) (surname u) "director" None (Some "management"))
       else Some u) /\
    (forall y, y <> x -> find_user (users_tbl (ro_store o)) y = find_user (users_tbl st) y).
Proof.
  intros fuel st rd b x old u Hx Hn Hc Hu.
  unfold confirm_role_change. rewrite confirm_yes_split.
  replace (String.eqb "yes" "no") with false by reflexivity.
  rewrite Hx, Hn, Hc. unfold load_users. rewrite Hu.
  replace (String.eqb "director" "chief" && String.eqb old "manager") with false
    by reflexivity.
  replace (String.eqb "director" "manager" && String.eqb old "chief") with false
    by reflexivity.
  replace (String.eqb "director" "director") with true by reflexivity.
  cbv beta iota zeta.
  pose proof (find_user_some _ _ _ Hu) as [_ Hid].
  match goal with |- context [save_user st ?w] => set (u2 := w) end.
  assert (E2 : u2 = mk_user x (name u) (surname u) "director" None (Some "management"))
    by (unfold u2, with_chief, with_department, with_role; cbn; rewrite Hid; reflexivity).
  clearbody u2. subst u2.
  rewrite save_user_find. cbn [tg_id]. rewrite String.eqb_refl, andb_true_r.
  destruct (db_fits (mk_user x (name u) (surname u) "director" None (Some "management"))) eqn:F;
    [|rewrite Hu];
    (eexists; split; [reflexivity|]; cbn [ro_answer ro_store]; split; [reflexivity|];
     split; [rewrite save_user_find; cbn [tg_id]; rewrite String.eqb_refl, F; cbn [andb];
             first [exact Hu | reflexivity]|];
     intros y Hy; rewrite save_user_find; cbn [tg_id];
     replace (String.eqb y x) with false by (symmetry; apply String.eqb_neq; exact Hy);
     rewrite andb_false_r; reflexivity).
Qed.

Lemma choose_role_split : forall x, ~ In ":"%char (list_ascii_of_string x) ->
  split ":" ("choose_role:" ++ x) = ["choose_role"; x].
Proof.
  intros x Hx. unfold split. rewrite list_ascii_of_string_app.
  change (list_ascii_of_string "choose_role:" ++ list_ascii_of_string x)%list with
    (["c"; "h"; "o"; "o"; "s"; "e"; "_"; "r"; "o"; "l"; "e"]%char ++ ":"%char :: list_ascii_of_string x)%list.
  rewrite split_aux_one by (cbn; intros H; repeat destruct H as [H|H]; discriminate || exact H).
  rewrite split_aux_nosep by exact Hx. cbn [rev app].
  rewrite string_of_list_ascii_of_string. reflexivity.
Qed.

(** A confirmed change, in a table whose rows fit their columns and to a
    role that fits its column, always reports success; the user's row then
    has the new role, except when a manager is promoted to chief and
    ["Отдел <surname>"] is too long for the department column: then the
    row is unchanged. *)
Lemma confirm_yes_sets_role : forall fuel st rd b x r old u o,
  users_fit st -> fits 20 r = true ->
  rl_user_id rd = Some x -> rl_new_role rd = Some r -> rl_current_role rd = Some old ->
  find_user (users_tbl st) x = Some u ->
  confirm_role_change fuel st rd "confirm_role:yes" b = Some o ->
  ro_answer o = A_role_changed /\ ro_state o = END /\
  exists v, find_user (users_tbl (ro_store o)) x = Some v /\
    if String.eqb r "chief" && String.eqb old "manager" && negb (fits 100 ("Отдел " ++ surname u))
    then v = u else role v = r.
Proof.
  intros fuel st rd b x r old u o Hfit Hr Hx Hn Hc Hu Ho.
  pose proof (find_user_some _ _ _ Hu) as [Hu_in Hid].
  assert (Hfu : db_fits u = true) by exact (Hfit u Hu_in).
  assert (Hch : fits_opt 20 (chief_id u) = true) by apply (db_fits_parts u Hfu).
  assert (Hids1 := update_first_ids_fit st u (with_role u r) (fun v => String.eqb (tg_id v) x)
                     Hfit eq_refl Hfu).
  unfold confirm_role_change in Ho. rewrite confirm_yes_split in Ho.
  replace (String.eqb "yes" "no") with false in Ho by reflexivity.
  rewrite Hx, Hn, Hc in Ho. unfold load_users in Ho. rewrite Hu in Ho.
  cbv beta iota zeta in Ho.
  destruct (String.eqb r "chief" && String.eqb old "manager") eqn:B1.
  - match type of Ho with context [save_user st ?w] => set (u2 := w) in Ho end.
    assert (Ht : String.eqb x (tg_id u2) = true) by (apply String.eqb_eq; symmetry; exact Hid).
    assert (Hfit2 : db_fits u2 = fits 100 ("Отдел " ++ surname u)).
    { unfold u2. rewrite db_fits_rewritten, Hr by exact Hfu.
      rewrite chief_of_fits by assumption. reflexivity. }
    rewrite save_user_find, Hfit2, Ht in Ho.
    destruct (fits 100 ("Отдел " ++ surname u)) eqn:F.
    + cbn [andb] in Ho. injection Ho as <-.
      split; [reflexivity|]. split; [reflexivity|]. cbn [ro_store].
      exists u2. rewrite save_user_find, Hfit2, Ht. split; [reflexivity|].
      reflexivity.
    + cbn [andb] in Ho. rewrite Hu in Ho. injection Ho as <-.
      split; [reflexivity|]. split; [reflexivity|]. cbn [ro_store].
      exists u. rewrite save_user_find, Hfit2. split; [exact Hu|]. reflexivity.
  - destruct (String.eqb r "manager" && String.eqb old "chief").
    + destruct (get_user_subordinates _ _ _); [|discriminate].
      match type of Ho with context [save_user (fold_left save_user _ st) ?w] =>
        set (u2 := w) in Ho end.
      assert (Ht : String.eqb x (tg_id u2) = true) by (apply String.eqb_eq; symmetry; exact Hid).
      assert (Hfit2 : db_fits u2 = true).
      { unfold u2. rewrite db_fits_rewritten, Hr by exact Hfu.
        rewrite chief_of_fits by assumption. reflexivity. }
      rewrite save_user_find, Hfit2, Ht in Ho. cbn [andb] in Ho.
      injection Ho as <-. split; [reflexivity|]. split; [reflexivity|]. cbn [ro_store].
      exists u2. rewrite save_user_find, Hfit2, Ht. split; [reflexivity|].
      reflexivity.
    + destruct (String.eqb r "director").
      * match type of Ho with context [save_user st ?w] => set (u2 := w) in Ho end.
        assert (Ht : String.eqb x (tg_id u2) = true) by (apply String.eqb_eq; symmetry; exact Hid).
        assert (Hfit2 : db_fits u2 = true)
          by (unfold u2; rewrite db_fits_rewritten, Hr by exact Hfu; reflexivity).
        rewrite save_user_find, Hfit2, Ht in Ho. cbn [andb] in Ho.
        injection Ho as <-. split; [reflexivity|]. split; [reflexivity|]. cbn [ro_store].
        exists u2. rewrite save_user_find, Hfit2, Ht. split; [reflexivity|].
        reflexivity.
      * match type of Ho with context [save_user st ?w] => set (u2 := w) in Ho end.
        assert (Ht : String.eqb x (tg_id u2) = true) by (apply String.eqb_eq; symmetry; exact Hid).
        assert (Hfit2 : db_fits u2 = true)
          by (unfold u2; rewrite db_fits_with_role by exact Hfu; exact Hr).
        rewrite save_user_find, Hfit2, Ht in Ho. cbn [andb] in Ho.
        injection Ho as <-. split; [reflexivity|]. split; [reflexivity|]. cbn [ro_store].
        exists u2. rewrite save_user_find, Hfit2, Ht. split; [reflexivity|].
        reflexivity.
Qed.

(** The whole role-change dialogue, in a table whose rows fit their
    columns: whatever role the director picks from the offered buttons
    ([choose_role:{role}]), the confirmation goes through, and a confirmed
    change that does not raise is reported as done.  The user's row then
    has the picked role, which differs from the one before, except when a
    manager is promoted to chief and ["Отдел <surname>"] does not fit the
    department column: then the row keeps the old role. *)
Theorem role_change_flow : forall fuel st rd x rd1 roles r b,
  users_fit st ->
  ~ In ":"%char (list_ascii_of_string x) ->
  choose_user_for_role st rd ("role_user:" ++ x) = Some (CHOOSE_NEW_ROLE, rd1, A_choose_role roles) ->
  In r roles ->
  exists rd2, choose_new_role st rd1 ("choose_role:" ++ r) = Some (CONFIRM_ROLE_CHANGE, rd2, A_confirm) /\
  forall o, confirm_role_change fuel st rd2 "confirm_role:yes" b = Some o ->
    ro_answer o = A_role_changed /\
    exists u v, find_user (users_tbl st) x = Some u /\ find_user (users_tbl (ro_store o)) x = Some v /\
      role u <> r /\
      if String.eqb r "chief" && String.eqb (role u) "manager" &&
         negb (fits 100 ("Отдел " ++ surname u))
      then v = u else role v = r.
Proof.
  intros fuel st rd x rd1 roles r b Hfit Hx H Hin.
  unfold choose_user_for_role, load_users in H. rewrite role_user_split in H by exact Hx.
  destruct (find_user (users_tbl st) x) as [u|] eqn:Hu; [|discriminate].
  destruct (String.eqb_spec (role u) "director") as [Ed|Ed]; [discriminate|].
  injection H as <- <-.
  assert (Hne : role u <> r).
  { intros E. subst r. destruct (String.eqb_spec (role u) "chief") as [Ec|Ec];
      destruct Hin as [E|[E|[]]]; congruence. }
  assert (Hr : ~ In ":"%char (list_ascii_of_string r) /\ fits 20 r = true).
  { destruct (String.eqb (role u) "chief"); destruct Hin as [<-|[<-|[]]];
      (split; [cbn; intros H; repeat destruct H as [H|H]; discriminate || exact H | reflexivity]). }
  eexists. split.
  - unfold choose_new_role, load_users. rewrite choose_role_split by apply Hr.
    cbn [rl_user_id rl_current_role]. rewrite Hu. reflexivity.
  - intros o Ho.
    match type of Ho with confirm_role_change _ _ ?rd2 _ _ = _ =>
      destruct (confirm_yes_sets_role fuel st rd2 b x r (role u) u o Hfit (proj2 Hr)
                  eq_refl eq_refl eq_refl Hu Ho) as (Ha & _ & v & Hv & Hrole)
    end.
    split; [exact Ha|]. exists u, v. repeat split; assumption.
Qed.

(** ** Registration and the task wizard *)

Lemma find_user_none_existsb : forall l x,
  find_user l x = None -> existsb (fun v => String.eqb (tg_id v) x) l = false.
Proof.
  intros l x. induction l as [|w r IH]; [reflexivity|].
  unfold find_user. cbn. destruct (String.eqb (tg_id w) x); [discriminate|exact IH].
Qed.

(** The registration dialogue of a new user, in a table whose rows fit
    their columns: [/start] asks for the name, the name (stripped) is kept,
    and the surname step welcomes the user and builds a row with the
    stripped name and surname, the director's exactly when the table was
    empty.  The row is appended when its id, name and surname fit their
    columns; otherwise the INSERT fails and the table stays as it was. *)
Theorem registration_dialogue : forall st uid rd n s,
  users_fit st -> find_user (users_tbl st) uid = None ->
  start st uid rd = (REGISTER_NAME, mk_reg_data (Some uid) (rd_name rd), A_enter_name) /\
  register_name (mk_reg_data (Some uid) (rd_name rd)) n =
    (REGISTER_SURNAME, mk_reg_data (Some uid) (Some (strip n)), A_enter_surname) /\
  exists st' r u,
    register_surname_handler st (mk_reg_data (Some uid) (Some (strip n))) s = Some (st', r) /\
    r = match users_tbl st with [] => R_welcome_director | _ => R_welcome_manager end /\
    tg_id u = uid /\ name u = strip n /\ surname u = strip s /\
    (role u = "director" <-> users_tbl st = []) /\
    db_fits u = fits 20 uid && fits 100 (strip n) && fits 100 (strip s) /\
    users_tbl st' = (if db_fits u then users_tbl st ++ [u] else users_tbl st)%list /\
    tasks_tbl st' = tasks_tbl st.
Proof.
  intros st uid rd n s Hfit Hu.
  split; [unfold start, load_users; rewrite Hu; reflexivity|].
  split; [reflexivity|].
  pose proof (find_user_none_existsb _ _ Hu) as Hex.
  unfold register_surname_handler, register_surname, load_users. cbn [rd_tg_id rd_name].
  destruct (users_tbl st) as [|w r] eqn:E.
  - set (u := mk_user uid (strip n) (strip s) "director" None (Some "management")).
    exists (save_user st u), R_welcome_director, u.
    split; [reflexivity|]. split; [reflexivity|].
    split; [reflexivity|]. split; [reflexivity|]. split; [reflexivity|].
    split; [split; [intros _; reflexivity | intros _; reflexivity]|].
    split; [unfold u; rewrite db_fits_mk_user; cbn [fits_opt];
            replace (fits 20 "director") with true by reflexivity;
            replace (fits 100 "management") with true by reflexivity;
            rewrite !andb_true_r; reflexivity|].
    unfold save_user. destruct (db_fits u); cbn [negb]; rewrite E; split; reflexivity.
  - set (c := option_map (fun d => tg_id d) (find (fun u => String.eqb (role u) "director") (w :: r))).
    set (u := mk_user uid (strip n) (strip s) "manager" c (Some "general")).
    assert (Hc : fits_opt 20 c = true).
    { apply (chief_of_fits _ (w :: r) None); [|reflexivity].
      intros d Hd. rewrite <- E in Hd. apply db_fits_parts, Hfit, Hd. }
    exists (save_user st u), R_welcome_manager, u.
    split; [reflexivity|]. split; [reflexivity|].
    split; [reflexivity|]. split; [reflexivity|]. split; [reflexivity|].
    split; [split; [intros H; discriminate | intros H; discriminate]|].
    split; [unfold u; rewrite db_fits_mk_user, Hc; cbn [fits_opt];
            replace (fits 20 "manager") with true by reflexivity;
            replace (fits 100 "general") with true by reflexivity;
            rewrite !andb_true_r; reflexivity|].
    unfold save_user. destruct (db_fits u); cbn [negb]; [|rewrite E; split; reflexivity].
    cbn [tg_id u]. rewrite E, Hex. split; reflexivity.
Qed.

Lemma filter_nonempty : forall (A : Type) (f : A -> bool) l v,
  In v l -> f v = true -> filter f l <> [].
Proof.
  intros A f l v Hin Hv E. assert (H : In v (filter f l)) by (apply filter_In; auto).
  rewrite E in H. destruct H.
Qed.

(** A task text made only of whitespace passes the text step, stored as
    the empty string, whenever the creator has someone to pick (a director
    with another user, a chief with a manager); the assignee step keeps it
    for any button, and so does the date step.  It is refused only at the
    very end, after a valid future deadline: nothing is saved, sent or
    scheduled. *)
Theorem blank_task_text_lost : forall st ud msg,
  strip msg = "" ->
  (exists c, ud_task_creator_role ud = Some "director" /\ ud_task_creator_id ud = Some c /\
     exists v, In v (users_tbl st) /\ tg_id v <> c) \/
  (ud_task_creator_role ud = Some "chief" /\
     exists v, In v (users_tbl st) /\ role v = "manager") ->
  let ud1 := mk_user_data (Some "") (ud_assignee_id ud) (ud_deadline_date ud)
                          (ud_task_creator_role ud) (ud_task_creator_id ud) in
  (exists l, l <> [] /\ task_text_handler st ud msg = (CHOOSE_USER, ud1, A_choose_employee l)) /\
  (forall a, ~ In ":"%char (list_ascii_of_string a) ->
     assign_task ud1 ("assign:" ++ a) =
       Some (DEADLINE_DATE,
             mk_user_data (Some "") (Some a) (ud_deadline_date ud)
                          (ud_task_creator_role ud) (ud_task_creator_id ud),
             A_enter_date)) /\
  (forall data s2 ud2 a2 dmsg s3 ud3 a3 sender tmsg now b dt,
     assign_task ud1 data = Some (s2, ud2, a2) ->
     deadline_date_handler ud2 dmsg = (s3, ud3, a3) ->
     deadline_input ud3 tmsg = inr dt -> (now < dt)%Z ->
     deadline_time_handler st ud3 sender tmsg now b = mk_outcome END st ud3 [] [] [R_data_lost]).
Proof.
  intros st ud msg Hm Hcr ud1. split; [|split].
  - unfold task_text_handler, load_users. rewrite Hm. fold ud1.
    destruct Hcr as [[c [Hr [Hc [v [Hv Hne]]]]]|[Hr [v [Hv Hmg]]]]; rewrite Hr.
    + rewrite Hc. cbn [get_or_empty].
      replace (String.eqb "director" "director") with true by reflexivity.
      assert (Hl : filter (fun u => negb (String.eqb (tg_id u) c)) (users_tbl st) <> []).
      { apply (filter_nonempty _ _ _ v Hv). apply negb_true_iff, String.eqb_neq, Hne. }
      destruct (filter _ (users_tbl st)) as [|w l]; [contradiction|].
      exists (w :: l). split; [discriminate | reflexivity].
    + cbn [get_or_empty].
      replace (String.eqb "chief" "director") with false by reflexivity.
      replace (String.eqb "chief" "chief") with true by reflexivity.
      assert (Hl : filter (fun u => String.eqb (role u) "manager") (users_tbl st) <> []).
      { apply (filter_nonempty _ _ _ v Hv). apply String.eqb_eq, Hmg. }
      destruct (filter _ (users_tbl st)) as [|w l]; [contradiction|].
      exists (w :: l). split; [discriminate | reflexivity].
  - intros a Ha. unfold assign_task. rewrite assign_split by exact Ha. reflexivity.
  - intros data s2 ud2 a2 dmsg s3 ud3 a3 sender tmsg now b dt H2 H3 Hd Hlt.
    assert (T2 : ud_task_text ud2 = Some "").
    { unfold assign_task in H2. destruct (split ":" data) as [|? [|? ?]]; try discriminate.
      injection H2 as _ <- _. reflexivity. }
    assert (T3 : ud_task_text ud3 = Some "").
    { unfold deadline_date_handler in H3.
      destruct (negb _); [injection H3 as _ <- _; exact T2|].
      destruct (map py_int _) as [|[d|] [|[mo|] [|[y|] [|? ?]]]];
        try (injection H3 as _ <- _; exact T2).
      destruct (mk_datetime y mo d 0 0); injection H3 as _ <- _; [exact T2 | exact T2]. }
    unfold deadline_time_handler. rewrite Hd.
    replace (dt <=? now)%Z with false by (symmetry; apply Z.leb_gt; exact Hlt).
    rewrite T3. cbn [get_or_empty]. rewrite orb_true_r. reflexivity.
Qed.

(** ** Listings *)

(** A task that its assignee, a manager, closes with [done:{id}] appears,
    marked done, in that manager's list of completed tasks, and that list
    holds only the manager's own closed tasks. *)
Theorem done_task_listed : forall st q b t u,
  store_wf st -> find_task (tasks_tbl st) q = Some t ->
  find_user (users_tbl st) (assignee_id t) = Some u -> role u = "manager" ->
  exists l, show_completed_tasks (o_store (mark_done st q b)) (assignee_id t) = A_completed l /\
    In (as_done t) l /\
    Forall (fun r => assignee_id r = assignee_id t /\ status r = "done") l.
Proof.
  intros st q b t u Hw Hf Hu Hr.
  destruct Hw as (_ & Hpos & _ & _).
  assert (Hin : In t (tasks_tbl st)) by (apply find_some in Hf; apply Hf).
  rewrite mark_done_store_found with (t := t) by
    (exact Hf || (rewrite Forall_forall in Hpos; apply Hpos in Hin; lia)).
  unfold show_completed_tasks, load_users, load_tasks. cbn [users_tbl tasks_tbl].
  rewrite Hu, Hr. cbn [String.eqb Ascii.eqb Bool.eqb].
  set (l := filter _ _).
  assert (Hl : In (as_done t) l).
  { unfold l. apply filter_In. split.
    - replace (as_done t) with (done_update t t)
        by (unfold done_update; rewrite N.eqb_refl; reflexivity).
      apply in_map, Hin.
    - cbn. rewrite String.eqb_refl. reflexivity. }
  assert (Hall : Forall (fun r => assignee_id r = assignee_id t /\ status r = "done") l).
  { apply Forall_forall. intros r Hr'. unfold l in Hr'. apply filter_In in Hr' as [_ Hr'].
    apply andb_prop in Hr' as [H1 H2]. split; apply String.eqb_eq; assumption. }
  destruct l as [|r0 rs] eqn:El; [destruct Hl|].
  exists (r0 :: rs). split; [reflexivity | split; assumption].
Qed.

(** The employee listing: a director is shown every other registered user,
    a chief at least everyone whose [chief_id] is the chief's id. *)
Theorem show_employees_lists : forall fuel st c u a,
  find_user (users_tbl st) c = Some u -> show_employees fuel st c = Some a ->
  (role u = "director" -> forall v, In v (users_tbl st) -> tg_id v <> c ->
     exists l, a = A_staff l /\ In v l) /\
  (role u = "chief" -> forall v, In v (users_tbl st) -> chief_id v = Some c ->
     exists l, a = A_staff l /\ In v l).
Proof.
  intros fuel st c u a Hu Ha. unfold show_employees, load_users in Ha. rewrite Hu in Ha.
  split.
  - intros Hr v Hv Hne. rewrite Hr in Ha. cbn [String.eqb Ascii.eqb Bool.eqb] in Ha.
    assert (Hin : In v (filter (fun w => negb (String.eqb (tg_id w) c)) (users_tbl st))).
    { apply filter_In. split; [exact Hv|]. apply negb_true_iff, String.eqb_neq, Hne. }
    destruct (filter _ _) as [|w r]; [destruct Hin|].
    injection Ha as <-. eexists. split; [reflexivity | exact Hin].
  - intros Hr v Hv Hc. rewrite Hr in Ha. cbn [String.eqb Ascii.eqb Bool.eqb] in Ha.
    destruct (get_user_subordinates fuel c (users_tbl st)) as [subs|] eqn:Hs;
      cbn [option_map] in Ha; [|discriminate].
    pose proof (get_user_subordinates_direct _ _ _ _ _ Hs Hv Hc) as Hin.
    destruct subs as [|w r]; [destruct Hin|].
    injection Ha as <-. eexists. split; [reflexivity | exact Hin].
Qed.

(** ** Instances *)

Ltac distinct_ids :=
  repeat (constructor; [cbn; intuition discriminate|]); constructor.

Lemma open_store_wf : store_wf open_store.
Proof.
  unfold store_wf. cbn. split; [lia|]. split; [constructor; [cbn; lia | constructor]|].
  split; distinct_ids.
Qed.

Lemma team_store_fit : users_fit team_store.
Proof.
  intros v Hv. cbn in Hv.
  repeat (destruct Hv as [<-|Hv]; [reflexivity|]). destruct Hv.
Qed.

Lemma open_store_fit : users_fit open_store.
Proof.
  intros v Hv. cbn in Hv.
  repeat (destruct Hv as [<-|Hv]; [reflexivity|]). destruct Hv.
Qed.

(** The two strings [str_N 2025] are the same number. *)
Lemma str_N_inj_witness : str_N 2025 = str_N 2025 /\ (2025 = 2025)%N.
Proof. split; [reflexivity | apply str_N_inj; reflexivity]. Defined.

(** The first re-armed reminder of the open sample task comes from it. *)
Lemma reload_all_reminders_sound_witness :
  In sample_job (fst (reload_all_reminders open_store 1758200000)) /\
  exists t, In t (load_tasks open_store) /\ status t = "new" /\ (1758200000 < deadline t)%Z /\
    job_task_id sample_job = str_N (id t) /\ job_task_text sample_job = text t /\
    job_deadline sample_job = deadline t /\ (1758200000 < job_when sample_job)%Z.
Proof.
  assert (H : In sample_job (fst (reload_all_reminders open_store 1758200000)))
    by (vm_compute; left; reflexivity).
  split; [exact H | exact (reload_all_reminders_sound open_store 1758200000 sample_job H)].
Defined.

(** A restart a day after creating the sample task re-arms what was left. *)
Lemma reload_restores_pending_witness :
  (status (sample_task "new") = "new" /\ py_int (task_chief_id (sample_task "new")) = Some 100%Z /\
   py_int (assignee_id (sample_task "new")) = Some 200%Z /\
   (1758200000 <= 1758300000)%Z /\ (1758300000 < deadline (sample_task "new"))%Z) /\
  task_jobs 1758300000 (sample_task "new") =
  filter (fun j => (1758300000 <? job_when j)%Z)
    (schedule_deadline_reminders 1758200000 (str_N (id (sample_task "new"))) 100 200
       (text (sample_task "new")) (deadline (sample_task "new"))).
Proof.
  assert (H1 : status (sample_task "new") = "new") by reflexivity.
  assert (H2 : py_int (task_chief_id (sample_task "new")) = Some 100%Z) by reflexivity.
  assert (H3 : py_int (assignee_id (sample_task "new")) = Some 200%Z) by reflexivity.
  assert (H4 : (1758200000 <= 1758300000)%Z) by lia.
  assert (H5 : (1758300000 < deadline (sample_task "new"))%Z) by (cbn; lia).
  split; [exact (conj H1 (conj H2 (conj H3 (conj H4 H5))))|].
  exact (reload_restores_pending 1758200000 1758300000 (sample_task "new") 100 200 H1 H2 H3 H4 H5).
Defined.

(** A restart 1400 seconds after the deadline of the sample task loses the
    chief's overdue notice. *)
Lemma reload_drops_pending_overdue_witness :
  (status (sample_task "new") = "new" /\ py_int (task_chief_id (sample_task "new")) = Some 100%Z /\
   py_int (assignee_id (sample_task "new")) = Some 200%Z /\
   (1758200000 < deadline (sample_task "new"))%Z /\
   (deadline (sample_task "new") <= 1758380000 < deadline (sample_task "new") + one_hour)%Z) /\
  task_jobs 1758380000 (sample_task "new") = [] /\
  In (mk_job (deadline (sample_task "new") + one_hour) (str_N (id (sample_task "new"))) 100
             (text (sample_task "new")) (deadline (sample_task "new")) "chief")
     (filter (fun j => (1758380000 <? job_when j)%Z)
        (schedule_deadline_reminders 1758200000 (str_N (id (sample_task "new"))) 100 200
           (text (sample_task "new")) (deadline (sample_task "new")))).
Proof.
  assert (H1 : status (sample_task "new") = "new") by reflexivity.
  assert (H2 : py_int (task_chief_id (sample_task "new")) = Some 100%Z) by reflexivity.
  assert (H3 : py_int (assignee_id (sample_task "new")) = Some 200%Z) by reflexivity.
  assert (H4 : (1758200000 < deadline (sample_task "new"))%Z) by (cbn; lia).
  assert (H5 : (deadline (sample_task "new") <= 1758380000 < deadline (sample_task "new") + one_hour)%Z)
    by (unfold one_hour; cbn; lia).
  split; [exact (conj H1 (conj H2 (conj H3 (conj H4 H5))))|].
  exact (reload_drops_pending_overdue 1758200000 1758380000 (sample_task "new") 100 200 H1 H2 H3 H4 H5).
Defined.

(** The date 20.09.2025 followed by the time 14:30. *)
Lemma deadline_date_then_time_witness :
  (deadline_date_handler sample_wizard "20.09.2025" =
     (DEADLINE_TIME, mk_user_data (Some "report") (Some "200") (Some "20.09.2025") None None,
      A_enter_time) /\
   all_digits (list_ascii_of_string "09") /\ all_digits (list_ascii_of_string "05") /\
   py_int "09" = Some 9%Z /\ py_int "05" = Some 5%Z /\ (9 <= 23)%Z /\ (5 <= 59)%Z) /\
  exists day month year midnight,
    map py_int (split "." (strip "20.09.2025")) = [Some day; Some month; Some year] /\
    mk_datetime year month day 0 0 = Some midnight /\
    ud_deadline_date (mk_user_data (Some "report") (Some "200") (Some "20.09.2025") None None)
      = Some (strip "20.09.2025") /\
    deadline_input (mk_user_data (Some "report") (Some "200") (Some "20.09.2025") None None)
      ("09" ++ ":" ++ "05") = inr (midnight + 9 * 3600 + 5 * 60)%Z.
Proof.
  assert (H1 : deadline_date_handler sample_wizard "20.09.2025" =
     (DEADLINE_TIME, mk_user_data (Some "report") (Some "200") (Some "20.09.2025") None None,
      A_enter_time)) by (vm_compute; reflexivity).
  assert (D1 : all_digits (list_ascii_of_string "09"))
    by (repeat constructor; cbn; discriminate).
  assert (D2 : all_digits (list_ascii_of_string "05"))
    by (repeat constructor; cbn; discriminate).
  assert (P1 : py_int "09" = Some 9%Z) by reflexivity.
  assert (P2 : py_int "05" = Some 5%Z) by reflexivity.
  assert (B1 : (9 <= 23)%Z) by lia.
  assert (B2 : (5 <= 59)%Z) by lia.
  split; [exact (conj H1 (conj D1 (conj D2 (conj P1 (conj P2 (conj B1 B2))))))|].
  exact (deadline_date_then_time sample_wizard "20.09.2025" _ A_enter_time "09" "05" 9 5
           H1 D1 D2 P1 P2 B1 B2).
Defined.

(** Task "report" for 200, created by 100 a day before its deadline, then
    closed. *)
Lemma create_then_done_witness :
  (store_wf open_store /\ deadline_input sample_wizard " 14:30 " = inr 1758378600%Z /\
   (1758300000 < 1758378600)%Z /\ ud_assignee_id sample_wizard = Some (str_N 200) /\
   get_or_empty (ud_task_text sample_wizard) <> "") /\
  let o := deadline_time_handler open_store sample_wizard 100 " 14:30 " 1758300000 true in
  let k := next_id open_store in
  let txt := get_or_empty (ud_task_text sample_wizard) in
  let t := mk_task k (str_N 100) (str_N 200) txt 1758378600 "new" in
  o_store o = mk_store (users_tbl open_store) (tasks_tbl open_store ++ [t]) (N.succ k) /\
  o_jobs o = schedule_deadline_reminders 1758300000 (str_N k) (Z.of_N 100) (Z.of_N 200) txt 1758378600 /\
  o_sent o = [(Z.of_N 200, NewTaskNotice k txt 1758378600)] /\
  o_store (mark_done (o_store o) (str_N k) true) =
    mk_store (users_tbl open_store) (tasks_tbl open_store ++ [as_done t]) (N.succ k) /\
  o_sent (mark_done (o_store o) (str_N k) true) =
    [(Z.of_N 100, DoneNotice (display_name (users_tbl open_store) (str_N 200)) txt 1758378600)].
Proof.
  assert (H2 : deadline_input sample_wizard " 14:30 " = inr 1758378600%Z) by (vm_compute; reflexivity).
  assert (H3 : (1758300000 < 1758378600)%Z) by lia.
  assert (H4 : ud_assignee_id sample_wizard = Some (str_N 200)) by (vm_compute; reflexivity).
  assert (H5 : get_or_empty (ud_task_text sample_wizard) <> "") by (cbn; discriminate).
  split; [exact (conj open_store_wf (conj H2 (conj H3 (conj H4 H5))))|].
  exact (create_then_done open_store sample_wizard 100 " 14:30 " 1758300000 1758378600 200
           open_store_wf H2 H3 H4 H5).
Defined.

(** Director 100 starts the wizard, types " fix it " and picks manager 200. *)
Lemma create_wizard_offers_witness :
  (NoDup (map tg_id (users_tbl open_store)) /\
   task open_store empty_user_data "100" =
     (TASK_TEXT, mk_user_data None None None (Some "director") (Some "100"), [R_enter_task_text]) /\
   task_text_handler open_store (mk_user_data None None None (Some "director") (Some "100")) " fix it " =
     (CHOOSE_USER, mk_user_data (Some "fix it") None None (Some "director") (Some "100"),
      A_choose_employee [plain "200" "manager" (Some "100")])) /\
  exists u, find_user (users_tbl open_store) "100" = Some u /\
  (forall v, In v [plain "200" "manager" (Some "100")] -> tg_id v <> "100" /\ In v (users_tbl open_store)) /\
  (role u = "director" -> [plain "200" "manager" (Some "100")] =
     filter (fun v => negb (String.eqb (tg_id v) "100")) (users_tbl open_store)) /\
  (role u = "chief" -> [plain "200" "manager" (Some "100")] =
     filter (fun v => String.eqb (role v) "manager") (users_tbl open_store)) /\
  ud_task_text (mk_user_data (Some "fix it") None None (Some "director") (Some "100")) = Some (strip " fix it ") /\
  (forall v, In v [plain "200" "manager" (Some "100")] -> ~ In ":"%char (list_ascii_of_string (tg_id v)) ->
     assign_task (mk_user_data (Some "fix it") None None (Some "director") (Some "100")) (assign_button v) =
       Some (DEADLINE_DATE,
             mk_user_data (Some (strip " fix it ")) (Some (tg_id v)) (ud_deadline_date empty_user_data)
                          (Some (role u)) (Some "100"),
             A_enter_date)).
Proof.
  assert (H1 : NoDup (map tg_id (users_tbl open_store))) by distinct_ids.
  assert (H2 : task open_store empty_user_data "100" =
     (TASK_TEXT, mk_user_data None None None (Some "director") (Some "100"), [R_enter_task_text]))
    by (vm_compute; reflexivity).
  assert (H3 : task_text_handler open_store (mk_user_data None None None (Some "director") (Some "100"))
                 " fix it " =
     (CHOOSE_USER, mk_user_data (Some "fix it") None None (Some "director") (Some "100"),
      A_choose_employee [plain "200" "manager" (Some "100")])) by (vm_compute; reflexivity).
  split; [exact (conj H1 (conj H2 H3))|].
  exact (create_wizard_offers open_store empty_user_data "100" _ _ " fix it " _ _ H1 H2 H3).
Defined.

(** Chief 300 is demoted: 500, two levels below them, ends up under 100. *)
Lemma demotion_detaches_team_witness :
  (NoDup (map tg_id (users_tbl team_store)) /\ users_fit team_store /\
   rl_user_id demote_rd = Some "300" /\ rl_new_role demote_rd = Some "manager" /\
   rl_current_role demote_rd = Some "chief" /\
   find_user (users_tbl team_store) "300" = Some (plain "300" "chief" (Some "100"))) /\
  exists o, confirm_role_change 5 team_store demote_rd "confirm_role:yes" true = Some o /\
    ro_answer o = A_role_changed /\
    find_user (users_tbl (ro_store o)) "500" =
      Some (with_chief (plain "500" "manager" (Some "400")) (Some "100")) /\
    forall v, In v (users_tbl (ro_store o)) -> chief_id v <> Some "300".
Proof.
  assert (Hnd : NoDup (map tg_id (users_tbl team_store))) by distinct_ids.
  assert (Hu : find_user (users_tbl team_store) "300" = Some (plain "300" "chief" (Some "100")))
    by reflexivity.
  split; [exact (conj Hnd (conj team_store_fit (conj eq_refl (conj eq_refl (conj eq_refl Hu)))))|].
  case_eq (confirm_role_change 5 team_store demote_rd "confirm_role:yes" true);
    [|intros Ho; vm_compute in Ho; discriminate].
  intros o Ho.
  destruct (demotion_detaches_team 5 team_store demote_rd true o "300" _ Hnd team_store_fit
              eq_refl eq_refl eq_refl Hu Ho) as [Ha [_ [Hb Hc]]].
  assert (Hbl : below (users_tbl team_store) "300" (plain "500" "manager" (Some "400"))).
  { apply (below_via _ _ (plain "400" "manager" (Some "300"))); [cbn; tauto | reflexivity |].
    apply below_direct; [cbn; tauto | reflexivity]. }
  exists o. split; [reflexivity|]. split; [exact Ha|]. split; [|exact Hc].
  exact (Hb _ Hbl ltac:(cbn; discriminate)).
Defined.

(** Manager 400 is promoted to chief; the department name fits. *)
Lemma promotion_to_chief_row_witness :
  (NoDup (map tg_id (users_tbl team_store)) /\ users_fit team_store /\
   rl_user_id promote_rd = Some "400" /\
   rl_new_role promote_rd = Some "chief" /\ rl_current_role promote_rd = Some "manager" /\
   find_user (users_tbl team_store) "400" = Some (plain "400" "manager" (Some "300"))) /\
  exists o, confirm_role_change 5 team_store promote_rd "confirm_role:yes" true = Some o /\
    ro_answer o = A_role_changed /\ ro_state o = END /\
    find_user (users_tbl (ro_store o)) "400" =
      Some (mk_user "400" "400" "400" "chief" (Some "100") (Some ("Отдел " ++ "400"))) /\
    (forall y, y <> "400" -> find_user (users_tbl (ro_store o)) y = find_user (users_tbl team_store) y) /\
    ro_sent o = match py_int "400" with Some c => if true then [(c, "chief")] else [] | None => [] end.
Proof.
  assert (Hnd : NoDup (map tg_id (users_tbl team_store))) by distinct_ids.
  assert (Hu : find_user (users_tbl team_store) "400" = Some (plain "400" "manager" (Some "300")))
    by reflexivity.
  split; [exact (conj Hnd (conj team_store_fit (conj eq_refl (conj eq_refl (conj eq_refl Hu)))))|].
  exact (promotion_to_chief_row 5 team_store promote_rd true "400" _ Hnd team_store_fit
           eq_refl eq_refl eq_refl Hu).
Defined.

(** Chief 300 is made director while 100 stays director. *)
Lemma promotion_to_director_row_witness :
  (rl_user_id crown_rd = Some "300" /\ rl_new_role crown_rd = Some "director" /\
   rl_current_role crown_rd = Some "chief" /\
   find_user (users_tbl team_store) "300" = Some (plain "300" "chief" (Some "100"))) /\
  exists o, confirm_role_change 5 team_store crown_rd "confirm_role:yes" true = Some o /\
    ro_answer o = A_role_changed /\
    find_user (users_tbl (ro_store o)) "300" =
      Some (mk_user "300" "300" "300" "director" None (Some "management")) /\
    (forall y, y <> "300" -> find_user (users_tbl (ro_store o)) y = find_user (users_tbl team_store) y).
Proof.
  assert (Hu : find_user (users_tbl team_store) "300" = Some (plain "300" "chief" (Some "100")))
    by reflexivity.
  split; [exact (conj eq_refl (conj eq_refl (conj eq_refl Hu)))|].
  exact (promotion_to_director_row 5 team_store crown_rd true "300" "chief" _
           eq_refl eq_refl eq_refl Hu).
Defined.

(** Newcomer 300 registers as " Ivan " " Petrov " in the sample store. *)
Lemma registration_dialogue_witness :
  (users_fit open_store /\ find_user (users_tbl open_store) "300" = None) /\
  start open_store "300" (mk_reg_data None None) =
    (REGISTER_NAME, mk_reg_data (Some "300") (rd_name (mk_reg_data None None)), A_enter_name) /\
  register_name (mk_reg_data (Some "300") (rd_name (mk_reg_data None None))) " Ivan " =
    (REGISTER_SURNAME, mk_reg_data (Some "300") (Some (strip " Ivan ")), A_enter_surname) /\
  exists st' r u,
    register_surname_handler open_store (mk_reg_data (Some "300") (Some (strip " Ivan "))) " Petrov "
      = Some (st', r) /\
    r = R_welcome_manager /\
    tg_id u = "300" /\ name u = "Ivan" /\ surname u = "Petrov" /\
    (role u = "director" <-> users_tbl open_store = []) /\
    db_fits u = true /\
    users_tbl st' = (if db_fits u then users_tbl open_store ++ [u] else users_tbl open_store)%list /\
    tasks_tbl st' = tasks_tbl open_store.
Proof.
  assert (H : find_user (users_tbl open_store) "300" = None) by reflexivity.
  split; [exact (conj open_store_fit H)|].
  exact (registration_dialogue open_store "300" (mk_reg_data None None)
           " Ivan " " Petrov " open_store_fit H).
Defined.

(** Director 100 types three spaces as the text, picks 200, 20.09.2025 and
    14:30, a day ahead. *)
Lemma blank_task_text_lost_witness :
  (strip "   " = "" /\
   exists c, ud_task_creator_role (mk_user_data None None None (Some "director") (Some "100"))
               = Some "director" /\
     ud_task_creator_id (mk_user_data None None None (Some "director") (Some "100")) = Some c /\
     exists v, In v (users_tbl open_store) /\ tg_id v <> c) /\
  (exists l, l <> [] /\
     task_text_handler open_store (mk_user_data None None None (Some "director") (Some "100")) "   " =
       (CHOOSE_USER, mk_user_data (Some "") None None (Some "director") (Some "100"),
        A_choose_employee l)) /\
  assign_task (mk_user_data (Some "") None None (Some "director") (Some "100")) "assign:200" =
    Some (DEADLINE_DATE, mk_user_data (Some "") (Some "200") None (Some "director") (Some "100"),
          A_enter_date) /\
  deadline_time_handler open_store
    (mk_user_data (Some "") (Some "200") (Some "20.09.2025") (Some "director") (Some "100"))
    100 "14:30" 1758300000 true =
  mk_outcome END open_store
    (mk_user_data (Some "") (Some "200") (Some "20.09.2025") (Some "director") (Some "100"))
    [] [] [R_data_lost].
Proof.
  assert (H0 : strip "   " = "") by reflexivity.
  assert (Hc : exists c, ud_task_creator_role (mk_user_data None None None (Some "director") (Some "100"))
                           = Some "director" /\
     ud_task_creator_id (mk_user_data None None None (Some "director") (Some "100")) = Some c /\
     exists v, In v (users_tbl open_store) /\ tg_id v <> c).
  { exists "100". split; [reflexivity|]. split; [reflexivity|].
    exists (plain "200" "manager" (Some "100")). split; [right; left; reflexivity | discriminate]. }
  split; [exact (conj H0 Hc)|].
  pose proof (blank_task_text_lost open_store (mk_user_data None None None (Some "director") (Some "100"))
                "   " H0 (or_introl Hc)) as T.
  cbv zeta in T. destruct T as [T1 [T2 T3]].
  split; [exact T1|]. split; [apply T2; cbn; intuition discriminate|].
  apply (T3 "assign:200" DEADLINE_DATE
           (mk_user_data (Some "") (Some "200") None (Some "director") (Some "100")) A_enter_date
           "20.09.2025" DEADLINE_TIME _ A_enter_time 100%N "14:30" 1758300000%Z true 1758378600%Z);
    [vm_compute; reflexivity | vm_compute; reflexivity | vm_compute; reflexivity | lia].
Defined.

(** Manager 200 closes the open sample task and finds it among their
    completed tasks. *)
Lemma done_task_listed_witness :
  (store_wf open_store /\ find_task (tasks_tbl open_store) "1" = Some (sample_task "new") /\
   find_user (users_tbl open_store) (assignee_id (sample_task "new")) =
     Some (plain "200" "manager" (Some "100")) /\
   role (plain "200" "manager" (Some "100")) = "manager") /\
  exists l, show_completed_tasks (o_store (mark_done open_store "1" true))
              (assignee_id (sample_task "new")) = A_completed l /\
    In (as_done (sample_task "new")) l /\
    Forall (fun r => assignee_id r = assignee_id (sample_task "new") /\ status r = "done") l.
Proof.
  assert (H1 : find_task (tasks_tbl open_store) "1" = Some (sample_task "new"))
    by (vm_compute; reflexivity).
  assert (H2 : find_user (users_tbl open_store) (assignee_id (sample_task "new")) =
     Some (plain "200" "manager" (Some "100"))) by reflexivity.
  assert (H3 : role (plain "200" "manager" (Some "100")) = "manager") by reflexivity.
  split; [exact (conj open_store_wf (conj H1 (conj H2 H3)))|].
  exact (done_task_listed open_store "1" true _ _ open_store_wf H1 H2 H3).
Defined.

(** Chief 300 lists the team: 400 reports to them directly. *)
Lemma show_employees_lists_witness :
  (find_user (users_tbl team_store) "300" = Some (plain "300" "chief" (Some "100")) /\
   show_employees 5 team_store "300" =
     Some (A_staff [plain "400" "manager" (Some "300"); plain "500" "manager" (Some "400")])) /\
  (role (plain "300" "chief" (Some "100")) = "director" ->
     forall v, In v (users_tbl team_store) -> tg_id v <> "300" ->
     exists l, A_staff [plain "400" "manager" (Some "300"); plain "500" "manager" (Some "400")]
               = A_staff l /\ In v l) /\
  (role (plain "300" "chief" (Some "100")) = "chief" ->
     forall v, In v (users_tbl team_store) -> chief_id v = Some "300" ->
     exists l, A_staff [plain "400" "manager" (Some "300"); plain "500" "manager" (Some "400")]
               = A_staff l /\ In v l).
Proof.
  assert (H1 : find_user (users_tbl team_store) "300" = Some (plain "300" "chief" (Some "100")))
    by reflexivity.
  assert (H2 : show_employees 5 team_store "300" =
     Some (A_staff [plain "400" "manager" (Some "300"); plain "500" "manager" (Some "400")]))
    by (vm_compute; reflexivity).
  split; [split; assumption | exact (show_employees_lists 5 team_store "300" _ _ H1 H2)].
Defined.

(** Director changes manager 400 to chief through the three dialogue steps. *)
Lemma role_change_flow_witness :
  (users_fit team_store /\ ~ In ":"%char (list_ascii_of_string "400") /\
   choose_user_for_role team_store empty_role_data ("role_user:" ++ "400") =
     Some (CHOOSE_NEW_ROLE, mk_role_data (Some "400") None (Some "manager") (Some ["chief"; "director"]),
           A_choose_role ["chief"; "director"]) /\
   In "chief" ["chief"; "director"]) /\
  exists rd2, choose_new_role team_store
                (mk_role_data (Some "400") None (Some "manager") (Some ["chief"; "director"]))
                ("choose_role:" ++ "chief") = Some (CONFIRM_ROLE_CHANGE, rd2, A_confirm) /\
  forall o, confirm_role_change 5 team_store rd2 "confirm_role:yes" true = Some o ->
    ro_answer o = A_role_changed /\
    exists u v, find_user (users_tbl team_store) "400" = Some u /\
      find_user (users_tbl (ro_store o)) "400" = Some v /\ role u <> "chief" /\
      if String.eqb "chief" "chief" && String.eqb (role u) "manager" &&
         negb (fits 100 ("Отдел " ++ surname u))
      then v = u else role v = "chief".
Proof.
  assert (H1 : ~ In ":"%char (list_ascii_of_string "400")) by (cbn; intuition discriminate).
  assert (H3 : choose_user_for_role team_store empty_role_data ("role_user:" ++ "400") =
     Some (CHOOSE_NEW_ROLE, mk_role_data (Some "400") None (Some "manager") (Some ["chief"; "director"]),
           A_choose_role ["chief"; "director"])) by (vm_compute; reflexivity).
  assert (H4 : In "chief" ["chief"; "director"]) by (left; reflexivity).
  split; [exact (conj team_store_fit (conj H1 (conj H3 H4)))|].
  exact (role_change_flow 5 team_store empty_role_data "400" _ _ "chief" true
           team_store_fit H1 H3 H4).
Defined.
